(** * Verification of the SRE assistant's job and investigation core

    A shallow embedding of the control-plane job protocol, the policy
    gate, the tool invocation wrapper, the session state store and the
    OODA investigation graph, with the properties of the specification
    stated and settled against it.

    Conventions of the embedding:
    - Python [str] values are byte strings and their text is taken to be
      ASCII: [str.lower] maps [A]-[Z] to [a]-[z] and leaves every other
      byte alone.
    - Python dictionaries are finite maps ([gmap]) from strings.
    - Functions that raise return a sum: [inl] for a value, [inr] for the
      exception.
    - Mutable module-level state (the circuit breaker tables, the Redis
      keyspace, the database tables) is threaded explicitly. *)

From Stdlib Require Import ZArith QArith Qminmax Ascii String List Sorted Lia Bool.
From stdpp Require Import base option gmap strings list.

Local Open Scope string_scope.
Local Open Scope Z_scope.

(** ** Python builtins used by the code *)

Module Py.

(** [c.lower()] for one ASCII character. *)
Definition lower_ascii (c : ascii) : ascii :=
  let n := nat_of_ascii c in
  if (Nat.leb 65 n && Nat.leb n 90)%bool then ascii_of_nat (n + 32) else c.

(** [s.lower()]. *)
Fixpoint lower (s : string) : string :=
  match s with
  | EmptyString => EmptyString
  | String c s' => String (lower_ascii c) (lower s')
  end.

(** [sub in s] for two strings. *)
Fixpoint str_in (sub s : string) : bool :=
  if String.prefix sub s then true
  else match s with
       | EmptyString => false
       | String _ s' => str_in sub s'
       end.

(** [s.startswith(p)]. *)
Definition startswith (s p : string) : bool := String.prefix p s.

(** [s[n:]]. *)
Fixpoint drop_str (n : nat) (s : string) : string :=
  match n, s with
  | O, _ => s
  | S n', String _ s' => drop_str n' s'
  | S _, EmptyString => EmptyString
  end.

(** Truthiness of a string: non-empty. *)
Definition truthy_str (s : string) : bool :=
  match s with EmptyString => false | _ => true end.

(** [x in xs] for a list of strings. *)
Definition str_in_list (x : string) (xs : list string) : bool :=
  existsb (String.eqb x) xs.

(** [a or b] on optional strings, as produced by [dict.get]. *)
Definition or_str (a b : option string) : option string :=
  match a with
  | Some s => if truthy_str s then a else b
  | None => b
  end.

Definition digit_char (d : nat) : ascii := ascii_of_nat (48 + d).

Fixpoint str_of_nat_aux (fuel n : nat) (acc : string) : string :=
  match fuel with
  | O => acc
  | S fuel' =>
      let acc' := String (digit_char (n mod 10)) acc in
      if Nat.ltb n 10 then acc' else str_of_nat_aux fuel' (n / 10) acc'
  end.

(** [str(n)] for a non-negative integer. *)
Definition str_of_nat (n : nat) : string := str_of_nat_aux (S n) n "".

(** [", ".join(xs)]. *)
Fixpoint join (sep : string) (xs : list string) : string :=
  match xs with
  | [] => ""
  | [x] => x
  | x :: rest => x +:+ sep +:+ join sep rest
  end.

(** The double quote and the line feed. *)
Definition dq : string := String (ascii_of_nat 34) EmptyString.
Definition nl : string := String (ascii_of_nat 10) EmptyString.

(** Values found in JSON-like parameter dictionaries. *)
Inductive value : Type :=
| VNone
| VBool (b : bool)
| VInt (z : Z)
| VFloat (q : Q)
| VStr (s : string).

(** [bool(v)]. *)
Definition truthy (v : value) : bool :=
  match v with
  | VNone => false
  | VBool b => b
  | VInt z => negb (z =? 0)
  | VFloat q => negb (Qeq_bool q 0)
  | VStr s => truthy_str s
  end.

(** [v == 0]: numbers compare by value and [False == 0] holds. *)
Definition eq_zero (v : value) : bool :=
  match v with
  | VNone => false
  | VBool b => negb b
  | VInt z => z =? 0
  | VFloat q => Qeq_bool q 0
  | VStr _ => false
  end.

End Py.

(** ** Policy engine ([sre_agent/policy_engine.py]) *)

Module PolicyEngine.

Record RemediationAction := {
  action_type : string;
  target : string;
  parameters : gmap string Py.value;
  safety_check : string;
}.

Record RemediationPlan := {
  plan_id : string;
  hypothesis : string;
  actions : list RemediationAction;
  estimated_duration : string;
  risk_level : string;
  requires_approval : bool;
  verification_metrics : list string;
}.

Record AlertContext := {
  alert_name : string;
  severity : string;
  labels : gmap string string;
  annotations : gmap string string;
}.

(** The reason returned next to the verdict; each constructor stands for
    one of the f-strings of [evaluate_action] and keeps its arguments. *)
Inductive Reason : Type :=
| RestartBlocked (risk : Q)        (* RESTART blocked on PROD: Risk score r >= 3.0 *)
| RestartAllowed (risk : Q)        (* RESTART allowed on PROD: Risk score r < 3.0 *)
| DeleteBlocked                    (* DELETE blocked on PROD: Too dangerous for production *)
| ScaleZeroBlocked                 (* SCALE DOWN to 0 blocked on PROD: Would cause service outage *)
| RollbackBlocked                  (* ROLLBACK blocked on PROD: Requires explicit approval flag *)
| NonProduction (env : string)     (* Action allowed: Non-production environment (env) *)
| DefaultPolicy (atype env : string). (* Action allowed: atype in env (default policy) *)

Definition is_production (env_lower : string) : bool :=
  String.eqb env_lower "production".

Definition evaluate_action (action : RemediationAction) (environment : string)
    (risk_score : Q) : bool * Reason :=
  let env_lower := Py.lower environment in
  let atype := Py.lower (action_type action) in
  (* Rule 1: Block RESTART on PROD unless risk < 3 *)
  if (String.eqb atype "restart" && is_production env_lower)%bool then
    if Qle_bool 3 risk_score then (false, RestartBlocked risk_score)
    else (true, RestartAllowed risk_score)
  (* Rule 2: Block DELETE on PROD *)
  else if (Py.str_in_list atype ["delete"; "patch"] && Py.str_in "delete" atype
           && is_production env_lower)%bool then
    (false, DeleteBlocked)
  else
    (* Rule 3: Block SCALE DOWN to 0 on PROD *)
    let scale_blocked :=
      if String.eqb atype "scale" then
        let scale_params := parameters action in
        let replicas :=
          match scale_params !! "replicas" with
          | Some v => v
          | None => match scale_params !! "replica_count" with
                    | Some v => v
                    | None => Py.VNone
                    end
          end in
        (Py.eq_zero replicas && is_production env_lower)%bool
      else false in
    if scale_blocked then (false, ScaleZeroBlocked)
    else
      (* Rule 4: Block ROLLBACK on PROD without explicit approval flag *)
      let rollback_blocked :=
        if (String.eqb atype "rollback" && is_production env_lower)%bool then
          let explicit_approval :=
            default (Py.VBool false) (parameters action !! "explicit_approval") in
          negb (Py.truthy explicit_approval)
        else false in
      if rollback_blocked then (false, RollbackBlocked)
      (* Rule 5: Allow all actions in non-PROD environments *)
      else if negb (is_production env_lower) then (true, NonProduction environment)
      (* Rule 6: Default allow for other action types in PROD *)
      else (true, DefaultPolicy atype environment).

Definition get_environment_from_context (alert_context : option AlertContext) : string :=
  match alert_context with
  | None => "production"
  | Some ctx =>
      let l := labels ctx in
      let env :=
        Py.or_str (l !! "environment")
          (Py.or_str (l !! "env")
             (Py.or_str (l !! "namespace") (Some "production"))) in
      Py.lower (default "production" env)
  end.

Definition risk_level_map (level : string) : Q :=
  if String.eqb level "low" then 2
  else if String.eqb level "medium" then 5
  else if String.eqb level "high" then 8
  else 5.

Definition dangerous_actions : list string := ["restart"; "rollback"; "delete"].

Definition calculate_risk_score (remediation_plan : option RemediationPlan) : Q :=
  match remediation_plan with
  | None => 5
  | Some plan =>
      let base_score := risk_level_map (risk_level plan) in
      let action_count := length (actions plan) in
      let base_score := if Nat.ltb 3 action_count then (base_score + 1)%Q else base_score in
      let base_score := if Nat.ltb 5 action_count then (base_score + 1)%Q else base_score in
      let base_score :=
        fold_left
          (fun (acc : Q) a =>
             if Py.str_in_list (Py.lower (action_type a)) dangerous_actions
             then (acc + (1 # 2))%Q else acc)
          (actions plan) base_score in
      Qmin base_score 10
  end.

End PolicyEngine.

(** ** Tool invocation wrapper ([sre_agent/mcp_tool_wrapper.py]) *)

Module ToolWrapper.

(** Exceptions that travel through the wrappers.  [str(e)] of a plain
    exception is its message; a tenacity [RetryError] carries the
    exception of the last attempt. *)
Inductive exn : Type :=
| RetryError (last_attempt : option string)
| Exception (msg : string).

Record ToolError := {
  tool_name : string;
  error_message : string;
  retry_count : nat;
  is_recoverable : bool;
  suggestion : string;
}.

Definition to_agent_response (self : ToolError) : string :=
  "Error: Tool " +:+ tool_name self +:+ " failed after "
    +:+ Py.str_of_nat (retry_count self) +:+ " attempts. "
    +:+ "Proceeding without this data. (Error: " +:+ error_message self +:+ ")".

(** One row of [AgentAuditLog]. *)
Record AuditRow := {
  row_id : nat;
  row_incident_id : string;
  row_agent_name : string;
  row_tool_name : string;
  row_tool_args : string;
  row_status : string;
  row_result : option string;
  row_error_message : option string;
}.

(** [_CIRCUIT_BREAKER_STATE]: three dictionaries keyed by tool name. *)
Record CircuitBreakerState := {
  failures : gmap string Z;
  last_failure : gmap string Z;
  is_open : gmap string bool;
}.

Definition cb_initial : CircuitBreakerState :=
  {| failures := ∅; last_failure := ∅; is_open := ∅ |}.

(** What a wrapped call can observe and change: the wall clock (in
    microseconds), how often the body of the underlying tool has run, the
    circuit breaker tables, the audit table and whether the audit
    database accepts writes, and the ambient audit context. *)
Record World := {
  clock : Z;
  invocations : nat;
  breaker : CircuitBreakerState;
  audit_table : list AuditRow;
  audit_db_up : bool;
  audit_context : option string * option string;
}.

Definition set_clock (t : Z) (w : World) : World :=
  {| clock := t; invocations := invocations w; breaker := breaker w;
     audit_table := audit_table w; audit_db_up := audit_db_up w;
     audit_context := audit_context w |}.

Definition set_invocations (n : nat) (w : World) : World :=
  {| clock := clock w; invocations := n; breaker := breaker w;
     audit_table := audit_table w; audit_db_up := audit_db_up w;
     audit_context := audit_context w |}.

Definition set_breaker (b : CircuitBreakerState) (w : World) : World :=
  {| clock := clock w; invocations := invocations w; breaker := b;
     audit_table := audit_table w; audit_db_up := audit_db_up w;
     audit_context := audit_context w |}.

Definition set_audit_table (t : list AuditRow) (w : World) : World :=
  {| clock := clock w; invocations := invocations w; breaker := breaker w;
     audit_table := t; audit_db_up := audit_db_up w;
     audit_context := audit_context w |}.

Definition microseconds (seconds : Z) : Z := seconds * 1000000.

(** [time.sleep(seconds)]. *)
Definition sleep (seconds : Z) (w : World) : World :=
  set_clock (clock w + microseconds seconds) w.

(** The underlying tool: its name and, for the [i]-th run of its body on
    an input, how long the run takes (microseconds) and whether it
    returns a result or raises an exception with a message. *)
Record Tool := {
  name : string;
  body : nat -> string -> Z * (string + string);
}.

(** A callable [invoke(input_data)]. *)
Definition Invoke : Type := string -> World -> World * (string + exn).

(** The unwrapped [tool.invoke]. *)
Definition original_invoke (tool : Tool) : Invoke :=
  fun input_data w =>
    let '(duration, outcome) := body tool (invocations w) input_data in
    let w' := set_invocations (S (invocations w)) (set_clock (clock w + duration) w) in
    match outcome with
    | inl result => (w', inl result)
    | inr msg => (w', inr (Exception msg))
    end.

(** *** tenacity *)

(** [wait_exponential(multiplier, min, max)] for a given attempt number. *)
Definition wait_exponential (multiplier min max : Z) (attempt_number : nat) : Z :=
  Z.max (Z.max 0 min) (Z.min (multiplier * 2 ^ Z.of_nat (attempt_number - 1)) max).

(** The loop of [retry(stop=stop_after_attempt(n), wait=..., reraise=...)]:
    [extra] is the number of attempts still allowed after this one.  When
    the stop condition holds after a failed attempt, tenacity raises the
    exception of that attempt itself if [reraise] is set, and a
    [RetryError] wrapping it otherwise. *)
Fixpoint retry_attempts (reraise : bool) (f : Invoke) (input_data : string)
    (extra attempt_number : nat) (w : World) : World * (string + exn) :=
  match f input_data w with
  | (w1, inl result) => (w1, inl result)
  | (w1, inr e) =>
      match extra with
      | O =>
          if reraise then (w1, inr e)
          else (w1, inr (RetryError
                           (match e with Exception m => Some m | RetryError l => l end)))
      | S extra' =>
          retry_attempts reraise f input_data extra' (S attempt_number)
            (sleep (wait_exponential 1 1 10 attempt_number) w1)
      end
  end.

(** [retry_decorator] of [wrap_tool_with_retry]: [reraise=True]. *)
Definition invoke_with_retry (max_attempts : nat) (f : Invoke) : Invoke :=
  fun input_data w => retry_attempts true f input_data (max_attempts - 1) 1 w.

(** The [ToolError] built by the two [except] clauses of [safe_invoke]. *)
Definition tool_error_of (tool_name : string) (max_attempts : nat) (e : exn) : ToolError :=
  match e with
  | RetryError last_exception =>
      {| tool_name := tool_name;
         error_message := default "Unknown error after retries" last_exception;
         retry_count := max_attempts;
         is_recoverable := false;
         suggestion := "The " +:+ tool_name
                         +:+ " tool is unavailable. Proceed with data from other tools." |}
  | Exception msg =>
      {| tool_name := tool_name;
         error_message := msg;
         retry_count := 1;
         is_recoverable := true;
         suggestion := "Single failure in " +:+ tool_name
                         +:+ ". Consider retrying manually." |}
  end.

(** [safe_invoke]: the retry layer. *)
Definition safe_invoke (tool_name : string) (max_attempts : nat) (f : Invoke) : Invoke :=
  fun input_data w =>
    match invoke_with_retry max_attempts f input_data w with
    | (w', inl result) => (w', inl result)
    | (w', inr e) => (w', inl (to_agent_response (tool_error_of tool_name max_attempts e)))
    end.

(** *** Circuit breaker *)

Definition CIRCUIT_BREAKER_THRESHOLD : Z := 5.
Definition CIRCUIT_BREAKER_RECOVERY_TIME : Z := 60.

(** [check_circuit_breaker]: [Some e] when it raises. *)
Definition check_circuit_breaker (tool_name : string) (w : World) : option exn :=
  let st := breaker w in
  if default false (is_open st !! tool_name) then
    match last_failure st !! tool_name with
    | Some last_fail =>
        let elapsed := clock w - last_fail in
        if elapsed <? microseconds CIRCUIT_BREAKER_RECOVERY_TIME then
          Some (Exception
                  ("Circuit Breaker OPEN for " +:+ tool_name +:+ " (Cooling down for "
                     +:+ Py.str_of_nat
                           (Z.to_nat
                              (Z.quot (microseconds CIRCUIT_BREAKER_RECOVERY_TIME - elapsed)
                                      1000000))
                     +:+ "s)"))
        else None (* half-open: allow one trial *)
    | None => None
    end
  else None.

Definition record_success (tool_name : string) (w : World) : World :=
  let st := breaker w in
  if 0 <? default 0 (failures st !! tool_name) then
    set_breaker {| failures := <[tool_name := 0]> (failures st);
                   last_failure := last_failure st;
                   is_open := <[tool_name := false]> (is_open st) |} w
  else w.

Definition record_failure (tool_name : string) (w : World) : World :=
  let st := breaker w in
  let current := default 0 (failures st !! tool_name) + 1 in
  set_breaker {| failures := <[tool_name := current]> (failures st);
                 last_failure := <[tool_name := clock w]> (last_failure st);
                 is_open := if CIRCUIT_BREAKER_THRESHOLD <=? current
                            then <[tool_name := true]> (is_open st)
                            else is_open st |} w.

(** [cb_invoke]: the circuit breaker layer. *)
Definition cb_invoke (tool_name : string) (f : Invoke) : Invoke :=
  fun input_data w =>
    match check_circuit_breaker tool_name w with
    | Some e => (w, inr e)
    | None =>
        match f input_data w with
        | (w', inl result) => (record_success tool_name w', inl result)
        | (w', inr e) => (record_failure tool_name w', inr e)
        end
    end.

(** *** Audit *)

Definition str_exn (e : exn) : string :=
  match e with
  | Exception msg => msg
  | RetryError _ => "RetryError"
  end.

Definition truncate_result (result : option string) : option string :=
  match result with
  | Some r =>
      if Py.truthy_str r then
        if 10000 <? Z.of_nat (String.length r)
        then Some (String.substring 0 (Z.to_nat 10000) r +:+ "... (truncated)")
        else Some r
      else None
  | None => None
  end.

(** [log_audit_entry]: creates a PENDING row when [audit_id] is [None],
    updates the row otherwise; a failing database write is swallowed and
    the given [audit_id] is returned.  Fresh ids stand for [uuid.uuid4()]. *)
Definition log_audit_entry (tool_name status args : string) (result error : option string)
    (audit_id : option nat) (w : World) : World * option nat :=
  if audit_db_up w then
    let '(incident_id, agent_name) := audit_context w in
    let result_str := truncate_result result in
    match audit_id with
    | Some id =>
        let update (r : AuditRow) :=
          if Nat.eqb (row_id r) id then
            {| row_id := row_id r; row_incident_id := row_incident_id r;
               row_agent_name := row_agent_name r; row_tool_name := row_tool_name r;
               row_tool_args := row_tool_args r; row_status := status;
               row_result := result_str; row_error_message := error |}
          else r in
        (set_audit_table (map update (audit_table w)) w, Some id)
    | None =>
        let new_id := length (audit_table w) in
        let log_entry :=
          {| row_id := new_id;
             row_incident_id := default "general" (Py.or_str incident_id None);
             row_agent_name := default "Unknown" (Py.or_str agent_name None);
             row_tool_name := tool_name; row_tool_args := args;
             row_status := status; row_result := None; row_error_message := None |} in
        (set_audit_table (audit_table w ++ [log_entry]) w, Some new_id)
    end
  else (w, audit_id).

(** [audit_invoke]: the audit layer. *)
Definition audit_invoke (tool_name : string) (f : Invoke) : Invoke :=
  fun input_data w =>
    let '(w0, audit_id) := log_audit_entry tool_name "PENDING" input_data None None None w in
    match f input_data w0 with
    | (w1, inl result) =>
        (fst (log_audit_entry tool_name "SUCCESS" input_data (Some result) None audit_id w1),
         inl result)
    | (w1, inr e) =>
        (fst (log_audit_entry tool_name "FAILURE" input_data None (Some (str_exn e)) audit_id w1),
         inr e)
    end.

(** *** The composed stack *)

(** [wrap_all_tools_with_retry] for one tool: retry inside, circuit
    breaker around it, audit outside. *)
Definition wrapped_invoke (tool : Tool) (max_attempts : nat) : Invoke :=
  let retry_tool := safe_invoke (name tool) max_attempts (original_invoke tool) in
  let cb_tool := cb_invoke (name tool) retry_tool in
  audit_invoke (name tool) cb_tool.

Definition wrap_all_tools_with_retry (tools : list Tool) (max_attempts : nat)
    : list (string * Invoke) :=
  map (fun tool => (name tool, wrapped_invoke tool max_attempts)) tools.

(** A series of calls of one callable; each call is made [delay]
    microseconds after the previous one returned. *)
Fixpoint call_series (f : Invoke) (calls : list (Z * string)) (w : World)
    : World * list (string + exn) :=
  match calls with
  | [] => (w, [])
  | (delay, input_data) :: rest =>
      let '(w1, r) := f input_data (set_clock (clock w + delay) w) in
      let '(w2, rs) := call_series f rest w1 in
      (w2, r :: rs)
  end.

(** The state of a fresh process. *)
Definition fresh_world : World :=
  {| clock := 0; invocations := 0; breaker := cb_initial; audit_table := [];
     audit_db_up := true; audit_context := (None, Some "UnknownAgent") |}.

(** A tool whose body raises on every run. *)
Definition always_fails (tool : Tool) : Prop :=
  forall i input_data, exists duration msg, body tool i input_data = (duration, inr msg).

(** A sample tool pointing at a black hole: every run takes 5 s and
    raises. *)
Definition black_hole_tool : Tool :=
  {| name := "search_logs";
     body := fun _ _ => (5000000, inr "connection refused") |}.

End ToolWrapper.

(** ** Investigation state ([sre_agent/agent_state.py], as used by the graph) *)

Module AgentState.
Import PolicyEngine.

Record ReflectorAnalysis := {
  analysis_hypothesis : string;
  confidence : Q;
  discrepancies : list string;
  reasoning : string;
  recommended_agents : list string;
  requires_deeper_investigation : bool;
}.

Record InvestigationFindings := {
  infra_findings : option (option string * option string); (* kubernetes, metrics *)
  code_findings : option string;
  logs_findings : option string;
  correlation_timestamp : string;
}.

Inductive Message : Type :=
| HumanMessage (content : string)
| OtherMessage (content : string).

(** The keys of [state["metadata"]] that the nodes read or write.  Agent
    objects are represented by their presence. *)
Record Metadata := {
  llm_provider : option string;
  cluster_id : option string;
  tools : list string;              (* names of the tools handed to the executor *)
  kubernetes_agent : bool;
  metrics_agent : bool;
  logs_agent : bool;
  github_agent : bool;
  investigation_complete : bool;
  investigation_error : option string;
  deeper_investigation_agents : list string;
  blocked_actions : list (string * string * Reason);  (* action type, target, reason *)
}.

Definition empty_metadata : Metadata :=
  {| llm_provider := None; cluster_id := None; tools := [];
     kubernetes_agent := false; metrics_agent := false; logs_agent := false;
     github_agent := false; investigation_complete := false;
     investigation_error := None; deeper_investigation_agents := [];
     blocked_actions := [] |}.

Definition md_llm_provider (v : option string) (m : Metadata) : Metadata :=
  {| llm_provider := v; cluster_id := cluster_id m; tools := tools m;
     kubernetes_agent := kubernetes_agent m; metrics_agent := metrics_agent m;
     logs_agent := logs_agent m; github_agent := github_agent m;
     investigation_complete := investigation_complete m;
     investigation_error := investigation_error m;
     deeper_investigation_agents := deeper_investigation_agents m;
     blocked_actions := blocked_actions m |}.

Definition md_investigation (complete : bool) (error : option string) (m : Metadata)
    : Metadata :=
  {| llm_provider := llm_provider m; cluster_id := cluster_id m; tools := tools m;
     kubernetes_agent := kubernetes_agent m; metrics_agent := metrics_agent m;
     logs_agent := logs_agent m; github_agent := github_agent m;
     investigation_complete := complete;
     investigation_error := error;
     deeper_investigation_agents := deeper_investigation_agents m;
     blocked_actions := blocked_actions m |}.

Definition md_deeper_investigation_agents (v : list string) (m : Metadata) : Metadata :=
  {| llm_provider := llm_provider m; cluster_id := cluster_id m; tools := tools m;
     kubernetes_agent := kubernetes_agent m; metrics_agent := metrics_agent m;
     logs_agent := logs_agent m; github_agent := github_agent m;
     investigation_complete := investigation_complete m;
     investigation_error := investigation_error m;
     deeper_investigation_agents := v;
     blocked_actions := blocked_actions m |}.

Definition md_blocked_actions (v : list (string * string * Reason)) (m : Metadata)
    : Metadata :=
  {| llm_provider := llm_provider m; cluster_id := cluster_id m; tools := tools m;
     kubernetes_agent := kubernetes_agent m; metrics_agent := metrics_agent m;
     logs_agent := logs_agent m; github_agent := github_agent m;
     investigation_complete := investigation_complete m;
     investigation_error := investigation_error m;
     deeper_investigation_agents := deeper_investigation_agents m;
     blocked_actions := v |}.

(** The agents, the tools and the provider that the graph builder closes
    over and writes into the metadata. *)
Definition md_agents_and_tools (github : bool) (ts : list string) (provider : string)
    (m : Metadata) : Metadata :=
  {| llm_provider := Some provider; cluster_id := cluster_id m; tools := ts;
     kubernetes_agent := true; metrics_agent := true;
     logs_agent := true; github_agent := github;
     investigation_complete := investigation_complete m;
     investigation_error := investigation_error m;
     deeper_investigation_agents := deeper_investigation_agents m;
     blocked_actions := blocked_actions m |}.

Record ExecutionResults := {
  exec_error : option string;
  exec_status : option string;
  total_actions : nat;
  executed_actions : list (RemediationAction * string);
  failed_actions : list (RemediationAction * string);
}.

(** The shared state record.  A key absent from the Python dictionary is
    [None]; [state.get(k, d)] is [default d]. *)
Record t := {
  messages : list Message;
  current_query : option string;
  alert_context : option AlertContext;
  agent_results : option (gmap string string);
  investigation_findings : option InvestigationFindings;
  reflector_analysis : option ReflectorAnalysis;
  remediation_plan : option RemediationPlan;
  approval_status : option string;
  execution_status : option string;
  execution_results : option ExecutionResults;
  verification_result : option string;
  ooda_phase : option string;
  next : option string;
  investigation_count : option Z;
  thought_traces : option (gmap string (list string));
  metadata : option Metadata;
  final_response : option string;
}.

Definition empty : t :=
  {| messages := []; current_query := None; alert_context := None;
     agent_results := None; investigation_findings := None;
     reflector_analysis := None; remediation_plan := None;
     approval_status := None; execution_status := None;
     execution_results := None; verification_result := None;
     ooda_phase := None; next := None; investigation_count := None;
     thought_traces := None; metadata := None; final_response := None |}.

(** A node returns a dictionary with some of the keys; the graph writes
    those keys into the state and leaves the others.  [Update] is such a
    dictionary. *)
Record Update := {
  u_messages : option (list Message);
  u_current_query : option string;
  u_agent_results : option (gmap string string);
  u_investigation_findings : option InvestigationFindings;
  u_reflector_analysis : option ReflectorAnalysis;
  u_remediation_plan : option RemediationPlan;
  u_approval_status : option string;
  u_execution_status : option string;
  u_execution_results : option ExecutionResults;
  u_verification_result : option string;
  u_ooda_phase : option string;
  u_next : option string;
  u_investigation_count : option Z;
  u_thought_traces : option (gmap string (list string));
  u_metadata : option Metadata;
  u_final_response : option string;
}.

Definition no_update : Update :=
  {| u_messages := None; u_current_query := None; u_agent_results := None;
     u_investigation_findings := None; u_reflector_analysis := None;
     u_remediation_plan := None; u_approval_status := None;
     u_execution_status := None; u_execution_results := None;
     u_verification_result := None; u_ooda_phase := None; u_next := None;
     u_investigation_count := None; u_thought_traces := None;
     u_metadata := None; u_final_response := None |}.

(** [d[key] = v] on a node's output. *)
Definition set_messages (v : list Message) (u : Update) : Update :=
  {| u_messages := Some v;
     u_current_query := u_current_query u;
     u_agent_results := u_agent_results u;
     u_investigation_findings := u_investigation_findings u;
     u_reflector_analysis := u_reflector_analysis u;
     u_remediation_plan := u_remediation_plan u;
     u_approval_status := u_approval_status u;
     u_execution_status := u_execution_status u;
     u_execution_results := u_execution_results u;
     u_verification_result := u_verification_result u;
     u_ooda_phase := u_ooda_phase u;
     u_next := u_next u;
     u_investigation_count := u_investigation_count u;
     u_thought_traces := u_thought_traces u;
     u_metadata := u_metadata u;
     u_final_response := u_final_response u |}.

Definition set_current_query (v : string) (u : Update) : Update :=
  {| u_messages := u_messages u;
     u_current_query := Some v;
     u_agent_results := u_agent_results u;
     u_investigation_findings := u_investigation_findings u;
     u_reflector_analysis := u_reflector_analysis u;
     u_remediation_plan := u_remediation_plan u;
     u_approval_status := u_approval_status u;
     u_execution_status := u_execution_status u;
     u_execution_results := u_execution_results u;
     u_verification_result := u_verification_result u;
     u_ooda_phase := u_ooda_phase u;
     u_next := u_next u;
     u_investigation_count := u_investigation_count u;
     u_thought_traces := u_thought_traces u;
     u_metadata := u_metadata u;
     u_final_response := u_final_response u |}.

Definition set_agent_results (v : gmap string string) (u : Update) : Update :=
  {| u_messages := u_messages u;
     u_current_query := u_current_query u;
     u_agent_results := Some v;
     u_investigation_findings := u_investigation_findings u;
     u_reflector_analysis := u_reflector_analysis u;
     u_remediation_plan := u_remediation_plan u;
     u_approval_status := u_approval_status u;
     u_execution_status := u_execution_status u;
     u_execution_results := u_execution_results u;
     u_verification_result := u_verification_result u;
     u_ooda_phase := u_ooda_phase u;
     u_next := u_next u;
     u_investigation_count := u_investigation_count u;
     u_thought_traces := u_thought_traces u;
     u_metadata := u_metadata u;
     u_final_response := u_final_response u |}.

Definition set_investigation_findings (v : InvestigationFindings) (u : Update) : Update :=
  {| u_messages := u_messages u;
     u_current_query := u_current_query u;
     u_agent_results := u_agent_results u;
     u_investigation_findings := Some v;
     u_reflector_analysis := u_reflector_analysis u;
     u_remediation_plan := u_remediation_plan u;
     u_approval_status := u_approval_status u;
     u_execution_status := u_execution_status u;
     u_execution_results := u_execution_results u;
     u_verification_result := u_verification_result u;
     u_ooda_phase := u_ooda_phase u;
     u_next := u_next u;
     u_investigation_count := u_investigation_count u;
     u_thought_traces := u_thought_traces u;
     u_metadata := u_metadata u;
     u_final_response := u_final_response u |}.

Definition set_reflector_analysis (v : ReflectorAnalysis) (u : Update) : Update :=
  {| u_messages := u_messages u;
     u_current_query := u_current_query u;
     u_agent_results := u_agent_results u;
     u_investigation_findings := u_investigation_findings u;
     u_reflector_analysis := Some v;
     u_remediation_plan := u_remediation_plan u;
     u_approval_status := u_approval_status u;
     u_execution_status := u_execution_status u;
     u_execution_results := u_execution_results u;
     u_verification_result := u_verification_result u;
     u_ooda_phase := u_ooda_phase u;
     u_next := u_next u;
     u_investigation_count := u_investigation_count u;
     u_thought_traces := u_thought_traces u;
     u_metadata := u_metadata u;
     u_final_response := u_final_response u |}.

Definition set_remediation_plan (v : RemediationPlan) (u : Update) : Update :=
  {| u_messages := u_messages u;
     u_current_query := u_current_query u;
     u_agent_results := u_agent_results u;
     u_investigation_findings := u_investigation_findings u;
     u_reflector_analysis := u_reflector_analysis u;
     u_remediation_plan := Some v;
     u_approval_status := u_approval_status u;
     u_execution_status := u_execution_status u;
     u_execution_results := u_execution_results u;
     u_verification_result := u_verification_result u;
     u_ooda_phase := u_ooda_phase u;
     u_next := u_next u;
     u_investigation_count := u_investigation_count u;
     u_thought_traces := u_thought_traces u;
     u_metadata := u_metadata u;
     u_final_response := u_final_response u |}.

Definition set_approval_status (v : string) (u : Update) : Update :=
  {| u_messages := u_messages u;
     u_current_query := u_current_query u;
     u_agent_results := u_agent_results u;
     u_investigation_findings := u_investigation_findings u;
     u_reflector_analysis := u_reflector_analysis u;
     u_remediation_plan := u_remediation_plan u;
     u_approval_status := Some v;
     u_execution_status := u_execution_status u;
     u_execution_results := u_execution_results u;
     u_verification_result := u_verification_result u;
     u_ooda_phase := u_ooda_phase u;
     u_next := u_next u;
     u_investigation_count := u_investigation_count u;
     u_thought_traces := u_thought_traces u;
     u_metadata := u_metadata u;
     u_final_response := u_final_response u |}.

Definition set_execution_status (v : string) (u : Update) : Update :=
  {| u_messages := u_messages u;
     u_current_query := u_current_query u;
     u_agent_results := u_agent_results u;
     u_investigation_findings := u_investigation_findings u;
     u_reflector_analysis := u_reflector_analysis u;
     u_remediation_plan := u_remediation_plan u;
     u_approval_status := u_approval_status u;
     u_execution_status := Some v;
     u_execution_results := u_execution_results u;
     u_verification_result := u_verification_result u;
     u_ooda_phase := u_ooda_phase u;
     u_next := u_next u;
     u_investigation_count := u_investigation_count u;
     u_thought_traces := u_thought_traces u;
     u_metadata := u_metadata u;
     u_final_response := u_final_response u |}.

Definition set_execution_results (v : ExecutionResults) (u : Update) : Update :=
  {| u_messages := u_messages u;
     u_current_query := u_current_query u;
     u_agent_results := u_agent_results u;
     u_investigation_findings := u_investigation_findings u;
     u_reflector_analysis := u_reflector_analysis u;
     u_remediation_plan := u_remediation_plan u;
     u_approval_status := u_approval_status u;
     u_execution_status := u_execution_status u;
     u_execution_results := Some v;
     u_verification_result := u_verification_result u;
     u_ooda_phase := u_ooda_phase u;
     u_next := u_next u;
     u_investigation_count := u_investigation_count u;
     u_thought_traces := u_thought_traces u;
     u_metadata := u_metadata u;
     u_final_response := u_final_response u |}.

Definition set_verification_result (v : string) (u : Update) : Update :=
  {| u_messages := u_messages u;
     u_current_query := u_current_query u;
     u_agent_results := u_agent_results u;
     u_investigation_findings := u_investigation_findings u;
     u_reflector_analysis := u_reflector_analysis u;
     u_remediation_plan := u_remediation_plan u;
     u_approval_status := u_approval_status u;
     u_execution_status := u_execution_status u;
     u_execution_results := u_execution_results u;
     u_verification_result := Some v;
     u_ooda_phase := u_ooda_phase u;
     u_next := u_next u;
     u_investigation_count := u_investigation_count u;
     u_thought_traces := u_thought_traces u;
     u_metadata := u_metadata u;
     u_final_response := u_final_response u |}.

Definition set_ooda_phase (v : string) (u : Update) : Update :=
  {| u_messages := u_messages u;
     u_current_query := u_current_query u;
     u_agent_results := u_agent_results u;
     u_investigation_findings := u_investigation_findings u;
     u_reflector_analysis := u_reflector_analysis u;
     u_remediation_plan := u_remediation_plan u;
     u_approval_status := u_approval_status u;
     u_execution_status := u_execution_status u;
     u_execution_results := u_execution_results u;
     u_verification_result := u_verification_result u;
     u_ooda_phase := Some v;
     u_next := u_next u;
     u_investigation_count := u_investigation_count u;
     u_thought_traces := u_thought_traces u;
     u_metadata := u_metadata u;
     u_final_response := u_final_response u |}.

Definition set_next (v : string) (u : Update) : Update :=
  {| u_messages := u_messages u;
     u_current_query := u_current_query u;
     u_agent_results := u_agent_results u;
     u_investigation_findings := u_investigation_findings u;
     u_reflector_analysis := u_reflector_analysis u;
     u_remediation_plan := u_remediation_plan u;
     u_approval_status := u_approval_status u;
     u_execution_status := u_execution_status u;
     u_execution_results := u_execution_results u;
     u_verification_result := u_verification_result u;
     u_ooda_phase := u_ooda_phase u;
     u_next := Some v;
     u_investigation_count := u_investigation_count u;
     u_thought_traces := u_thought_traces u;
     u_metadata := u_metadata u;
     u_final_response := u_final_response u |}.

Definition set_investigation_count (v : Z) (u : Update) : Update :=
  {| u_messages := u_messages u;
     u_current_query := u_current_query u;
     u_agent_results := u_agent_results u;
     u_investigation_findings := u_investigation_findings u;
     u_reflector_analysis := u_reflector_analysis u;
     u_remediation_plan := u_remediation_plan u;
     u_approval_status := u_approval_status u;
     u_execution_status := u_execution_status u;
     u_execution_results := u_execution_results u;
     u_verification_result := u_verification_result u;
     u_ooda_phase := u_ooda_phase u;
     u_next := u_next u;
     u_investigation_count := Some v;
     u_thought_traces := u_thought_traces u;
     u_metadata := u_metadata u;
     u_final_response := u_final_response u |}.

Definition set_thought_traces (v : gmap string (list string)) (u : Update) : Update :=
  {| u_messages := u_messages u;
     u_current_query := u_current_query u;
     u_agent_results := u_agent_results u;
     u_investigation_findings := u_investigation_findings u;
     u_reflector_analysis := u_reflector_analysis u;
     u_remediation_plan := u_remediation_plan u;
     u_approval_status := u_approval_status u;
     u_execution_status := u_execution_status u;
     u_execution_results := u_execution_results u;
     u_verification_result := u_verification_result u;
     u_ooda_phase := u_ooda_phase u;
     u_next := u_next u;
     u_investigation_count := u_investigation_count u;
     u_thought_traces := Some v;
     u_metadata := u_metadata u;
     u_final_response := u_final_response u |}.

Definition set_metadata (v : Metadata) (u : Update) : Update :=
  {| u_messages := u_messages u;
     u_current_query := u_current_query u;
     u_agent_results := u_agent_results u;
     u_investigation_findings := u_investigation_findings u;
     u_reflector_analysis := u_reflector_analysis u;
     u_remediation_plan := u_remediation_plan u;
     u_approval_status := u_approval_status u;
     u_execution_status := u_execution_status u;
     u_execution_results := u_execution_results u;
     u_verification_result := u_verification_result u;
     u_ooda_phase := u_ooda_phase u;
     u_next := u_next u;
     u_investigation_count := u_investigation_count u;
     u_thought_traces := u_thought_traces u;
     u_metadata := Some v;
     u_final_response := u_final_response u |}.

Definition set_final_response (v : string) (u : Update) : Update :=
  {| u_messages := u_messages u;
     u_current_query := u_current_query u;
     u_agent_results := u_agent_results u;
     u_investigation_findings := u_investigation_findings u;
     u_reflector_analysis := u_reflector_analysis u;
     u_remediation_plan := u_remediation_plan u;
     u_approval_status := u_approval_status u;
     u_execution_status := u_execution_status u;
     u_execution_results := u_execution_results u;
     u_verification_result := u_verification_result u;
     u_ooda_phase := u_ooda_phase u;
     u_next := u_next u;
     u_investigation_count := u_investigation_count u;
     u_thought_traces := u_thought_traces u;
     u_metadata := u_metadata u;
     u_final_response := Some v |}.

(** [new or old] per key. *)
Definition pick {A} (new old : option A) : option A :=
  match new with Some _ => new | None => old end.

(** [{**state, **node_output}]. *)
Definition with_metadata (m : Metadata) (s : t) : t :=
  {| messages := messages s; current_query := current_query s;
     alert_context := alert_context s; agent_results := agent_results s;
     investigation_findings := investigation_findings s;
     reflector_analysis := reflector_analysis s;
     remediation_plan := remediation_plan s; approval_status := approval_status s;
     execution_status := execution_status s; execution_results := execution_results s;
     verification_result := verification_result s; ooda_phase := ooda_phase s;
     next := next s; investigation_count := investigation_count s;
     thought_traces := thought_traces s; metadata := Some m;
     final_response := final_response s |}.

Definition merge (s : t) (u : Update) : t :=
  {| messages := default (messages s) (u_messages u);
     current_query := pick (u_current_query u) (current_query s);
     alert_context := alert_context s;
     agent_results := pick (u_agent_results u) (agent_results s);
     investigation_findings := pick (u_investigation_findings u) (investigation_findings s);
     reflector_analysis := pick (u_reflector_analysis u) (reflector_analysis s);
     remediation_plan := pick (u_remediation_plan u) (remediation_plan s);
     approval_status := pick (u_approval_status u) (approval_status s);
     execution_status := pick (u_execution_status u) (execution_status s);
     execution_results := pick (u_execution_results u) (execution_results s);
     verification_result := pick (u_verification_result u) (verification_result s);
     ooda_phase := pick (u_ooda_phase u) (ooda_phase s);
     next := pick (u_next u) (next s);
     investigation_count := pick (u_investigation_count u) (investigation_count s);
     thought_traces := pick (u_thought_traces u) (thought_traces s);
     metadata := pick (u_metadata u) (metadata s);
     final_response := pick (u_final_response u) (final_response s) |}.

End AgentState.

(** ** What survives [json.dumps(value, default=str)] and [json.loads]
       ([sre_agent/redis_state_store.py], lines 110 and 155) *)

Module Json.
Import PolicyEngine.

(** [str(x)] of the objects held by the engine state (pydantic models,
    messages, agents, tools), which is what [default=str] writes for
    them, and what the state schema makes of a message that comes back
    as text.  These belong to pydantic, to LangChain and to
    [agent_state.py]; they are left open. *)
Record Codec := {
  str_message : AgentState.Message -> string;
  str_alert_context : AlertContext -> string;
  str_findings : AgentState.InvestigationFindings -> string;
  str_analysis : AgentState.ReflectorAnalysis -> string;
  str_plan : RemediationPlan -> string;
  str_action : RemediationAction -> string;
  str_tool : string -> string;
  str_agent : string -> string;
  load_message : string -> AgentState.Message;
}.

(** [state["execution_results"]] after the round trip: the dictionary
    comes back, the actions in it as text. *)
Record ExecutionResults := {
  exec_error : option string;
  exec_status : option string;
  total_actions : nat;
  executed_actions : list (string * string);
  failed_actions : list (string * string);
}.

(** [state["metadata"]] after the round trip: tools and agents come
    back as text.  [tools] is [None] when the key is absent. *)
Record Metadata := {
  llm_provider : option string;
  cluster_id : option string;
  tools : option (list string);
  kubernetes_agent : option string;
  metrics_agent : option string;
  logs_agent : option string;
  github_agent : option string;
  investigation_complete : bool;
  investigation_error : option string;
  deeper_investigation_agents : list string;
  blocked_actions : list (string * string * Reason);
}.

(** The engine state after the round trip.  A key absent from the
    dictionary is [None]; the keys that held objects hold their text. *)
Record State := {
  messages : option (list string);
  current_query : option string;
  alert_context : option string;
  agent_results : option (gmap string string);
  investigation_findings : option string;
  reflector_analysis : option string;
  remediation_plan : option string;
  approval_status : option string;
  execution_status : option string;
  execution_results : option ExecutionResults;
  verification_result : option string;
  ooda_phase : option string;
  next : option string;
  investigation_count : option Z;
  thought_traces : option (gmap string (list string));
  metadata : option Metadata;
  final_response : option string;
}.

(** [bool(state)] for the dictionary: it has a key. *)
Definition has_keys (s : State) : bool :=
  bool_decide (is_Some (messages s)) || bool_decide (is_Some (current_query s))
  || bool_decide (is_Some (alert_context s)) || bool_decide (is_Some (agent_results s))
  || bool_decide (is_Some (investigation_findings s))
  || bool_decide (is_Some (reflector_analysis s))
  || bool_decide (is_Some (remediation_plan s))
  || bool_decide (is_Some (approval_status s))
  || bool_decide (is_Some (execution_status s))
  || bool_decide (is_Some (execution_results s))
  || bool_decide (is_Some (verification_result s))
  || bool_decide (is_Some (ooda_phase s)) || bool_decide (is_Some (next s))
  || bool_decide (is_Some (investigation_count s))
  || bool_decide (is_Some (thought_traces s)) || bool_decide (is_Some (metadata s))
  || bool_decide (is_Some (final_response s)).

Definition dumps_execution_results (c : Codec) (r : AgentState.ExecutionResults)
    : ExecutionResults :=
  let flat := map (fun '(action, text) => (str_action c action, text)) in
  {| exec_error := AgentState.exec_error r;
     exec_status := AgentState.exec_status r;
     total_actions := AgentState.total_actions r;
     executed_actions := flat (AgentState.executed_actions r);
     failed_actions := flat (AgentState.failed_actions r) |}.

(** The metadata of a state that the runtime stores always has the key
    [tools]: the initial states carry it and so does every output of
    the swarm. *)
Definition dumps_metadata (c : Codec) (m : AgentState.Metadata) : Metadata :=
  let agent (present : bool) (name : string) :=
    if present then Some (str_agent c name) else None in
  {| llm_provider := AgentState.llm_provider m;
     cluster_id := AgentState.cluster_id m;
     tools := Some (map (str_tool c) (AgentState.tools m));
     kubernetes_agent := agent (AgentState.kubernetes_agent m) "kubernetes_agent";
     metrics_agent := agent (AgentState.metrics_agent m) "metrics_agent";
     logs_agent := agent (AgentState.logs_agent m) "logs_agent";
     github_agent := agent (AgentState.github_agent m) "github_agent";
     investigation_complete := AgentState.investigation_complete m;
     investigation_error := AgentState.investigation_error m;
     deeper_investigation_agents := AgentState.deeper_investigation_agents m;
     blocked_actions := AgentState.blocked_actions m |}.

(** [json.loads(json.dumps(state, default=str))] for an engine state:
    strings, numbers, booleans, lists and dictionaries of them come back
    as they were, every object comes back as its text. *)
Definition dumps_state (c : Codec) (s : AgentState.t) : State :=
  {| messages := Some (map (str_message c) (AgentState.messages s));
     current_query := AgentState.current_query s;
     alert_context := str_alert_context c <$> AgentState.alert_context s;
     agent_results := AgentState.agent_results s;
     investigation_findings := str_findings c <$> AgentState.investigation_findings s;
     reflector_analysis := str_analysis c <$> AgentState.reflector_analysis s;
     remediation_plan := str_plan c <$> AgentState.remediation_plan s;
     approval_status := AgentState.approval_status s;
     execution_status := AgentState.execution_status s;
     execution_results := dumps_execution_results c <$> AgentState.execution_results s;
     verification_result := AgentState.verification_result s;
     ooda_phase := AgentState.ooda_phase s;
     next := AgentState.next s;
     investigation_count := AgentState.investigation_count s;
     thought_traces := AgentState.thought_traces s;
     metadata := dumps_metadata c <$> AgentState.metadata s;
     final_response := AgentState.final_response s |}.

(** What the nodes find in the metadata of a state that came back: a
    tool or an agent that is a text is there (and truthy when the text
    is not empty), but a text has no [name]: such a tool is found under
    the empty name. *)
Definition usable_metadata (m : Metadata) : AgentState.Metadata :=
  let present (text : option string) := Py.truthy_str (default "" text) in
  {| AgentState.llm_provider := llm_provider m;
     AgentState.cluster_id := cluster_id m;
     AgentState.tools := map (fun _ => "") (default [] (tools m));
     AgentState.kubernetes_agent := present (kubernetes_agent m);
     AgentState.metrics_agent := present (metrics_agent m);
     AgentState.logs_agent := present (logs_agent m);
     AgentState.github_agent := present (github_agent m);
     AgentState.investigation_complete := investigation_complete m;
     AgentState.investigation_error := investigation_error m;
     AgentState.deeper_investigation_agents := deeper_investigation_agents m;
     AgentState.blocked_actions := blocked_actions m |}.

(** The keys of a state that came back whose values the nodes can use
    as they are.  The keys that hold the text of an object
    ([alert_context], [investigation_findings], [reflector_analysis],
    [remediation_plan], and [execution_results] with the actions in it)
    are left out: in a run from the entry point the swarm, the
    reflector, the planner and the executor write the last four anew
    before the first node that reads them, and the text of the alert
    context is dealt with where the swarm reads it. *)
Definition usable (c : Codec) (s : State) : AgentState.t :=
  {| AgentState.messages := map (load_message c) (default [] (messages s));
     AgentState.current_query := current_query s;
     AgentState.alert_context := None;
     AgentState.agent_results := agent_results s;
     AgentState.investigation_findings := None;
     AgentState.reflector_analysis := None;
     AgentState.remediation_plan := None;
     AgentState.approval_status := approval_status s;
     AgentState.execution_status := execution_status s;
     AgentState.execution_results := None;
     AgentState.verification_result := verification_result s;
     AgentState.ooda_phase := ooda_phase s;
     AgentState.next := next s;
     AgentState.investigation_count := investigation_count s;
     AgentState.thought_traces := thought_traces s;
     AgentState.metadata := usable_metadata <$> metadata s;
     AgentState.final_response := final_response s |}.

End Json.

(** ** Session state store ([sre_agent/redis_state_store.py]) *)

Module StateStore.

(** The dictionary that the runtime hands to [set]. *)
Record Value := {
  value_status : option string;
  value_current_node : option string;
  value_approval_required : option bool;
  value_timestamp : option string;
  value_state : option AgentState.t;
  value_remediation_plan : option PolicyEngine.RemediationPlan;
  value_final_response : option string;
  value_verification_result : option string;
  value_error : option string;
}.

(** What is kept under a session key and what [get] gives back: the
    dictionary after [json.dumps(value, default=str)] and
    [json.loads]. *)
Record Snapshot := {
  status : option string;
  current_node : option string;
  approval_required : option bool;
  timestamp : option string;
  stored_state : option Json.State;
  snapshot_remediation_plan : option string;
  snapshot_final_response : option string;
  snapshot_verification_result : option string;
  snapshot_error : option string;
}.

Definition dumps (c : Json.Codec) (v : Value) : Snapshot :=
  {| status := value_status v;
     current_node := value_current_node v;
     approval_required := value_approval_required v;
     timestamp := value_timestamp v;
     stored_state := Json.dumps_state c <$> value_state v;
     snapshot_remediation_plan := Json.str_plan c <$> value_remediation_plan v;
     snapshot_final_response := value_final_response v;
     snapshot_verification_result := value_verification_result v;
     snapshot_error := value_error v |}.

(** [bool(pending_data)]: the dictionary has a key. *)
Definition has_keys (d : Snapshot) : bool :=
  bool_decide (is_Some (status d)) || bool_decide (is_Some (current_node d))
  || bool_decide (is_Some (approval_required d)) || bool_decide (is_Some (timestamp d))
  || bool_decide (is_Some (stored_state d))
  || bool_decide (is_Some (snapshot_remediation_plan d))
  || bool_decide (is_Some (snapshot_final_response d))
  || bool_decide (is_Some (snapshot_verification_result d))
  || bool_decide (is_Some (snapshot_error d)).

(** [pending_data.get("state")] when it is truthy: a dictionary with at
    least one key. *)
Definition state (d : Snapshot) : option Json.State :=
  match stored_state d with
  | Some s => if Json.has_keys s then Some s else None
  | None => None
  end.

(** A Redis key holds a string with a time to live, a list, or a plain
    string.  Keys are not removed when their time to live runs out: the
    store is modelled between two expiries. *)
Inductive Entry : Type :=
| SessionEntry (value : Snapshot) (ttl : Z)
| ListEntry (items : list string) (ttl : option Z)
| PlainEntry (value : string).

(** The Redis commands that the store issues. *)
Inductive Command : Type :=
| SETEX | GET | DEL | RPUSH | LLEN | EXPIRE | LRANGE | SET | EXISTS.

Definition all_commands : list Command :=
  [SETEX; GET; DEL; RPUSH; LLEN; EXPIRE; LRANGE; SET; EXISTS].

(** [RedisStateStore] together with the server behind it:
    [client] is [redis_client is not None]; [ping_ok] tells whether
    [ping()] answers; [commands_ok] which of the other commands do
    (a command that does not raises an exception).  The program builds
    its one store with the default time to live, 3600 seconds
    ([get_state_store]); the model keeps the attribute, for the
    positive values. *)
Record t := {
  client : bool;
  ping_ok : bool;
  commands_ok : Command -> bool;
  keyspace : gmap string Entry;
  default_ttl_seconds : positive;
}.

(** [self.default_ttl]. *)
Definition default_ttl (self : t) : Z := Z.pos (default_ttl_seconds self).

Definition with_keyspace (k : gmap string Entry) (s : t) : t :=
  {| client := client s; ping_ok := ping_ok s; commands_ok := commands_ok s;
     keyspace := k; default_ttl_seconds := default_ttl_seconds s |}.

Definition is_available (self : t) : bool :=
  if negb (client self) then false else ping_ok self.

Definition approval_key (key : string) : string := "sre_agent:approval:" +:+ key.
Definition logs_key (key : string) : string := "sre_agent:logs:" +:+ key.
Definition lock_key (cluster_id : string) : string := "CLUSTER_LOCK:" +:+ cluster_id.

(** [set]: the server refuses a [SETEX] whose time to live is not
    positive, which the method reports as [False] like any other
    error. *)
Definition set (c : Json.Codec) (self : t) (key : string) (value : Value)
    (ttl : option Z) : t * bool :=
  if negb (is_available self) then (self, false)
  else
    let serialized := dumps c value in
    let ttl_seconds := default (default_ttl self) ttl in
    if commands_ok self SETEX && (0 <? ttl_seconds) then
      (with_keyspace
         (<[approval_key key := SessionEntry serialized ttl_seconds]> (keyspace self)) self,
       true)
    else (self, false).

Definition get (self : t) (key : string) : option Snapshot :=
  if negb (is_available self) then None
  else if commands_ok self GET then
    match keyspace self !! approval_key key with
    | Some (SessionEntry value _) => Some value
    | _ => None
    end
  else None.

Definition delete (self : t) (key : string) : t * bool :=
  if negb (is_available self) then (self, false)
  else if commands_ok self DEL then
    match keyspace self !! approval_key key with
    | Some _ => (with_keyspace (base.delete (approval_key key) (keyspace self)) self, true)
    | None => (self, false)
    end
  else (self, false).

(** [append_log]: [RPUSH], then [LLEN], then [EXPIRE] when the list has
    one item, all in one [try]: a command that fails makes the method
    return [False] with the effect of the commands before it in
    place. *)
Definition append_log (self : t) (key message : string) : t * bool :=
  if negb (is_available self) then (self, false)
  else
    let redis_key := logs_key key in
    let pushed :=
      if commands_ok self RPUSH then
        match keyspace self !! redis_key with
        | None => Some ([message], None)
        | Some (ListEntry items ttl) => Some ((items ++ [message])%list, ttl)
        | Some _ => None
        end
      else None in
    match pushed with
    | None => (self, false)
    | Some (items, ttl) =>
        let self1 :=
          with_keyspace (<[redis_key := ListEntry items ttl]> (keyspace self)) self in
        if commands_ok self LLEN then
          (* Set TTL if new key (prevents eternal logs) *)
          if Nat.eqb (length items) 1 then
            if commands_ok self EXPIRE then
              (with_keyspace
                 (<[redis_key := ListEntry items (Some (default_ttl self))]> (keyspace self))
                 self, true)
            else (self1, false)
          else (self1, true)
        else (self1, false)
    end.

Definition get_logs (self : t) (key : string) : list string :=
  if negb (is_available self) then []
  else if commands_ok self LRANGE then
    match keyspace self !! logs_key key with
    | Some (ListEntry items _) => items
    | _ => []
    end
  else [].

Definition set_cluster_lock (self : t) (cluster_id : string) (locked : bool) : t * bool :=
  if negb (is_available self) then (self, false)
  else
    let key := lock_key cluster_id in
    if locked then
      if commands_ok self SET
      then (with_keyspace (<[key := PlainEntry "LOCKED"]> (keyspace self)) self, true)
      else (self, false)
    else
      if commands_ok self DEL
      then (with_keyspace (base.delete key (keyspace self)) self, true)
      else (self, false).

(** [redis_client.exists(key)]: the number of the given keys that exist. *)
Definition redis_exists (self : t) (key : string) : Z :=
  match keyspace self !! key with Some _ => 1 | None => 0 end.

Definition is_cluster_locked (self : t) (cluster_id : string) : bool :=
  if negb (is_available self) then false
  else if commands_ok self EXISTS then 0 <? redis_exists self (lock_key cluster_id)
  else false.

End StateStore.

(** ** Control-plane database and CRUD ([backend/models.py], [backend/crud.py]) *)

Module Backend.

(** UUIDs in their canonical text form; timestamps in microseconds. *)
Definition UUID : Type := string.

Inductive JobStatus : Type := PENDING | RUNNING | COMPLETED | FAILED.
Inductive JobType : Type := INVESTIGATION | REMEDIATION | CONFIGURE_CLUSTER.
Inductive ClusterStatus : Type := ONLINE | OFFLINE | MAINTENANCE.

Definition JobStatus_eqb (a b : JobStatus) : bool :=
  match a, b with
  | PENDING, PENDING | RUNNING, RUNNING | COMPLETED, COMPLETED | FAILED, FAILED => true
  | _, _ => false
  end.

Record User := {
  user_id : UUID;
  email : string;
  user_org_id : UUID;
}.

Record Cluster := {
  cluster_id : UUID;
  cluster_name : string;
  org_id : UUID;
  token : string;
  cluster_status : ClusterStatus;
  last_heartbeat : option Z;
}.

Record Job := {
  job_id : UUID;
  job_cluster_id : UUID;
  job_type : JobType;
  status : JobStatus;
  payload : option string;
  result : option string;
  logs : option string;
  created_at : Z;
  started_at : option Z;
  completed_at : option Z;
}.

Record AuditEvent := {
  event_cluster_id : UUID;
  event_timestamp : Z;
  actor_type : string;
  actor_id : string;
  action_type : string;
  resource_target : string;
  outcome : string;
  details : option string;
}.

(** The tables. *)
Record DB := {
  users : list User;
  clusters : list Cluster;
  jobs : list Job;
  audit_events : list AuditEvent;
}.

Definition with_jobs (js : list Job) (db : DB) : DB :=
  {| users := users db; clusters := clusters db; jobs := js;
     audit_events := audit_events db |}.

Definition with_audit_events (es : list AuditEvent) (db : DB) : DB :=
  {| users := users db; clusters := clusters db; jobs := jobs db;
     audit_events := es |}.

(** [schemas.JobStatusUpdate]. *)
Record JobStatusUpdate := {
  new_status : JobStatus;
  new_result : option string;
  new_logs : option string;
}.

Definition get_user_by_email (db : DB) (e : string) : option User :=
  find (fun u => String.eqb (email u) e) (users db).

Definition get_cluster_by_token (db : DB) (tok : string) : option Cluster :=
  find (fun c => String.eqb (token c) tok) (clusters db).

Definition get_cluster_by_id (db : DB) (id : UUID) : option Cluster :=
  find (fun c => String.eqb (cluster_id c) id) (clusters db).

(** The first row with the least [created_at]: [ORDER BY created_at ASC
    LIMIT 1].  Among rows created at the same instant the table order
    decides. *)
Fixpoint oldest (js : list Job) : option Job :=
  match js with
  | [] => None
  | j :: rest =>
      match oldest rest with
      | Some j' => if created_at j <=? created_at j' then Some j else Some j'
      | None => Some j
      end
  end.

Definition is_pending_for (cid : UUID) (j : Job) : bool :=
  String.eqb (job_cluster_id j) cid && JobStatus_eqb (status j) PENDING.

(** A query only reads: it returns its answer and the tables as they
    were. *)
Definition get_pending_job_for_cluster (db : DB) (cid : UUID) : DB * option Job :=
  (db, oldest (List.filter (is_pending_for cid) (jobs db))).

Definition get_job_by_id (db : DB) (id : UUID) : option Job :=
  find (fun j => String.eqb (job_id j) id) (jobs db).

(** The assignments of [update_job_status] to the loaded row. *)
Definition apply_status_update (now : Z) (job : Job) (status_update : JobStatusUpdate) : Job :=
  let st := new_status status_update in
  (* [status == RUNNING and not job.started_at] *)
  let starts := JobStatus_eqb st RUNNING && negb (bool_decide (is_Some (started_at job))) in
  {| job_id := job_id job;
     job_cluster_id := job_cluster_id job;
     job_type := job_type job;
     status := st;
     payload := payload job;
     result := match new_result status_update with
               | Some r => if Py.truthy_str r then Some r else result job
               | None => result job
               end;
     logs := match new_logs status_update with
             | Some l => if Py.truthy_str l
                         then Some (default "" (Py.or_str (logs job) None) +:+ l)
                         else logs job
             | None => logs job
             end;
     created_at := created_at job;
     started_at := if starts then Some now else started_at job;
     completed_at := if starts then completed_at job
                     else if JobStatus_eqb st COMPLETED || JobStatus_eqb st FAILED
                          then Some now else completed_at job |}.

(** Writes a row back in place of the first row with its id. *)
Fixpoint replace_job (j : Job) (js : list Job) : list Job :=
  match js with
  | [] => []
  | j' :: rest =>
      if String.eqb (job_id j') (job_id j) then j :: rest else j' :: replace_job j rest
  end.

Definition update_job_status (now : Z) (db : DB) (id : UUID) (status_update : JobStatusUpdate)
    : DB * option Job :=
  match get_job_by_id db id with
  | None => (db, None)
  | Some job =>
      let job' := apply_status_update now job status_update in
      (with_jobs (replace_job job' (jobs db)) db, Some job')
  end.

Definition create_audit_event (now : Z) (db : DB) (cid : UUID)
    (action_type resource_target outcome actor_type actor_id : string)
    (details : option string) : DB * AuditEvent :=
  let audit_event :=
    {| event_cluster_id := cid; event_timestamp := now;
       actor_type := actor_type; actor_id := actor_id;
       action_type := action_type; resource_target := resource_target;
       outcome := outcome; details := details |} in
  (with_audit_events (audit_events db ++ [audit_event]) db, audit_event).

(** Insertion of an event into a list ordered by descending timestamp. *)
Fixpoint insert_desc (e : AuditEvent) (es : list AuditEvent) : list AuditEvent :=
  match es with
  | [] => [e]
  | e' :: rest =>
      if event_timestamp e' <? event_timestamp e then e :: es else e' :: insert_desc e rest
  end.

Definition get_audit_events (db : DB) (cid : UUID) (limit : nat) : list AuditEvent :=
  take limit
    (foldr insert_desc []
       (List.filter (fun e => String.eqb (event_cluster_id e) cid) (audit_events db))).

End Backend.

(** ** HTTP surface ([sre_agent/api/v1/clusters.py], [sre_agent/api/v1/jobs.py]) *)

Module Api.
Import Backend.

(** What a handler hands back: a body, or [HTTPException]. *)
Inductive Response (A : Type) : Type :=
| Ok (body : A)
| HTTPException (status_code : Z) (detail : string).
Arguments Ok {A} body.
Arguments HTTPException {A} status_code detail.

Section Handlers.

(** [backend.auth.decode_access_token]: the [sub] claim of a valid user
    token. *)
Variable decode_access_token : string -> option string.

(** The wall clock read by the handler. *)
Variable now : Z.

Definition get_current_user_and_org (db : DB) (tok : string) : Response User :=
  match decode_access_token tok with
  | None => HTTPException 401 "Could not validate credentials"
  | Some sub =>
      match get_user_by_email db sub with
      | None => HTTPException 401 "User not found"
      | Some user => Ok user
      end
  end.

(** [GET /clusters/{cluster_id}/health] *)
Definition get_cluster_health (db : DB) (tok : string) (cid : UUID)
    : Response (ClusterStatus * option Z) :=
  match get_current_user_and_org db tok with
  | HTTPException c d => HTTPException c d
  | Ok user =>
      match get_cluster_by_id db cid with
      | Some cluster =>
          (* Ownership Check *)
          if String.eqb (org_id cluster) (user_org_id user)
          then Ok (cluster_status cluster, last_heartbeat cluster)
          else HTTPException 404 "Cluster not found"
      | None => HTTPException 404 "Cluster not found"
      end
  end.

(** [GET /clusters/{cluster_id}/lock] *)
Definition get_cluster_lock (db : DB) (storage : StateStore.t) (tok : string) (cid : UUID)
    : Response bool :=
  match get_current_user_and_org db tok with
  | HTTPException c d => HTTPException c d
  | Ok user => Ok (StateStore.is_cluster_locked storage cid)
  end.

(** [POST /clusters/{cluster_id}/lock] with payload [{locked: ...}]. *)
Definition set_cluster_lock (db : DB) (storage : StateStore.t) (tok : string) (cid : UUID)
    (payload_locked : option bool) : DB * StateStore.t * Response bool :=
  match get_current_user_and_org db tok with
  | HTTPException c d => (db, storage, HTTPException c d)
  | Ok user =>
      let locked := default false payload_locked in
      let '(storage', success) := StateStore.set_cluster_lock storage cid locked in
      if negb success then (db, storage', HTTPException 500 "Failed to update lock state")
      else
        (* Audit this action *)
        let '(db', _) :=
          create_audit_event now db cid "EMERGENCY_LOCK_TOGGLE" "cluster" "SUCCESS"
            "USER" (email user)
            (Some ("Lock set to " +:+ (if locked then "True" else "False"))) in
        (db', storage', Ok locked)
  end.

(** [GET /clusters/{cluster_id}/audit] *)
Definition get_cluster_audit_logs (db : DB) (tok : string) (cid : UUID) (limit : nat)
    : Response (list AuditEvent) :=
  match get_current_user_and_org db tok with
  | HTTPException c d => HTTPException c d
  | Ok user => Ok (get_audit_events db cid limit)
  end.

(** [POST /clusters/{cluster_id}/jobs/trigger] *)
Definition trigger_job (db : DB) (tok : string) (cid : UUID) (new_id : UUID)
    (jt : JobType) (pl : option string) : DB * Response Job :=
  match get_current_user_and_org db tok with
  | HTTPException c d => (db, HTTPException c d)
  | Ok user =>
      match get_cluster_by_id db cid with
      | Some cluster =>
          if String.eqb (org_id cluster) (user_org_id user) then
            let new_job :=
              {| job_id := new_id; job_cluster_id := cid; job_type := jt;
                 status := PENDING; payload := pl; result := None; logs := None;
                 created_at := now; started_at := None; completed_at := None |} in
            (with_jobs (jobs db ++ [new_job]) db, Ok new_job)
          else (db, HTTPException 404 "Cluster not found")
      | None => (db, HTTPException 404 "Cluster not found")
      end
  end.

(** The dependency that resolves the worker's bearer token. *)
Definition cluster_of_authorization (db : DB) (authorization : string) : Response Cluster :=
  if negb (Py.startswith authorization "Bearer ")
  then HTTPException 401 "Invalid authorization header"
  else
    let tok := Py.drop_str 7 authorization in
    match get_cluster_by_token db tok with
    | None => HTTPException 401 "Invalid cluster token"
    | Some cluster => Ok cluster
    end.

(** [GET /clusters/jobs/pending] *)
Definition get_pending_job (db : DB) (authorization : string) : DB * Response (option Job) :=
  match cluster_of_authorization db authorization with
  | HTTPException c d => (db, HTTPException c d)
  | Ok cluster =>
      let '(db', job) := get_pending_job_for_cluster db (cluster_id cluster) in
      (db', Ok job)
  end.

(** [POST /clusters/jobs/{job_id}/status] *)
Definition update_job_status (db : DB) (authorization : string) (id : UUID)
    (status_update : JobStatusUpdate) : DB * Response (option Job) :=
  match cluster_of_authorization db authorization with
  | HTTPException c d => (db, HTTPException c d)
  | Ok cluster =>
      match get_job_by_id db id with
      | Some job =>
          if String.eqb (job_cluster_id job) (cluster_id cluster) then
            let '(db', updated_job) := Backend.update_job_status now db id status_update in
            (db', Ok updated_job)
          else (db, HTTPException 404 "Job not found")
      | None => (db, HTTPException 404 "Job not found")
      end
  end.

(** [POST /clusters/jobs/{job_id}/logs] *)
Definition append_job_logs (db : DB) (authorization : string) (id : UUID) (text : string)
    : DB * Response string :=
  match cluster_of_authorization db authorization with
  | HTTPException c d => (db, HTTPException c d)
  | Ok cluster =>
      match get_job_by_id db id with
      | Some job =>
          if String.eqb (job_cluster_id job) (cluster_id cluster) then
            let status_update :=
              {| new_status := status job; new_result := None; new_logs := Some text |} in
            (fst (Backend.update_job_status now db id status_update), Ok "ok")
          else (db, HTTPException 404 "Job not found")
      | None => (db, HTTPException 404 "Job not found")
      end
  end.

End Handlers.

End Api.

(** ** The investigation graph ([sre_agent/graph_builder.py]) *)

Module Graph.
Import PolicyEngine AgentState.

(** What a domain agent does when called: it returns a dictionary with
    [agent_results] and [thought_traces], or raises. *)
Inductive AgentOutcome : Type :=
| AgentReturns (results : gmap string string) (traces : gmap string (list string))
| AgentRaises (msg : string).

(** The collaborators outside the engine.  Each answer may depend on the
    superstep [k] of the run in which it is asked. *)
Record Oracles := {
  agent_call : nat -> string -> AgentOutcome;
  (* structured-output call of the reflector: the analysis, or the
     message of the exception *)
  reflect : nat -> string -> ReflectorAnalysis + string;
  (* structured-output call of the planner *)
  plan : nat -> RemediationPlan + string;
  (* tool invocation by the executor: superstep, action number, tool
     name; the result, or the message of the exception *)
  tool_call : nat -> nat -> string -> gmap string Py.value -> string + string;
  verify : nat -> option string;
  aggregate_text : nat -> string;
  utc_now : nat -> string;
  db_now : nat -> Z;
  model_dump_json : AlertContext -> string;
}.

Definition get_metadata (state : AgentState.t) : Metadata :=
  default empty_metadata (metadata state).

(** The content of the last [HumanMessage], if any. *)
Fixpoint last_human (msgs : list Message) : option string :=
  match msgs with
  | [] => None
  | m :: rest =>
      match last_human rest with
      | Some c => Some c
      | None => match m with HumanMessage c => Some c | OtherMessage _ => None end
      end
  end.

(** [_prepare_initial_state].  The keys [agents_invoked] and
    [requires_collaboration] that it also returns are read by no node of
    the graph and are left out of the record. *)
Definition _prepare_initial_state (state : AgentState.t) : Update :=
  let current_query := default "" (last_human (messages state)) in
  let existing_metadata := get_metadata state in
  let llm_provider := default "groq" (llm_provider existing_metadata) in
  set_current_query current_query
    (set_ooda_phase "OBSERVE"
       (set_agent_results ∅
          (set_metadata (md_llm_provider (Some llm_provider) existing_metadata)
             (set_next "investigation_swarm"
                (set_thought_traces ∅
                   (set_investigation_count 0 no_update)))))).

Definition agent_thought (agent_name : string) : string :=
  "Alert indicates potential issue. Investigating " +:+ agent_name
    +:+ " domain for evidence. Checking Golden Signals...".

(** [traces[agent_name].append(thought)], creating the list if needed. *)
Definition append_trace (agent_name thought : string) (traces : gmap string (list string))
    : gmap string (list string) :=
  <[agent_name := (default [] (traces !! agent_name) ++ [thought])%list]> traces.

(** [_investigation_swarm].  The text of the query handed to the agents is
    not modelled: the agents are oracles. *)
Definition _investigation_swarm (o : Oracles) (k : nat) (state : AgentState.t) : Update :=
  let md := get_metadata state in
  if negb (kubernetes_agent md && metrics_agent md && logs_agent md) then
    set_investigation_findings
      {| infra_findings := None; code_findings := None; logs_findings := None;
         correlation_timestamp := utc_now o k |}
      (set_ooda_phase "ORIENT"
         (set_next "reflector"
            (set_metadata
               (md_investigation true (Some "Agent instances not available") md)
               no_update)))
  else
    let names :=
      (["kubernetes_agent"; "metrics_agent"; "logs_agent"]
         ++ (if github_agent md then ["github_agent"] else []))%list in
    (* every task appends its thought to the dictionary held by the state *)
    let shared :=
      match thought_traces state with
      | Some tr => Some (fold_left (fun t n => append_trace n (agent_thought n) t) names tr)
      | None => None
      end in
    let local_traces n := default {[ n := [agent_thought n] ]} shared in
    let result_of n :=
      match agent_call o k n with
      | AgentReturns r t => (r, t)
      | AgentRaises msg => ({[ n := "Error: " +:+ msg ]}, local_traces n)
      end in
    let results := map result_of names in
    let agent_results :=
      fold_left (fun acc r => fst r ∪ acc) results (default ∅ (agent_results state)) in
    let all_traces :=
      fold_left (fun acc r => snd r ∪ acc) results (default ∅ shared) in
    let findings :=
      {| infra_findings :=
           Some (agent_results !! "kubernetes_agent", agent_results !! "metrics_agent");
         code_findings := agent_results !! "github_agent";
         logs_findings := agent_results !! "logs_agent";
         correlation_timestamp := utc_now o k |} in
    set_investigation_findings findings
      (set_agent_results agent_results
         (set_ooda_phase "ORIENT"
            (set_next "reflector"
               (set_thought_traces all_traces
                  (set_investigation_count (default 0 (investigation_count state) + 1)
                     (set_metadata (md_investigation true (investigation_error md) md)
                        no_update)))))).

(** What [build_multi_agent_graph] closes over. *)
Record Build := {
  build_tools : list string;
  build_llm_provider : string;
  build_github_agent : bool;
}.

(** [investigation_swarm_with_agents]: the node registered in the graph. *)
Definition investigation_swarm_with_agents (b : Build) (o : Oracles) (k : nat)
    (state : AgentState.t) : Update :=
  let inject :=
    md_agents_and_tools (build_github_agent b) (build_tools b) (build_llm_provider b) in
  let state_with_agents := with_metadata (inject (get_metadata state)) state in
  let result := _investigation_swarm o k state_with_agents in
  set_metadata (inject (default empty_metadata (u_metadata result))) result.

(** *** Reflector *)

Definition TOOL_UNAVAILABLE : string := "TOOL UNAVAILABLE".

(** [x and "TOOL UNAVAILABLE" in str(x)] for a findings bucket. *)
Definition reports_unavailable (bucket : option string) : bool :=
  match bucket with
  | Some text => Py.truthy_str text && Py.str_in TOOL_UNAVAILABLE text
  | None => false
  end.

(** The three buckets read from [agent_results]. *)
Definition reflector_buckets (agent_results : gmap string string)
    : option string * option string * option string :=
  let infra_findings :=
    Py.or_str (agent_results !! "kubernetes_agent") (agent_results !! "metrics_agent") in
  let logs_findings := agent_results !! "logs_agent" in
  let code_findings := agent_results !! "github_agent" in
  (infra_findings, logs_findings, code_findings).

(** The list [tool_failures] built by the three tests, in their order. *)
Definition detect_tool_failures (agent_results : gmap string string) : list string :=
  let '(infra_findings, logs_findings, code_findings) := reflector_buckets agent_results in
  ((if reports_unavailable logs_findings then ["Logs"] else [])
   ++ (if reports_unavailable infra_findings then ["Infrastructure/Metrics"] else [])
   ++ (if reports_unavailable code_findings then ["GitHub/Code"] else []))%list.

(** A bucket after detection: dropped when it reported unavailability. *)
Definition surviving (bucket : option string) : option string :=
  if reports_unavailable bucket then None else bucket.

Definition tool_status_of (tool_failures : list string) : string :=
  match tool_failures with
  | [] => ""
  | _ =>
    Py.nl +:+ "    ⚠️ TOOL UNAVAILABILITY NOTICE:" +:+ Py.nl
      +:+ "    The following tools failed after retries and are unavailable: "
      +:+ Py.join ", " tool_failures +:+ Py.nl +:+ "    " +:+ Py.nl
      +:+ "    CRITICAL INSTRUCTION:" +:+ Py.nl
      +:+ "    1. Acknowledge the missing data (e.g., " +:+ Py.dq
      +:+ "Unable to access GitHub" +:+ Py.dq +:+ ")." +:+ Py.nl
      +:+ "    2. Form a hypothesis based on the REMAINING successful tools." +:+ Py.nl
      +:+ "       Example: " +:+ Py.dq
      +:+ "GitHub is down, but Metrics show high latency, so I suspect a resource exhaustion issue unrelated to recent code changes."
      +:+ Py.dq +:+ Py.nl +:+ "    3. Do NOT just stop. Use what you have." +:+ Py.nl
      +:+ "    "
  end.

(** [x if x else fallback] inside the prompt. *)
Definition shown (fallback : string) (bucket : option string) : string :=
  match bucket with
  | Some text => if Py.truthy_str text then text else fallback
  | None => fallback
  end.

Definition reflection_prompt_of (tool_status alert_json : string)
    (infra code logs : option string) : string :=
    Py.nl
      +:+ "    You are the ReflectorNode in an SRE autonomic system. Your task is to analyze"
      +:+ Py.nl
      +:+ "    findings from parallel investigation agents and identify discrepancies, formulate"
      +:+ Py.nl +:+ "    hypotheses, and determine if deeper investigation is needed."
      +:+ Py.nl +:+ "    " +:+ tool_status +:+ Py.nl +:+ "    Alert Context:" +:+ Py.nl
      +:+ "    " +:+ alert_json +:+ Py.nl +:+ Py.nl +:+ "    Infrastructure Findings:"
      +:+ Py.nl +:+ "    " +:+ shown "No infrastructure findings available" infra
      +:+ Py.nl +:+ Py.nl +:+ "    Code Change Findings (GitHub):" +:+ Py.nl +:+ "    "
      +:+ shown "No code change findings available" code +:+ Py.nl +:+ Py.nl
      +:+ "    Logs Findings:" +:+ Py.nl +:+ "    "
      +:+ shown "No logs findings available" logs +:+ Py.nl +:+ Py.nl
      +:+ "    Analyze these findings and:" +:+ Py.nl
      +:+ "    1. Identify any discrepancies between infrastructure and code findings"
      +:+ Py.nl +:+ "    2. Formulate a primary hypothesis explaining the incident"
      +:+ Py.nl +:+ "    3. Assess confidence level (0.0-1.0)" +:+ Py.nl
      +:+ "    4. Determine if deeper investigation is needed" +:+ Py.nl
      +:+ "    5. Recommend which agents should investigate further" +:+ Py.nl +:+ Py.nl
      +:+ "    Consider Golden Signals:" +:+ Py.nl
      +:+ "    - Latency: Is response time degraded?" +:+ Py.nl
      +:+ "    - Traffic: Is request volume abnormal?" +:+ Py.nl
      +:+ "    - Errors: Are error rates elevated?" +:+ Py.nl
      +:+ "    - Saturation: Are resources (CPU, memory, disk) saturated?" +:+ Py.nl
      +:+ Py.nl
      +:+ "    Return your analysis in JSON format matching ReflectorAnalysis schema."
      +:+ Py.nl +:+ "    ".

(** The prompt sent to the oracle for a given state. *)
Definition reflection_prompt (o : Oracles) (state : AgentState.t) : string :=
  let agent_results := default ∅ (agent_results state) in
  let '(infra_findings, logs_findings, code_findings) := reflector_buckets agent_results in
  let tool_failures := detect_tool_failures agent_results in
  let alert_json :=
    match alert_context state with
    | Some ctx => model_dump_json o ctx
    | None => "No alert context"
    end in
  reflection_prompt_of (tool_status_of tool_failures) alert_json
    (surviving infra_findings) (surviving code_findings) (surviving logs_findings).

Definition reflector_thought : string :=
  "Analyzing findings from parallel agents. Looking for discrepancies between infrastructure state and code changes. Formulating hypothesis based on Golden Signals...".

Definition fallback_analysis (msg : string) : ReflectorAnalysis :=
  {| analysis_hypothesis :=
       "Unable to analyze findings automatically. Manual investigation required.";
     confidence := 0;
     discrepancies := [];
     reasoning := "Error during analysis: " +:+ msg;
     recommended_agents := [];
     requires_deeper_investigation := false |}.

Definition nonempty {A} (l : list A) : bool :=
  match l with [] => false | _ => true end.

(** [_reflector_node]. *)
Definition _reflector_node (o : Oracles) (k : nat) (state : AgentState.t) : Update :=
  let findings := investigation_findings state in
  let agent_results := default ∅ (agent_results state) in
  if negb (bool_decide (is_Some findings)) && bool_decide (agent_results = ∅) then
    set_next "planner" (set_ooda_phase "DECIDE" no_update)
  else
    let md := get_metadata state in
    let llm_provider := default "groq" (Py.or_str (llm_provider md) None) in
    let traces := <["reflector" := [reflector_thought]]> (default ∅ (thought_traces state)) in
    match reflect o k (reflection_prompt o state) with
    | inl analysis =>
        (* limit max investigations to 3 to prevent loops *)
        let current_investigation_count := default 0 (investigation_count state) in
        if requires_deeper_investigation analysis
           && nonempty (recommended_agents analysis)
           && (current_investigation_count <? 3)
        then
          set_reflector_analysis analysis
            (set_next "investigation_swarm"
               (set_ooda_phase "OBSERVE"
                  (set_metadata
                     (md_llm_provider (Some llm_provider)
                        (md_deeper_investigation_agents (recommended_agents analysis) md))
                     (set_thought_traces traces no_update))))
        else
          set_reflector_analysis analysis
            (set_next "planner"
               (set_ooda_phase "DECIDE"
                  (set_metadata (md_llm_provider (Some llm_provider) md)
                     (set_thought_traces traces no_update))))
    | inr msg =>
        set_reflector_analysis (fallback_analysis msg)
          (set_next "planner"
             (set_ooda_phase "DECIDE"
                (set_metadata (md_llm_provider (Some llm_provider) md)
                   (set_thought_traces traces no_update))))
    end.

(** *** Planner *)

(** [_planner_node].  The runbook search, the recall of similar incidents
    and the text of the planning prompt only feed the oracle and are not
    modelled. *)
Definition _planner_node (o : Oracles) (k : nat) (state : AgentState.t) : Update :=
  let reflector_analysis :=
    default {| analysis_hypothesis := "Unknown root cause"; confidence := 1 # 2;
               discrepancies := []; reasoning := "No analysis available";
               recommended_agents := []; requires_deeper_investigation := false |}
      (reflector_analysis state) in
  let md := get_metadata state in
  let llm_provider := default "groq" (Py.or_str (llm_provider md) None) in
  let thought :=
    "Formulating remediation plan for hypothesis: " +:+ analysis_hypothesis reflector_analysis
      +:+ ". Considering safety, rollback, and verification requirements..." in
  let traces := <["planner" := [thought]]> (default ∅ (thought_traces state)) in
  match plan o k with
  | inl p =>
      let p :=
        {| plan_id := "plan-" +:+ utc_now o k; hypothesis := hypothesis p;
           actions := actions p; estimated_duration := estimated_duration p;
           risk_level := risk_level p; requires_approval := requires_approval p;
           verification_metrics := verification_metrics p |} in
      set_remediation_plan p
        (set_next "policy_gate"
           (set_ooda_phase "ACT"
              (set_approval_status (if requires_approval p then "PENDING" else "APPROVED")
                 (set_metadata (md_llm_provider (Some llm_provider) md)
                    (set_thought_traces traces no_update)))))
  | inr _ =>
      let fallback_plan :=
        {| plan_id := "plan-fallback-" +:+ utc_now o k;
           hypothesis := analysis_hypothesis reflector_analysis;
           actions :=
             [ {| action_type := "escalate"; target := "manual_review"; parameters := ∅;
                  safety_check := "Manual review required due to planning error" |} ];
           estimated_duration := "Unknown";
           risk_level := "high";
           requires_approval := true;
           verification_metrics := ["error_rate"; "latency"] |} in
      set_remediation_plan fallback_plan
        (set_next "policy_gate"
           (set_ooda_phase "ACT"
              (set_approval_status "PENDING"
                 (set_metadata (md_llm_provider (Some llm_provider) md)
                    (set_thought_traces traces no_update)))))
  end.

(** *** Policy gate *)

(** The actions of a plan that [evaluate_action] refuses, with the reason. *)
Definition blocked_by_policy (environment : string) (risk_score : Q)
    (acts : list RemediationAction) : list (RemediationAction * Reason) :=
  flat_map
    (fun action =>
       let '(is_allowed, reason) := evaluate_action action environment risk_score in
       if is_allowed then [] else [(action, reason)])
    acts.

(** [_policy_gate_node].  The [policy_evaluation] entry of the metadata is
    read by no node and is left out. *)
Definition _policy_gate_node (state : AgentState.t) : Update :=
  match remediation_plan state with
  | None => set_next "aggregate" (set_ooda_phase "COMPLETE" no_update)
  | Some remediation_plan =>
      let approval_status := default "PENDING" (approval_status state) in
      let environment := get_environment_from_context (alert_context state) in
      let risk_score := calculate_risk_score (Some remediation_plan) in
      let thought :=
        "Evaluating " +:+ Py.str_of_nat (length (actions remediation_plan))
          +:+ " actions against policy rules for " +:+ environment +:+ " environment..." in
      let traces := <["policy_gate" := [thought]]> (default ∅ (thought_traces state)) in
      let blocked_actions :=
        blocked_by_policy environment risk_score (actions remediation_plan) in
      let md := get_metadata state in
      if nonempty blocked_actions then
        let blocked_reasons :=
          map (fun '(action, reason) => (action_type action, target action, reason))
            blocked_actions in
        set_approval_status "PENDING"
          (set_next "aggregate"   (* pause graph, wait for approval *)
             (set_ooda_phase "ACT"
                (set_metadata (md_blocked_actions blocked_reasons md)
                   (set_thought_traces traces no_update))))
      else if requires_approval remediation_plan
              && negb (String.eqb approval_status "APPROVED") then
        set_approval_status "PENDING"
          (set_next "aggregate"
             (set_ooda_phase "ACT"
                (set_metadata md (set_thought_traces traces no_update))))
      else
        set_approval_status "APPROVED"
          (set_next "executor"
             (set_ooda_phase "ACT"
                (set_metadata md (set_thought_traces traces no_update))))
  end.

(** *** Executor *)

(** What the executor reads and changes outside the investigation state:
    the session store, the control-plane database, whether the [backend]
    package could be imported, whether an audit write succeeds, and the
    tool invocations made so far. *)
Record World := {
  storage : StateStore.t;
  db : Backend.DB;
  crud_available : bool;
  audit_write_ok : bool;
  invoked : list (string * gmap string Py.value);
}.

Definition with_db (d : Backend.DB) (w : World) : World :=
  {| storage := storage w; db := d; crud_available := crud_available w;
     audit_write_ok := audit_write_ok w; invoked := invoked w |}.

Definition with_invoked (l : list (string * gmap string Py.value)) (w : World) : World :=
  {| storage := storage w; db := db w; crud_available := crud_available w;
     audit_write_ok := audit_write_ok w; invoked := l |}.

Definition _map_action_to_tool (action_type target : string) : string :=
  let action_lower := Py.lower action_type in
  if String.eqb action_lower "restart" then
    if Py.str_in "pod" (Py.lower target) then "delete_pod" else "restart_deployment"
  else if String.eqb action_lower "scale" then "scale_deployment"
  else if String.eqb action_lower "rollback" then "rollback_deployment"
  else if String.eqb action_lower "delete" then
    if Py.str_in "pod" (Py.lower target) then "delete_pod" else "delete_resource"
  else if String.eqb action_lower "patch" || String.eqb action_lower "config_change"
  then "patch_resource"
  else if String.eqb action_lower "revert_commit" then "create_revert_pr"
  else "execute_action".

(** [name.split("___")[-1]]: the text after the last separator found when
    scanning from the left. *)
Fixpoint after_last_separator (skip : nat) (s piece : string) : string :=
  match s with
  | EmptyString => piece
  | String c s' =>
      match skip with
      | S skip' => after_last_separator skip' s' piece
      | O =>
          if String.prefix "___" s then after_last_separator 2 s' ""
          else after_last_separator 0 s' (piece +:+ String c EmptyString)
      end
  end.

Definition tool_base_name (tool_name : string) : string :=
  if Py.str_in "___" tool_name then after_last_separator 0 tool_name "" else tool_name.

Definition value_or (a : Py.value) (b : Py.value) : Py.value :=
  if Py.truthy a then a else b.

Definition _prepare_tool_args (action : RemediationAction) (state : AgentState.t)
    : gmap string Py.value :=
  let labels :=
    match alert_context state with Some ctx => labels ctx | None => ∅ end in
  let params := parameters action in
  let namespace :=
    value_or (default Py.VNone (Py.VStr <$> labels !! "namespace"))
      (value_or (default Py.VNone (params !! "namespace")) (Py.VStr "default")) in
  let resource_name := Py.VStr (target action) in
  let args : gmap string Py.value := {[ "namespace" := namespace ]} in
  let atype := Py.lower (action_type action) in
  let args :=
    if String.eqb atype "restart" then
      if Py.str_in "pod" (Py.lower (target action))
      then <["pod_name" := resource_name]> args
      else <["deployment_name" := resource_name]> args
    else if String.eqb atype "scale" then
      <["replicas" :=
          default (default (Py.VInt 1) (params !! "replica_count")) (params !! "replicas")]>
        (<["deployment_name" := resource_name]> args)
    else if String.eqb atype "rollback" then
      <["revision" := default Py.VNone (params !! "revision")]>
        (<["deployment_name" := resource_name]> args)
    else if String.eqb atype "delete" then
      if Py.str_in "pod" (Py.lower (target action))
      then <["pod_name" := resource_name]> args
      else
        <["resource_type" := default (Py.VStr "deployment") (params !! "resource_type")]>
          (<["resource_name" := resource_name]> args)
    else if String.eqb atype "revert_commit" then
      <["pr_title" :=
          value_or (default Py.VNone (params !! "pr_title"))
            (Py.VStr ("Revert commit " +:+ String.substring 0 7 (target action)))]>
        (<["commit_sha" := Py.VStr (target action)]> args)
    else args in
  (* merge any additional parameters *)
  args ∪ params.

(** One round of the loop over the plan's actions.  The comment left on
    a revert pull request after a successful [revert_commit] is
    best-effort and is not modelled, nor is the per-action line added to
    the thought trace. *)
Definition execute_one (o : Oracles) (k : nat) (state : AgentState.t)
    (cluster_id_str : option string) (tools : list string)
    (acc : World * list (RemediationAction * string) * list (RemediationAction * string))
    (numbered : nat * RemediationAction)
    : World * list (RemediationAction * string) * list (RemediationAction * string) :=
  let '(w, executed_actions, failed_actions) := acc in
  let '(i, action) := numbered in
  let tool_name := _map_action_to_tool (action_type action) (target action) in
  match find (fun t => String.eqb (tool_base_name t) tool_name) tools with
  | None =>
      (w, executed_actions,
       (failed_actions
          ++ [(action, "Tool '" +:+ tool_name +:+ "' not found")])%list)
  | Some tool =>
      let tool_args := _prepare_tool_args action state in
      let w := with_invoked (invoked w ++ [(tool, tool_args)])%list w in
      let audit (outcome details : string) (w : World) : World :=
        match cluster_id_str with
        | Some cid =>
            if crud_available w && Py.truthy_str cid && audit_write_ok w then
              with_db
                (fst (Backend.create_audit_event (db_now o k) (db w) cid
                        (action_type action) (target action) outcome
                        "AGENT" "sre-agent" (Some details)))
                w
            else w
        | None => w
        end in
      match tool_call o k i tool tool_args with
      | inl result =>
          let result_str :=
            if Py.truthy_str result then String.substring 0 200 result else "Success" in
          (audit "SUCCESS" result_str w,
           (executed_actions ++ [(action, result_str)])%list, failed_actions)
      | inr msg =>
          (audit "FAILED" msg w, executed_actions,
           (failed_actions ++ [(action, msg)])%list)
      end
  end.

(** [enumerate(xs, 1)]. *)
Definition enumerate1 {A} (xs : list A) : list (nat * A) :=
  combine (seq 1 (length xs)) xs.

(** [_executor_node]. *)
Definition _executor_node (o : Oracles) (k : nat) (w : World) (state : AgentState.t)
    : World * Update :=
  let remediation_plan := remediation_plan state in
  let approval_status := approval_status state in
  let md := get_metadata state in
  (* SAFETY CHECK: Break Glass Protocol *)
  let cluster_id_str := cluster_id md in
  let locked :=
    match cluster_id_str with
    | Some cid => Py.truthy_str cid && StateStore.is_cluster_locked (storage w) cid
    | None => false
    end in
  if locked then
    (w, set_execution_status "ABORTED"
          (set_execution_results
             {| exec_error := Some "Emergency Stop Active (Break Glass)";
                exec_status := Some "ABORTED"; total_actions := 0;
                executed_actions := []; failed_actions := [] |}
             (set_next "aggregate" (set_ooda_phase "COMPLETE" no_update))))
  (* Safety check: Only execute if approved *)
  else if negb (bool_decide (approval_status = Some "APPROVED")) then
    (w, set_execution_status "FAILED"
          (set_execution_results
             {| exec_error := Some "Plan not approved"; exec_status := None;
                total_actions := 0; executed_actions := []; failed_actions := [] |}
             (set_next "aggregate" (set_ooda_phase "COMPLETE" no_update))))
  else
    match remediation_plan with
    | None => (w, set_next "aggregate" (set_ooda_phase "COMPLETE" no_update))
    | Some remediation_plan =>
        let tools := tools md in
        if negb (nonempty tools) then
          (w, set_execution_status "FAILED"
                (set_execution_results
                   {| exec_error :=
                        Some "Tools not available - cannot execute remediation actions";
                      exec_status := None; total_actions := 0;
                      executed_actions := []; failed_actions := [] |}
                   (set_next "aggregate" (set_ooda_phase "COMPLETE" no_update))))
        else
          let thought :=
            "Executing " +:+ Py.str_of_nat (length (actions remediation_plan))
              +:+ " remediation actions. Each action will be executed via MCP tools..." in
          let traces := <["executor" := [thought]]> (default ∅ (thought_traces state)) in
          let '(w', executed_actions, failed_actions) :=
            fold_left (execute_one o k state cluster_id_str tools)
              (enumerate1 (actions remediation_plan)) (w, [], []) in
          let status := if nonempty failed_actions then "PARTIAL" else "COMPLETED" in
          (w', set_execution_status status
                 (set_execution_results
                    {| exec_error := None; exec_status := Some status;
                       total_actions := length (actions remediation_plan);
                       executed_actions := executed_actions;
                       failed_actions := failed_actions |}
                    (set_next "verifier"
                       (set_ooda_phase "VERIFY" (set_thought_traces traces no_update)))))
    end.

(** *** Verifier and aggregation *)

(** [_verifier_node]: the metric queries and the computation of the
    verification record are the oracle's; the routing is the node's. *)
Definition _verifier_node (o : Oracles) (k : nat) (state : AgentState.t) : Update :=
  let finish := set_next "aggregate" (set_ooda_phase "COMPLETE" no_update) in
  match remediation_plan state, alert_context state with
  | Some _, Some _ =>
      match verify o k with
      | Some v => set_verification_result v finish
      | None => finish
      end
  | _, _ => finish
  end.

(** Modelled from the spec: [supervisor.aggregate_responses] is not part of
    the sources at hand; AGGREGATE composes the final response and is the
    only node that writes [final_response]. *)
Definition aggregate_responses (o : Oracles) (k : nat) (state : AgentState.t) : Update :=
  set_final_response (aggregate_text o k) no_update.

(** *** The compiled graph *)

Inductive Node : Type :=
| prepare | investigation_swarm | reflector | planner | policy_gate
| executor | verifier | aggregate | END.

Definition Node_eqb (a b : Node) : bool :=
  match a, b with
  | prepare, prepare | investigation_swarm, investigation_swarm
  | reflector, reflector | planner, planner | policy_gate, policy_gate
  | executor, executor | verifier, verifier | aggregate, aggregate | END, END => true
  | _, _ => false
  end.

(** A conditional edge: the router's key looked up in the edge's map. *)
Fixpoint route (edges : list (string * Node)) (key : string) : option Node :=
  match edges with
  | [] => None
  | (name, n) :: rest => if String.eqb name key then Some n else route rest key
  end.

(** One superstep: run the node, write its output into the state, follow
    the edge.  [None] when the run is over or a router names no edge. *)
Definition graph_step (b : Build) (o : Oracles) (k : nat) (n : Node)
    (w : World) (state : AgentState.t) : option (Node * World * AgentState.t) :=
  match n with
  | prepare =>
      Some (investigation_swarm, w, merge state (_prepare_initial_state state))
  | investigation_swarm =>
      Some (reflector, w, merge state (investigation_swarm_with_agents b o k state))
  | reflector =>
      let state' := merge state (_reflector_node o k state) in
      match route [("investigation_swarm", investigation_swarm); ("planner", planner)]
                  (default "planner" (next state')) with
      | Some n' => Some (n', w, state')
      | None => None
      end
  | planner => Some (policy_gate, w, merge state (_planner_node o k state))
  | policy_gate =>
      let state' := merge state (_policy_gate_node state) in
      match route [("executor", executor); ("aggregate", aggregate)]
                  (default "aggregate" (next state')) with
      | Some n' => Some (n', w, state')
      | None => None
      end
  | executor =>
      let '(w', u) := _executor_node o k w state in
      Some (verifier, w', merge state u)
  | verifier => Some (aggregate, w, merge state (_verifier_node o k state))
  | aggregate => Some (END, w, merge state (aggregate_responses o k state))
  | END => None
  end.

(** The events of a run from node [n] at superstep [k]: each node that
    ran, with the state after it. *)
Fixpoint run_from (b : Build) (o : Oracles) (fuel k : nat) (n : Node)
    (w : World) (state : AgentState.t) : list (Node * AgentState.t) * World :=
  match fuel with
  | O => ([], w)
  | S fuel' =>
      match graph_step b o k n w state with
      | None => ([], w)
      | Some (n', w', state') =>
          let '(events, w'') := run_from b o fuel' (S k) n' w' state' in
          ((n, state') :: events, w'')
      end
  end.

(** [agent_graph.astream(initial_state)]: the graph is compiled without a
    checkpointer and every run starts at its entry point, [prepare]. *)
Definition astream (b : Build) (o : Oracles) (fuel : nat) (w : World)
    (initial_state : AgentState.t) : list (Node * AgentState.t) * World :=
  run_from b o fuel 0 prepare w initial_state.

End Graph.

(** ** Approval and resume ([sre_agent/agent_runtime.py],
       [sre_agent/api/v1/mission_control.py]) *)

Module Runtime.
Import AgentState Graph Api.

Definition with_storage (st : StateStore.t) (w : World) : World :=
  {| storage := st; db := db w; crud_available := crud_available w;
     audit_write_ok := audit_write_ok w; invoked := invoked w |}.

Definition with_approval (status next_node : string) (s : AgentState.t) : AgentState.t :=
  merge s (set_approval_status status (set_next next_node no_update)).

Definition with_messages (ms : list Message) (s : AgentState.t) : AgentState.t :=
  merge s (set_messages ms no_update).

Definition md_tools (ts : list string) (m : Metadata) : Metadata :=
  {| llm_provider := llm_provider m; cluster_id := cluster_id m; tools := ts;
     kubernetes_agent := kubernetes_agent m; metrics_agent := metrics_agent m;
     logs_agent := logs_agent m; github_agent := github_agent m;
     investigation_complete := investigation_complete m;
     investigation_error := investigation_error m;
     deeper_investigation_agents := deeper_investigation_agents m;
     blocked_actions := blocked_actions m |}.

(** *** The background run of an alert ([run_graph_background]) *)

(** The names under which the graph reports its nodes. *)
Definition node_name (n : Node) : string :=
  match n with
  | prepare => "prepare" | investigation_swarm => "investigation_swarm"
  | reflector => "reflector" | planner => "planner" | policy_gate => "policy_gate"
  | executor => "executor" | verifier => "verifier" | aggregate => "aggregate"
  | END => "__end__"
  end.

(** [state_store.set(...)] and [state_store.append_log(...)] as the
    runtime calls them: what they return is not looked at. *)
Definition store_set (c : Json.Codec) (key : string) (value : StateStore.Value)
    (ttl : option Z) (w : World) : World :=
  with_storage (fst (StateStore.set c (storage w) key value ttl)) w.

Definition store_log (key timestamp message : string) (w : World) : World :=
  with_storage
    (fst (StateStore.append_log (storage w) key ("[" +:+ timestamp +:+ "] " +:+ message)))
    w.

Definition no_value : StateStore.Value :=
  {| StateStore.value_status := None; StateStore.value_current_node := None;
     StateStore.value_approval_required := None; StateStore.value_timestamp := None;
     StateStore.value_state := None; StateStore.value_remediation_plan := None;
     StateStore.value_final_response := None;
     StateStore.value_verification_result := None; StateStore.value_error := None |}.

(** [update_data] after a node, and as it is stored when the run is
    paused. *)
Definition update_data (timestamp : string) (n : Node)
    (current_execution_state : AgentState.t) : StateStore.Value :=
  {| StateStore.value_status := Some "RUNNING";
     StateStore.value_current_node := Some (node_name n);
     StateStore.value_approval_required := Some false;
     StateStore.value_timestamp := Some timestamp;
     StateStore.value_state := Some current_execution_state;
     StateStore.value_remediation_plan := None;
     StateStore.value_final_response := None;
     StateStore.value_verification_result := None; StateStore.value_error := None |}.

Definition paused_data (timestamp : string) (n : Node)
    (current_execution_state : AgentState.t) : StateStore.Value :=
  {| StateStore.value_status := Some "WAITING_APPROVAL";
     StateStore.value_current_node := Some (node_name n);
     StateStore.value_approval_required := Some true;
     StateStore.value_timestamp := Some timestamp;
     StateStore.value_state := Some current_execution_state;
     StateStore.value_remediation_plan := remediation_plan current_execution_state;
     StateStore.value_final_response := None;
     StateStore.value_verification_result := None; StateStore.value_error := None |}.

(** The loop of [run_graph_background] over the events of the run.  The
    graph runs one node at a time, as the loop asks for its events;
    [clock t] is the text of the [t]-th reading of the clock.  No node
    writes [messages], so the outputs merged into
    [current_execution_state] give the state of the graph.  The result
    tells whether the loop was left at the pause. *)
Fixpoint background_events (c : Json.Codec) (b : Build) (o : Oracles) (clock : nat -> string)
    (session_id : string) (fuel k t : nat) (n : Node) (w : World)
    (current_execution_state : AgentState.t) : World * nat * AgentState.t * bool :=
  match fuel with
  | O => (w, t, current_execution_state, false)
  | S fuel' =>
      match graph_step b o k n w current_execution_state with
      | None => (w, t, current_execution_state, false)
      | Some (n', w, merged) =>
          let w := store_log session_id (clock t) ("Step completed: " +:+ node_name n) w in
          (* Check for Policy Gate Pause *)
          if Node_eqb n policy_gate
             && bool_decide (u_approval_status (_policy_gate_node current_execution_state)
                             = Some "PENDING")
          then
            let w := store_log session_id (clock (S (S t))) "â¸ï¸ PAUSED: Approval Required" w in
            (* Store with 1 hour TTL *)
            (store_set c session_id (paused_data (clock (S t)) n merged) (Some 3600) w,
             S (S (S t)), merged, true)
          else
            background_events c b o clock session_id fuel' (S k) (S (S t)) n'
              (store_set c session_id (update_data (clock (S t)) n merged) (Some 3600) w)
              merged
      end
  end.

(** [run_graph_background], for a run of the graph that raises nothing.
    The state that the webhook builds has the key [final_response], so
    the default of its last reading is not used. *)
Definition run_graph_background (c : Json.Codec) (b : Build) (o : Oracles)
    (clock : nat -> string) (session_id : string) (fuel : nat) (w : World)
    (initial_state : AgentState.t) : World :=
  (* Initial status update *)
  let w :=
    store_set c session_id
      {| StateStore.value_status := Some "RUNNING";
         StateStore.value_current_node := Some "start";
         StateStore.value_approval_required := Some false;
         StateStore.value_timestamp := Some (clock 0%nat);
         StateStore.value_state := None; StateStore.value_remediation_plan := None;
         StateStore.value_final_response := None;
         StateStore.value_verification_result := None;
         StateStore.value_error := None |} None w in
  let w := store_log session_id (clock 1%nat) "Investigation started..." w in
  match background_events c b o clock session_id fuel 0 2 prepare w
          initial_state with
  | (w, _, _, true) => w
  | (w, t, current_execution_state, false) =>
      (* Completion *)
      let w := store_log session_id (clock t) "âœ… Investigation Complete" w in
      store_set c session_id
        {| StateStore.value_status := Some "COMPLETED";
           StateStore.value_current_node := Some "end";
           StateStore.value_approval_required := Some false;
           StateStore.value_timestamp := Some (clock (S t));
           StateStore.value_state := None; StateStore.value_remediation_plan := None;
           StateStore.value_final_response := final_response current_execution_state;
           StateStore.value_verification_result :=
             verification_result current_execution_state;
           StateStore.value_error := None |} (Some 3600) w
  end.

(** The dictionary that [approve_remediation] hands to the graph: the
    keys whose values the nodes can use, and the text that stands where
    the alert context was. *)
Record Resumed := {
  usable : AgentState.t;
  alert_context_text : option string;
}.

(** What [approve_remediation] makes of the stored state before it runs
    the graph: the approval is recorded, a message is put in if there is
    none, and the runtime's tools if the metadata has no key [tools]. *)
Definition rehydrate (c : Json.Codec) (global_tools : list string) (stored : Json.State)
    : Resumed :=
  let current_state := with_approval "APPROVED" "executor" (Json.usable c stored) in
  let current_state :=
    match Json.messages stored with
    | None | Some [] =>
        with_messages
          [HumanMessage "Remediation plan approved, resuming execution"] current_state
    | Some _ => current_state
    end in
  let md := get_metadata current_state in
  let md :=
    match Json.metadata stored ≫= Json.tools with
    | None => md_tools global_tools md
    | Some _ => md
    end in
  {| usable := with_metadata md current_state;
     alert_context_text := Json.alert_context stored |}.

(** [str(e)] of the exception raised by [alert_context.alert_name] when
    the alert context is a text. *)
Definition no_alert_name : string := "'str' object has no attribute 'alert_name'".

(** [agent_graph.astream(current_state)] for a state that came back from
    the store: the events, the world, and the message of the exception
    if one is raised.  The run starts at the entry point.  PREPARE only
    tests the alert context for [None]; the swarm, which comes next,
    reads [alert_context.alert_name] outside any [try] when the alert
    context is truthy, and a text has no such attribute.  A text that is
    empty is falsy, and is to every node what no alert context is. *)
Definition astream_resumed (b : Build) (o : Oracles) (fuel : nat) (w : World) (r : Resumed)
    : list (Node * AgentState.t) * World * option string :=
  if Py.truthy_str (default "" (alert_context_text r)) then
    match fuel with
    | O => ([], w, None)
    | S O => (run_from b o 1 0 prepare w (usable r), None)
    | S (S _) => (run_from b o 1 0 prepare w (usable r), Some no_alert_name)
    end
  else (astream b o fuel w (usable r), None).

(** The [final_response] of the last [aggregate] event, or the empty
    string. *)
Definition final_response_of (events : list (Node * AgentState.t)) : string :=
  fold_left
    (fun acc '(n, st) =>
       if Node_eqb n aggregate then default "" (final_response st) else acc)
    events "".

(** [POST /approve/{session_id}] of the runtime: [approve_remediation].
    Every exception of the resumed run is answered with 500; without a
    graph that is the exception of [agent_graph.astream] on [None]. *)
Definition approve_remediation (c : Json.Codec) (agent_graph : option Build)
    (global_tools : list string) (o : Oracles) (fuel : nat) (w : World)
    (session_id : string) : World * Response string * list (Node * AgentState.t) :=
  let not_found :=
    (w, HTTPException 404
          ("No pending remediation found for session_id: " +:+ session_id), []) in
  (* Get pending state from Redis *)
  match StateStore.get (storage w) session_id with
  | None => not_found
  | Some pending_data =>
      if negb (StateStore.has_keys pending_data) then not_found
      else
        match StateStore.state pending_data with
        | None => (w, HTTPException 400 "Invalid pending state - state data missing", [])
        | Some stored =>
            (* Remove from Redis *)
            let w := with_storage (fst (StateStore.delete (storage w) session_id)) w in
            let failed (e : string) := "Failed to resume execution: " +:+ e in
            match agent_graph with
            | None =>
                (w, HTTPException 500
                      (failed "'NoneType' object has no attribute 'astream'"), [])
            | Some b =>
                match astream_resumed b o fuel w (rehydrate c global_tools stored) with
                | (events, w', Some e) => (w', HTTPException 500 (failed e), events)
                | (events, w', None) => (w', Ok (final_response_of events), events)
                end
            end
        end
  end.

(** The names bound at module level in [mission_control.py]: its imports,
    the router and its functions. *)
Definition mission_control_globals : list string :=
  ["List"; "Optional"; "Dict"; "Any"; "uuid"; "APIRouter"; "Depends"; "HTTPException";
   "status"; "Session"; "desc"; "Command"; "database"; "AgentAuditLog"; "router";
   "get_agent_graph"; "get_incident_audit_logs"; "get_incident_status";
   "approve_incident_action"].

(** Evaluation of a global name that is no builtin: [NameError] when the
    module does not bind it. *)
Definition load_global (globals : list string) (name : string) : unit + string :=
  if Py.str_in_list name globals then inl tt
  else inr ("name '" +:+ name +:+ "' is not defined").

Section MissionControl.

(** What [graph.ainvoke(Command(resume="APPROVE"), config)] would do to the
    world, were it ever evaluated. *)
Variable ainvoke_resume : Build -> string -> World -> World.

(** [POST /incidents/{incident_id}/approve]: [approve_incident_action].
    The callee [asyncio.create_task] is evaluated before its argument. *)
Definition approve_incident_action (agent_graph : option Build) (w : World)
    (incident_id : string) : World * Response string :=
  match agent_graph with
  | None => (w, HTTPException 503 "Agent system not initialized")
  | Some graph =>
      match load_global mission_control_globals "asyncio" with
      | inr name_error => (w, HTTPException 500 name_error)
      | inl _ => (ainvoke_resume graph incident_id w, Ok "RESUMED")
      end
  end.

End MissionControl.

End Runtime.

(** * Sample inputs *)

Module Samples.
Import PolicyEngine.

(** A [delete_pod] action, as a plan for a production alert may carry. *)
Definition delete_pod_action : RemediationAction :=
  {| action_type := "delete_pod"; target := "pod-x"; parameters := ∅;
     safety_check := "pod is crash-looping" |}.

Definition delete_pod_plan : RemediationPlan :=
  {| plan_id := "plan-1"; hypothesis := "pod-x is wedged";
     actions := [delete_pod_action]; estimated_duration := "1m";
     risk_level := "low"; requires_approval := false;
     verification_metrics := ["error_rate"] |}.

Definition production_alert : AlertContext :=
  {| alert_name := "HighCPU"; severity := "high";
     labels := {[ "namespace" := "production" ]}; annotations := ∅ |}.

(** The structured error of a logs tool whose retries were exhausted, as
    the [except RetryError] clause builds it, and as the [except
    Exception] clause builds it. *)
Definition logs_tool_error : ToolWrapper.ToolError :=
  ToolWrapper.tool_error_of "search_logs" 3
    (ToolWrapper.RetryError (Some "connection refused")).

Definition logs_tool_error_as_raised : ToolWrapper.ToolError :=
  ToolWrapper.tool_error_of "search_logs" 3 (ToolWrapper.Exception "connection refused").

(** [agent_results] of a round in which the logs agent's slot holds the
    tool error and the two other agents reported. *)
Definition degraded_results (e : ToolWrapper.ToolError) : gmap string string :=
  list_to_map
    [ ("kubernetes_agent", "3 pods in CrashLoopBackOff");
      ("metrics_agent", "cpu at 95%");
      ("logs_agent", ToolWrapper.to_agent_response e) ].

Definition degraded_state (e : ToolWrapper.ToolError) : AgentState.t :=
  AgentState.merge AgentState.empty
    (AgentState.set_agent_results (degraded_results e)
       (AgentState.set_investigation_count 1 AgentState.no_update)).

(** Collaborators that always ask for a deeper investigation, fail to
    plan, and whose tools succeed. *)
Definition eager_oracles : Graph.Oracles :=
  {| Graph.agent_call := fun _ n => Graph.AgentReturns {[ n := "nothing unusual" ]} ∅;
     Graph.reflect := fun _ _ =>
       inl {| AgentState.analysis_hypothesis := "unclear"; AgentState.confidence := 1 # 2;
              AgentState.discrepancies := []; AgentState.reasoning := "need more data";
              AgentState.recommended_agents := ["logs_agent"];
              AgentState.requires_deeper_investigation := true |};
     Graph.plan := fun _ => inr "oracle unavailable";
     Graph.tool_call := fun _ _ _ _ => inl "done";
     Graph.verify := fun _ => None;
     Graph.aggregate_text := fun _ => "summary";
     Graph.utc_now := fun _ => "20250101000000";
     Graph.db_now := fun _ => 0;
     Graph.model_dump_json := fun _ => "{}" |}.

Definition sample_build : Graph.Build :=
  {| Graph.build_tools := ["k8s___delete_pod"; "k8s___restart_deployment"];
     Graph.build_llm_provider := "groq"; Graph.build_github_agent := false |}.

(** A store whose keyspace holds the lock of cluster [c1] but whose
    server does not answer. *)
Definition unreachable_locked_store : StateStore.t :=
  {| StateStore.client := true; StateStore.ping_ok := false;
     StateStore.commands_ok := fun _ => false;
     StateStore.keyspace := {[ StateStore.lock_key "c1" := StateStore.PlainEntry "LOCKED" ]};
     StateStore.default_ttl_seconds := 3600 |}.

Definition empty_db : Backend.DB :=
  {| Backend.users := []; Backend.clusters := []; Backend.jobs := [];
     Backend.audit_events := [] |}.

Definition unreachable_world : Graph.World :=
  {| Graph.storage := unreachable_locked_store; Graph.db := empty_db;
     Graph.crud_available := true; Graph.audit_write_ok := true; Graph.invoked := [] |}.

Definition restart_plan : RemediationPlan :=
  {| plan_id := "plan-2"; hypothesis := "api is wedged";
     actions := [ {| action_type := "restart"; target := "api"; parameters := ∅;
                     safety_check := "replicas > 1" |} ];
     estimated_duration := "1m"; risk_level := "low"; requires_approval := false;
     verification_metrics := ["error_rate"] |}.

(** An approved state of an investigation on cluster [c1]. *)
Definition approved_state : AgentState.t :=
  AgentState.merge AgentState.empty
    (AgentState.set_remediation_plan restart_plan
       (AgentState.set_approval_status "APPROVED"
          (AgentState.set_metadata
             (AgentState.md_agents_and_tools false
                ["k8s___delete_pod"; "k8s___restart_deployment"] "groq"
                {| AgentState.llm_provider := None; AgentState.cluster_id := Some "c1";
                   AgentState.tools := []; AgentState.kubernetes_agent := false;
                   AgentState.metrics_agent := false; AgentState.logs_agent := false;
                   AgentState.github_agent := false;
                   AgentState.investigation_complete := true;
                   AgentState.investigation_error := None;
                   AgentState.deeper_investigation_agents := [];
                   AgentState.blocked_actions := [] |})
             AgentState.no_update))).

(** A control plane with two organizations.  Cluster [c1] belongs to
    [org-a]; Mallory is a user of [org-b]. *)
Definition alice : Backend.User :=
  {| Backend.user_id := "u-alice"; Backend.email := "alice@a.example";
     Backend.user_org_id := "org-a" |}.

Definition mallory : Backend.User :=
  {| Backend.user_id := "u-mallory"; Backend.email := "mallory@b.example";
     Backend.user_org_id := "org-b" |}.

Definition cluster_c1 : Backend.Cluster :=
  {| Backend.cluster_id := "c1"; Backend.cluster_name := "prod-eu";
     Backend.org_id := "org-a"; Backend.token := "cl_tok_a";
     Backend.cluster_status := Backend.ONLINE; Backend.last_heartbeat := Some 0 |}.

Definition job (id : string) (st : Backend.JobStatus) (created : Z)
    (started completed : option Z) : Backend.Job :=
  {| Backend.job_id := id; Backend.job_cluster_id := "c1";
     Backend.job_type := Backend.INVESTIGATION; Backend.status := st;
     Backend.payload := None; Backend.result := None; Backend.logs := None;
     Backend.created_at := created; Backend.started_at := started;
     Backend.completed_at := completed |}.

Definition two_org_db : Backend.DB :=
  {| Backend.users := [alice; mallory];
     Backend.clusters := [cluster_c1];
     Backend.jobs :=
       [ job "job-1" Backend.PENDING 10 None None;
         job "job-2" Backend.PENDING 5 None None;
         job "job-3" Backend.COMPLETED 1 (Some 2) (Some 3) ];
     Backend.audit_events := [] |}.

(** The user tokens in circulation. *)
Definition decode_sample (tok : string) : option string :=
  if String.eqb tok "tok-alice" then Some "alice@a.example"
  else if String.eqb tok "tok-mallory" then Some "mallory@b.example"
  else None.

Definition reachable_store : StateStore.t :=
  {| StateStore.client := true; StateStore.ping_ok := true;
     StateStore.commands_ok := fun _ => true; StateStore.keyspace := ∅;
     StateStore.default_ttl_seconds := 3600 |}.

(** A store whose connection is lost after the first command of a
    call: [LLEN] and [EXPIRE] are not answered. *)
Definition flaky_store : StateStore.t :=
  {| StateStore.client := true; StateStore.ping_ok := true;
     StateStore.commands_ok := fun command =>
       match command with
       | StateStore.LLEN | StateStore.EXPIRE => false
       | _ => true
       end;
     StateStore.keyspace := ∅; StateStore.default_ttl_seconds := 3600 |}.

(** The texts written for objects.  Each text is the name of the
    class; a message that comes back is read as a human message. *)
Definition sample_codec : Json.Codec :=
  {| Json.str_message := fun m =>
       match m with
       | AgentState.HumanMessage c => "content='" +:+ c +:+ "'"
       | AgentState.OtherMessage c => "content='" +:+ c +:+ "'"
       end;
     Json.str_alert_context := fun a => "alert_name='" +:+ alert_name a +:+ "'";
     Json.str_findings := fun _ => "InvestigationFindings";
     Json.str_analysis := fun _ => "ReflectorAnalysis";
     Json.str_plan := fun p => "plan_id='" +:+ plan_id p +:+ "'";
     Json.str_action := fun a => "action_type='" +:+ action_type a +:+ "'";
     Json.str_tool := fun n => "name='" +:+ n +:+ "'";
     Json.str_agent := fun n => "<" +:+ n +:+ ">";
     Json.load_message := AgentState.HumanMessage |}.

(** A session paused for approval: the dictionary that the runtime
    stores under the session id of incident [inc-1], and the snapshot
    that the store keeps of it. *)
Definition paused_value : StateStore.Value :=
  {| StateStore.value_status := Some "WAITING_APPROVAL";
     StateStore.value_current_node := Some "policy_gate";
     StateStore.value_approval_required := Some true;
     StateStore.value_timestamp := Some "2025-01-01T00:00:00+00:00";
     StateStore.value_state :=
       Some (AgentState.merge approved_state
               (AgentState.set_approval_status "PENDING"
                  (AgentState.set_next "aggregate" AgentState.no_update)));
     StateStore.value_remediation_plan := Some restart_plan;
     StateStore.value_final_response := None;
     StateStore.value_verification_result := None;
     StateStore.value_error := None |}.

Definition paused_snapshot : StateStore.Snapshot :=
  StateStore.dumps sample_codec paused_value.

Definition reachable_world : Graph.World :=
  {| Graph.storage := reachable_store; Graph.db := empty_db;
     Graph.crud_available := true; Graph.audit_write_ok := true; Graph.invoked := [] |}.

(** The readings of the clock: one minute apart. *)
Definition sample_clock (t : nat) : string :=
  "2025-01-01T00:" +:+ Py.str_of_nat (10 + t) +:+ ":00+00:00".

(** The initial state that [webhook_alert] builds in local mode for the
    alert [HighCPU], and the world in which [run_graph_background] has
    run on it, under the session id of the alert, with collaborators
    that ask for a deeper investigation every time. *)
Definition webhook_state : AgentState.t :=
  {| AgentState.messages := [AgentState.HumanMessage "Alert: HighCPU"];
     AgentState.current_query := Some "Investigate alert: HighCPU";
     AgentState.alert_context := Some production_alert;
     AgentState.agent_results := Some ∅;
     AgentState.investigation_findings := None;
     AgentState.reflector_analysis := None;
     AgentState.remediation_plan := None;
     AgentState.approval_status := None;
     AgentState.execution_status := None;
     AgentState.execution_results := None;
     AgentState.verification_result := None;
     AgentState.ooda_phase := Some "OBSERVE";
     AgentState.next := Some "investigation_swarm";
     AgentState.investigation_count := None;
     AgentState.thought_traces := Some ∅;
     AgentState.metadata :=
       Some {| AgentState.llm_provider := Some "groq"; AgentState.cluster_id := None;
               AgentState.tools := Graph.build_tools sample_build;
               AgentState.kubernetes_agent := false; AgentState.metrics_agent := false;
               AgentState.logs_agent := false; AgentState.github_agent := false;
               AgentState.investigation_complete := false;
               AgentState.investigation_error := None;
               AgentState.deeper_investigation_agents := [];
               AgentState.blocked_actions := [] |};
     AgentState.final_response := None |}.

(** What [approve_remediation] hands to the graph for the state of the
    alert as it comes back from the store. *)
Definition resumed_alert : Runtime.Resumed :=
  Runtime.rehydrate sample_codec (Graph.build_tools sample_build)
    (Json.dumps_state sample_codec webhook_state).

Definition alert_session : string := "alert-20250101001000".

Definition alert_world : Graph.World :=
  Runtime.run_graph_background sample_codec sample_build eager_oracles sample_clock
    alert_session 20 reachable_world webhook_state.

(** The initial state that [run_graph_background_saas] builds for an
    incident of cluster [c1]: it has no alert context.  After each node
    that runner stores the state under the id of the incident, with an
    hour to live; [incident_world] is the world after the last node of
    the run. *)
Definition incident_state : AgentState.t :=
  {| AgentState.messages := [AgentState.HumanMessage "Investigate alert: HighCPU"];
     AgentState.current_query := Some "Investigate alert: HighCPU";
     AgentState.alert_context := None;
     AgentState.agent_results := Some ∅;
     AgentState.investigation_findings := None;
     AgentState.reflector_analysis := None;
     AgentState.remediation_plan := None;
     AgentState.approval_status := None;
     AgentState.execution_status := None;
     AgentState.execution_results := None;
     AgentState.verification_result := None;
     AgentState.ooda_phase := Some "OBSERVE";
     AgentState.next := Some "investigation_swarm";
     AgentState.investigation_count := None;
     AgentState.thought_traces := None;
     AgentState.metadata :=
       Some {| AgentState.llm_provider := Some "groq"; AgentState.cluster_id := Some "c1";
               AgentState.tools := Graph.build_tools sample_build;
               AgentState.kubernetes_agent := false; AgentState.metrics_agent := false;
               AgentState.logs_agent := false; AgentState.github_agent := false;
               AgentState.investigation_complete := false;
               AgentState.investigation_error := None;
               AgentState.deeper_investigation_agents := [];
               AgentState.blocked_actions := [] |};
     AgentState.final_response := None |}.

Definition incident_session : string := "7f9c2d3e-0000-4000-8000-000000000001".

Definition incident_run : list (Graph.Node * AgentState.t) * Graph.World :=
  Graph.astream sample_build eager_oracles 20 reachable_world incident_state.

Definition incident_world : Graph.World :=
  Runtime.store_set sample_codec incident_session
    {| StateStore.value_status := Some "RUNNING";
       StateStore.value_current_node := Some "aggregate";
       StateStore.value_approval_required := None;
       StateStore.value_timestamp := Some (sample_clock 21);
       StateStore.value_state :=
         Some (default incident_state (snd <$> last (fst incident_run)));
       StateStore.value_remediation_plan := None;
       StateStore.value_final_response := None;
       StateStore.value_verification_result := None;
       StateStore.value_error := None |}
    (Some 3600) (snd incident_run).

Definition paused_world : Graph.World :=
  {| Graph.storage :=
       fst (StateStore.set sample_codec reachable_store "inc-1" paused_value (Some 3600));
     Graph.db := empty_db; Graph.crud_available := true;
     Graph.audit_write_ok := true; Graph.invoked := [] |}.

End Samples.

(** * Notions used in the statements *)

Module Notions.
Import PolicyEngine AgentState Graph.

(** The parts of the world that only the layers above the tool touch. *)
Definition same_bookkeeping (w w' : ToolWrapper.World) : Prop :=
  ToolWrapper.breaker w' = ToolWrapper.breaker w
  /\ ToolWrapper.audit_table w' = ToolWrapper.audit_table w
  /\ ToolWrapper.audit_db_up w' = ToolWrapper.audit_db_up w
  /\ ToolWrapper.audit_context w' = ToolWrapper.audit_context w.

(** The breaker is closed for a tool and has no failure on record. *)
Definition closed_for (tool_name : string) (st : ToolWrapper.CircuitBreakerState) : Prop :=
  default false (ToolWrapper.is_open st !! tool_name) = false
  /\ default 0 (ToolWrapper.failures st !! tool_name) <= 0.

(** The text that announces unavailable tools in the reflector's prompt. *)
Definition NOTICE : string := "TOOL UNAVAILABILITY NOTICE".

Definition is_swarm (e : Node * AgentState.t) : bool := Node_eqb (fst e) investigation_swarm.

(** The number of visits to the swarm among the events of a run. *)
Definition swarm_visits (events : list (Node * AgentState.t)) : nat :=
  length (List.filter is_swarm events).

(** The nodes of a run, each with the counter of rounds that it leaves. *)
Definition counter_trace (events : list (Node * AgentState.t)) : list (Node * option Z) :=
  map (fun e => (fst e, investigation_count (snd e))) events.

(** The events after [prepare] keep the counter in step with the visits:
    starting from [before], each event leaves the counter one higher when
    its node is the swarm and unchanged otherwise, and never above 3. *)
Fixpoint counted (before : Z) (events : list (Node * AgentState.t)) : Prop :=
  match events with
  | [] => True
  | e :: rest =>
      let c := if is_swarm e then before + 1 else before in
      fst e <> prepare /\ investigation_count (snd e) = Some c /\ 0 <= c <= 3
      /\ counted c rest
  end.



(** The executor's verdict on the lock: the condition of its first
    [if]. *)
Definition lock_seen (w : World) (state : AgentState.t) : bool :=
  match cluster_id (get_metadata state) with
  | Some cid => Py.truthy_str cid && StateStore.is_cluster_locked (storage w) cid
  | None => false
  end.

(** A job status is terminal. *)
Definition terminal (st : Backend.JobStatus) : bool :=
  Backend.JobStatus_eqb st Backend.COMPLETED || Backend.JobStatus_eqb st Backend.FAILED.

End Notions.

(** * Further operations of the control plane and the worker *)

(** ** More Python builtins *)

Module PyMore.

(** [s.split(sep)] for a one-character separator: [cur] is the piece
    being read. *)
Fixpoint split_on (sep : ascii) (s cur : string) : list string :=
  match s with
  | EmptyString => [cur]
  | String c s' =>
      if Ascii.eqb c sep then cur :: split_on sep s' ""
      else split_on sep s' (cur +:+ String c EmptyString)
  end.

Definition split (sep : ascii) (s : string) : list string := split_on sep s "".

(** [s.find(c)] for a one-character string: the index of the first
    occurrence, [None] for -1. *)
Fixpoint find_char (c : ascii) (s : string) : option nat :=
  match s with
  | EmptyString => None
  | String c' s' =>
      if Ascii.eqb c' c then Some O else option_map S (find_char c s')
  end.

(** [s[a:b]] for [0 <= a]. *)
Definition slice (a b : nat) (s : string) : string := String.substring a (b - a) s.

(** [c.isspace()] on the ASCII range. *)
Definition is_space (c : ascii) : bool :=
  let n := nat_of_ascii c in
  (Nat.leb 9 n && Nat.leb n 13) || (Nat.leb 28 n && Nat.leb n 32).

Fixpoint lstrip (s : string) : string :=
  match s with
  | EmptyString => EmptyString
  | String c s' => if is_space c then lstrip s' else s
  end.

Fixpoint rstrip (s : string) : string :=
  match s with
  | EmptyString => EmptyString
  | String c s' =>
      match rstrip s' with
      | EmptyString => if is_space c then EmptyString else String c EmptyString
      | r => String c r
      end
  end.

(** [s.strip()]. *)
Definition strip (s : string) : string := rstrip (lstrip s).

(** [s[:n] + "..."] when [len(s) > n], else [s]. *)
Definition ellipsis (n : nat) (s : string) : string :=
  if Nat.ltb n (String.length s) then String.substring 0 n s +:+ "..." else s.

End PyMore.

(** ** Cluster registry and heartbeat ([backend/crud.py],
       [sre_agent/api/v1/clusters.py], [sre_agent/api/v1/agent_connect.py]) *)

Module ClusterRegistry.
Import Backend Api.

Definition with_clusters (cs : list Cluster) (db : DB) : DB :=
  {| users := users db; clusters := cs; jobs := jobs db;
     audit_events := audit_events db |}.

Definition get_clusters_for_org (db : DB) (org : UUID) : list Cluster :=
  List.filter (fun c => String.eqb (org_id c) org) (clusters db).

(** [crud.create_cluster]: [new_id] and [hex] stand for the two fresh
    [uuid.uuid4()] values. *)
Definition create_cluster (db : DB) (name : string) (org : UUID) (new_id : UUID)
    (hex : string) : DB * Cluster * string :=
  let cluster_token := "cl_" +:+ hex in
  let db_cluster :=
    {| cluster_id := new_id; cluster_name := name; org_id := org;
       token := cluster_token; cluster_status := OFFLINE; last_heartbeat := None |} in
  (with_clusters (clusters db ++ [db_cluster]) db, db_cluster, cluster_token).

(** [crud.update_cluster_heartbeat]: an UPDATE of the rows with the id. *)
Definition update_cluster_heartbeat (now : Z) (db : DB) (cid : UUID) : DB :=
  with_clusters
    (map (fun c =>
            if String.eqb (cluster_id c) cid then
              {| cluster_id := cluster_id c; cluster_name := cluster_name c;
                 org_id := org_id c; token := token c;
                 cluster_status := ONLINE; last_heartbeat := Some now |}
            else c)
       (clusters db))
    db.

Section Handlers.

Variable decode_access_token : string -> option string.
Variable now : Z.

(** [POST /clusters]: the body is [{id, name, token}]. *)
Definition create_cluster_endpoint (db : DB) (tok : string) (name : string)
    (new_id : UUID) (hex : string) : DB * Response (UUID * string * string) :=
  match get_current_user_and_org decode_access_token db tok with
  | HTTPException c d => (db, HTTPException c d)
  | Ok user =>
      let '(db', new_cluster, token) :=
        create_cluster db name (user_org_id user) new_id hex in
      (db', Ok (cluster_id new_cluster, cluster_name new_cluster, token))
  end.

(** [GET /clusters] *)
Definition list_clusters (db : DB) (tok : string) : Response (list Cluster) :=
  match get_current_user_and_org decode_access_token db tok with
  | HTTPException c d => HTTPException c d
  | Ok user => Ok (get_clusters_for_org db (user_org_id user))
  end.

(** [agent_connect.get_cluster_via_token]: the token is the second piece
    of the header split at spaces. *)
Definition get_cluster_via_token (db : DB) (authorization : option string)
    : Response Cluster :=
  match authorization with
  | None => HTTPException 403 "Missing or invalid token"
  | Some header =>
      if negb (Py.truthy_str header) || negb (Py.startswith header "Bearer ")
      then HTTPException 403 "Missing or invalid token"
      else
        match PyMore.split " "%char header !! 1%nat with
        | None => HTTPException 500 "Internal Server Error"   (* IndexError *)
        | Some tok =>
            match get_cluster_by_token db tok with
            | None => HTTPException 403 "Invalid Cluster Token"
            | Some cluster => Ok cluster
            end
        end
  end.

(** [POST /agent/heartbeat] *)
Definition heartbeat (db : DB) (authorization : option string) : DB * Response string :=
  match get_cluster_via_token db authorization with
  | HTTPException c d => (db, HTTPException c d)
  | Ok cluster => (update_cluster_heartbeat now db (cluster_id cluster), Ok "ok")
  end.

(** [POST /agent/telemetry]: acknowledged, nothing is kept. *)
Definition receive_telemetry (db : DB) (authorization : option string) (payload : string)
    : DB * Response string :=
  match get_cluster_via_token db authorization with
  | HTTPException c d => (db, HTTPException c d)
  | Ok cluster => (db, Ok "received")
  end.

End Handlers.

End ClusterRegistry.

(** ** Narration lines ([sre_agent/callbacks.py],
       [sre_agent/api/v1/mission_control.py]) *)

Module Narration.

(** The line written by [RedisLogCallbackHandler._log] and by the
    runtime: [f"[{timestamp}] {message}"]. *)
Definition log_line (timestamp message : string) : string :=
  "[" +:+ timestamp +:+ "] " +:+ message.

(** [RedisLogCallbackHandler._log]. *)
Definition _log (store : StateStore.t) (session_id timestamp message : string)
    : StateStore.t :=
  fst (StateStore.append_log store session_id (log_line timestamp message)).

(** [on_tool_end]: the output is cut at 200 characters. *)
Definition on_tool_end (store : StateStore.t) (session_id timestamp output : string)
    : StateStore.t :=
  _log store session_id timestamp ("✅ Tool output: " +:+ PyMore.ellipsis 200 output).

(** The entry built by [get_incident_audit_logs] for one line of the
    session log; its id is fresh and its other fields are constants. *)
Record LogEntry := {
  entry_timestamp : option string;
  entry_agent_name : string;
  entry_tool_name : string;
  entry_tool_args : string;
  entry_status : string;
}.

Definition structured_redis_log (log_str : string) : LogEntry :=
  let plain (ts : option string) (args : string) :=
    {| entry_timestamp := ts; entry_agent_name := "Supervisor";
       entry_tool_name := "System"; entry_tool_args := args; entry_status := "INFO" |} in
  if Py.startswith log_str "[" then
    match PyMore.find_char "]"%char log_str with
    | Some ts_end =>
        let ts_str := PyMore.slice 1 ts_end log_str in
        (* check if it looks like an ISO timestamp (simple check) *)
        if Nat.ltb 10 (String.length ts_str)
           && (Py.str_in "T" ts_str || Py.str_in " " ts_str)
        then
          if Nat.ltb (ts_end + 1) (String.length log_str)
          then plain (Some ts_str)
                 (PyMore.strip (Py.drop_str (ts_end + 1) log_str))
          else plain (Some ts_str) log_str
        else plain None log_str
    | None => plain None log_str
    end
  else plain None log_str.

End Narration.

(** ** Edge worker polling ([sre_agent/job_poller.py]) *)

Module JobPoller.

(** What came back from [GET /clusters/jobs/pending]: a status with,
    for 200, the decoded body ([None] when the body is no JSON), or a
    transport error. *)
Inductive PollResponse : Type :=
| Status200 (body : option (option Backend.Job))
| Status401
| StatusOther (code : Z)
| RequestError.

(** [JobPollerClient.get_pending_job]: [inr] when an exception other
    than a transport error escapes. *)
Definition get_pending_job (response : PollResponse) : option Backend.Job + string :=
  match response with
  | Status200 (Some data) => inl data
  | Status200 None => inr "JSONDecodeError"
  | Status401 => inl None
  | StatusOther _ => inl None
  | RequestError => inl None
  end.

(** The back-off of the [except] clause of [polling_loop]. *)
Definition backoff_wait (poll_interval : Z) (consecutive_errors : nat) : Z :=
  Z.min (poll_interval * 2 ^ Z.of_nat consecutive_errors) 60.

(** One round of [polling_loop]: [execute_raises] tells whether an
    exception escapes from [execute_job] when a job is handed to it.  The
    result is the new value of [consecutive_errors], whether a job was
    handed to [execute_job], and the seconds slept before the next
    round. *)
Definition polling_round (poll_interval : Z) (consecutive_errors : nat)
    (response : PollResponse) (execute_raises : bool) : nat * bool * Z :=
  match get_pending_job response with
  | inr _ =>
      let consecutive_errors := S consecutive_errors in
      (consecutive_errors, false, backoff_wait poll_interval consecutive_errors)
  | inl (Some job) =>
      if execute_raises then (1%nat, true, backoff_wait poll_interval 1)
      else (O, true, poll_interval)
  | inl None => (O, false, poll_interval)
  end.

(** The rounds of the loop for a series of responses, from a given value
    of the counter: what each round did. *)
Fixpoint polling_rounds (poll_interval : Z) (consecutive_errors : nat)
    (rounds : list (PollResponse * bool)) : list (nat * bool * Z) :=
  match rounds with
  | [] => []
  | (response, execute_raises) :: rest =>
      let r := polling_round poll_interval consecutive_errors response execute_raises in
      r :: polling_rounds poll_interval (fst (fst r)) rest
  end.

End JobPoller.

(** ** Notions used in the further statements *)

Module MoreNotions.
Import PolicyEngine AgentState Graph.

(** [params.get("replicas", params.get("replica_count", None))]. *)
Definition requested_replicas (action : RemediationAction) : Py.value :=
  default (default Py.VNone (parameters action !! "replica_count"))
    (parameters action !! "replicas").

(** [params.get("explicit_approval", False)] is truthy. *)
Definition explicitly_approved (action : RemediationAction) : bool :=
  Py.truthy (default (Py.VBool false) (parameters action !! "explicit_approval")).

(** The verdict of the policy engine on every action of a plan, in the
    environment and with the risk score that the gate derives. *)
Definition all_allowed (state : AgentState.t) (p : RemediationPlan) : Prop :=
  Forall
    (fun a =>
       fst (evaluate_action a (get_environment_from_context (alert_context state))
              (calculate_risk_score (Some p))) = true)
    (actions p).

(** The executor's four preconditions hold: no lock is seen, the plan is
    approved and present, and tools are at hand. *)
Definition cleared (w : World) (state : AgentState.t) : bool :=
  negb (Notions.lock_seen w state)
  && bool_decide (approval_status state = Some "APPROVED")
  && bool_decide (is_Some (remediation_plan state))
  && nonempty (tools (get_metadata state)).

(** The executor writes audit events: the backend is importable, the
    metadata carries a non-empty cluster id and the write succeeds. *)
Definition auditing (w : World) (state : AgentState.t) : bool :=
  match cluster_id (get_metadata state) with
  | Some cid => crud_available w && Py.truthy_str cid && audit_write_ok w
  | None => false
  end.

(** The number of events with outcome SUCCESS. *)
Definition successes (events : list Backend.AuditEvent) : nat :=
  length (List.filter (fun e => String.eqb (Backend.outcome e) "SUCCESS") events).

(** The keys that the executor itself may set in the arguments of a
    tool. *)
Definition executor_keys : list string :=
  ["namespace"; "pod_name"; "deployment_name"; "replicas"; "revision";
   "resource_name"; "resource_type"; "commit_sha"; "pr_title"].

(** What one round of the loop leaves behind, relative to the
    accumulator it started from. *)
Definition trail (audits : bool) (cid : string)
    (acc acc' : World * list (RemediationAction * string)
                * list (RemediationAction * string)) : Prop :=
  let '(w, ex, fa) := acc in
  let '(w', ex', fa') := acc' in
  storage w' = storage w /\ crud_available w' = crud_available w
  /\ audit_write_ok w' = audit_write_ok w
  /\ Backend.users (db w') = Backend.users (db w)
  /\ Backend.clusters (db w') = Backend.clusters (db w)
  /\ Backend.jobs (db w') = Backend.jobs (db w)
  /\ exists new_inv new_ev new_ex new_fa,
      invoked w' = (invoked w ++ new_inv)%list
      /\ Backend.audit_events (db w') = (Backend.audit_events (db w) ++ new_ev)%list
      /\ ex' = (ex ++ new_ex)%list /\ fa' = (fa ++ new_fa)%list
      /\ (length new_ex <= length new_inv <= length new_ex + length new_fa)%nat
      /\ (if audits
          then length new_ev = length new_inv /\ successes new_ev = length new_ex
               /\ Forall (fun e => Backend.actor_type e = "AGENT"
                                   /\ Backend.event_cluster_id e = cid) new_ev
          else new_ev = []).

(** The investigation counter as the nodes read it,
    [state.get("investigation_count", 0)]. *)
Definition rounds (state : AgentState.t) : Z :=
  default 0 (investigation_count state).

(** The most supersteps a run can still take from a node, given the
    rounds of investigation made so far. *)
Definition budget (n : Node) (c : Z) : nat :=
  match n with
  | prepare => 12
  | investigation_swarm => 7 + 2 * Z.to_nat (2 - c)
  | reflector => 6 + 2 * Z.to_nat (3 - c)
  | planner => 5
  | policy_gate => 4
  | executor => 3
  | verifier => 2
  | aggregate => 1
  | END => 0
  end.

(** The fewest supersteps a run takes from a node. *)
Definition shortest (n : Node) : nat :=
  match n with
  | prepare => 6
  | investigation_swarm => 5
  | reflector => 4
  | planner => 3
  | policy_gate => 2
  | executor => 3
  | verifier => 2
  | aggregate => 1
  | END => 0
  end.

(** The [i]-th run of a tool's body on an input raises with a message,
    or returns a result. *)
Definition raises (tool : ToolWrapper.Tool) (i : nat) (input_data msg : string) : Prop :=
  exists duration, ToolWrapper.body tool i input_data = (duration, inr msg).

Definition returns (tool : ToolWrapper.Tool) (i : nat) (input_data result : string) : Prop :=
  exists duration, ToolWrapper.body tool i input_data = (duration, inl result).

(** The breaker's tables agree for a tool: it is open only with failures
    on record. *)
Definition consistent (tool_name : string) (st : ToolWrapper.CircuitBreakerState) : Prop :=
  default false (ToolWrapper.is_open st !! tool_name) = true ->
  0 < default 0 (ToolWrapper.failures st !! tool_name).

(** The entries of a tool in the breaker's three tables. *)
Definition breaker_entry (tool_name : string) (st : ToolWrapper.CircuitBreakerState)
    : option Z * option Z * option bool :=
  (ToolWrapper.failures st !! tool_name, ToolWrapper.last_failure st !! tool_name,
   ToolWrapper.is_open st !! tool_name).

(** The store's server answers [ping()] and the commands that follow. *)
Definition serving (st : StateStore.t) : bool :=
  StateStore.is_available st
  && forallb (StateStore.commands_ok st) StateStore.all_commands.

(** The lines that the keyspace holds for a session's log, whether the
    server answers or not. *)
Definition logged (st : StateStore.t) (key : string) : list string :=
  match StateStore.keyspace st !! StateStore.logs_key key with
  | Some (StateStore.ListEntry items _) => items
  | _ => []
  end.

(** The time to live of a session's log, when it has one. *)
Definition logs_ttl (st : StateStore.t) (key : string) : option Z :=
  match StateStore.keyspace st !! StateStore.logs_key key with
  | Some (StateStore.ListEntry _ ttl) => ttl
  | _ => None
  end.

(** The log key of a session holds nothing or a list, which Redis never
    keeps when empty: the states that [append_log] leaves behind. *)
Definition logs_well_typed (st : StateStore.t) (key : string) : Prop :=
  match StateStore.keyspace st !! StateStore.logs_key key with
  | None => True
  | Some (StateStore.ListEntry items _) => items <> []
  | Some _ => False
  end.

(** The audit events of a cluster, in table order. *)
Definition events_of (db : Backend.DB) (cid : Backend.UUID) : list Backend.AuditEvent :=
  List.filter (fun e => String.eqb (Backend.event_cluster_id e) cid)
    (Backend.audit_events db).

(** An event is at least as recent as another. *)
Definition not_older (a b : Backend.AuditEvent) : Prop :=
  Backend.event_timestamp b <= Backend.event_timestamp a.

(** The fields of a job that no status update may change. *)
Definition job_identity (j : Backend.Job)
    : Backend.UUID * Backend.UUID * Backend.JobType * option string * Z :=
  (Backend.job_id j, Backend.job_cluster_id j, Backend.job_type j, Backend.payload j,
   Backend.created_at j).

(** A cluster row after a heartbeat at time [now]. *)
Definition online (now : Z) (c : Backend.Cluster) : Backend.Cluster :=
  {| Backend.cluster_id := Backend.cluster_id c;
     Backend.cluster_name := Backend.cluster_name c;
     Backend.org_id := Backend.org_id c; Backend.token := Backend.token c;
     Backend.cluster_status := Backend.ONLINE; Backend.last_heartbeat := Some now |}.

(** An exception escapes in a round of the polling loop: from the
    decoding of the response, or from the execution of the job. *)
Definition raised (response : JobPoller.PollResponse) (execute_raises : bool) : bool :=
  match JobPoller.get_pending_job response with
  | inr _ => true
  | inl (Some _) => execute_raises
  | inl None => false
  end.

(** The second world differs from the first at most by further tool
    invocations and further audit events. *)
Definition footprint (w w' : World) : Prop :=
  storage w' = storage w /\ crud_available w' = crud_available w
  /\ audit_write_ok w' = audit_write_ok w
  /\ Backend.users (db w') = Backend.users (db w)
  /\ Backend.clusters (db w') = Backend.clusters (db w)
  /\ Backend.jobs (db w') = Backend.jobs (db w)
  /\ (exists new_inv, invoked w' = (invoked w ++ new_inv)%list)
  /\ (exists new_ev,
        Backend.audit_events (db w') = (Backend.audit_events (db w) ++ new_ev)%list).

End MoreNotions.

(** * Properties *)

(** ** Policy gate *)

Module PolicyEngineFacts.
Import PolicyEngine Samples.

Lemma str_in_list_delete_patch (s : string) :
  Py.str_in_list s ["delete"; "patch"] = true -> Py.str_in "delete" s = true ->
  s = "delete".
Proof.
  unfold Py.str_in_list. cbn [existsb].
  destruct (String.eqb_spec s "delete") as [->|_]; [reflexivity|].
  destruct (String.eqb_spec s "patch") as [->|_]; cbn [orb]; [|discriminate].
  intros _ H. vm_compute in H. discriminate.
Qed.

Ltac split_ifs :=
  repeat match goal with |- context [if ?c then _ else _] => destruct c end.

(** Rule 2 fires exactly on the action type [delete] (in any letter case)
    in production. *)
Lemma evaluate_action_delete_rule (action : RemediationAction) (environment : string)
    (risk_score : Q) :
  evaluate_action action environment risk_score = (false, DeleteBlocked) <->
  Py.lower (action_type action) = "delete" /\ Py.lower environment = "production".
Proof.
  unfold evaluate_action, is_production.
  set (a := Py.lower (action_type action)). set (e := Py.lower environment).
  destruct (String.eqb_spec e "production") as [He|He];
    destruct (String.eqb_spec a "restart") as [Hr|Hr]; cbn [andb negb].
  - split; [destruct (Qle_bool 3 risk_score); discriminate|].
    intros [H _]. rewrite Hr in H. discriminate.
  - destruct (Py.str_in_list a ["delete"; "patch"]) eqn:Hl;
      destruct (Py.str_in "delete" a) eqn:Hs; cbn [andb].
    + split; [intros _|reflexivity]. split; [|assumption].
      now apply str_in_list_delete_patch.
    + split; [split_ifs; discriminate|].
      intros [Hd _]. rewrite Hd in Hs. discriminate.
    + split; [split_ifs; discriminate|].
      intros [Hd _]. rewrite Hd in Hl. discriminate.
    + split; [split_ifs; discriminate|].
      intros [Hd _]. rewrite Hd in Hl. discriminate.
  - split; [|intros [_ H]; contradiction].
    rewrite !andb_false_r. split_ifs; discriminate.
  - split; [|intros [_ H]; contradiction].
    rewrite !andb_false_r. split_ifs; discriminate.
Qed.

(** An action whose type is [delete] is refused in production whatever
    the risk score and the parameters. *)
Lemma delete_blocked_in_production (action : RemediationAction) (environment : string)
    (risk_score : Q) :
  Py.lower (action_type action) = "delete" -> Py.lower environment = "production" ->
  fst (evaluate_action action environment risk_score) = false.
Proof.
  intros Ha He.
  assert (H : evaluate_action action environment risk_score = (false, DeleteBlocked))
    by (apply evaluate_action_delete_rule; auto).
  now rewrite H.
Qed.

(** C1, evaluated on the code: the action type [delete_pod] contains
    "delete", yet in production [evaluate_action] allows it under the
    default policy for every risk score, and the policy gate forwards a
    plan made of it to the executor. *)
Theorem C1_delete_pod_allowed_in_production :
  (forall risk_score : Q,
      evaluate_action delete_pod_action "production" risk_score
      = (true, DefaultPolicy "delete_pod" "production"))
  /\ Py.str_in "delete" (action_type delete_pod_action) = true
  /\ (forall s : AgentState.t,
        AgentState.remediation_plan s = Some delete_pod_plan ->
        AgentState.alert_context s = Some production_alert ->
        AgentState.u_next (Graph._policy_gate_node s) = Some "executor").
Proof.
  split; [|split].
  - intros r. reflexivity.
  - reflexivity.
  - intros s Hp Ha. unfold Graph._policy_gate_node. rewrite Hp, Ha.
    reflexivity.
Qed.

End PolicyEngineFacts.

(** ** Tool invocation wrapper *)

Module ToolWrapperFacts.
Import ToolWrapper Notions.

Lemma same_bookkeeping_refl w : same_bookkeeping w w.
Proof. now repeat split. Qed.

Lemma same_bookkeeping_trans w1 w2 w3 :
  same_bookkeeping w1 w2 -> same_bookkeeping w2 w3 -> same_bookkeeping w1 w3.
Proof.
  intros (a & b & c & d) (a' & b' & c' & d').
  repeat split; congruence.
Qed.

Lemma original_invoke_fails (tool : Tool) (input_data : string) (w : World) :
  always_fails tool ->
  exists w' msg,
    original_invoke tool input_data w = (w', inr (Exception msg))
    /\ invocations w' = S (invocations w) /\ same_bookkeeping w w'.
Proof.
  intros Hf. unfold original_invoke.
  destruct (Hf (invocations w) input_data) as (d & msg & ->).
  eexists _, msg. split; [reflexivity|]. split; [reflexivity|].
  now repeat split.
Qed.

(** With [reraise=True] the retry loop gives back the exception of the
    last attempt, never a [RetryError], after running the body once per
    allowed attempt. *)
Lemma retry_attempts_exhausted (tool : Tool) (input_data : string) :
  always_fails tool ->
  forall (extra attempt_number : nat) (w : World),
  exists w' msg,
    retry_attempts true (original_invoke tool) input_data extra attempt_number w
    = (w', inr (Exception msg))
    /\ invocations w' = (invocations w + S extra)%nat /\ same_bookkeeping w w'.
Proof.
  intros Hf extra. induction extra as [|extra IH]; intros k w; cbn [retry_attempts].
  - destruct (original_invoke_fails tool input_data w Hf) as (w1 & msg & -> & Hi & Hb).
    exists w1, msg. split; [reflexivity|]. split; [lia|assumption].
  - destruct (original_invoke_fails tool input_data w Hf) as (w1 & msg & -> & Hi & Hb).
    destruct (IH (S k) (sleep (wait_exponential 1 1 10 k) w1)) as (w2 & msg2 & -> & Hi2 & Hb2).
    exists w2, msg2. split; [reflexivity|]. split.
    + rewrite Hi2. cbn. lia.
    + eapply same_bookkeeping_trans; [exact Hb|].
      destruct Hb2 as (a & b & c & d). now repeat split.
Qed.

(** What the retry layer returns for a tool that fails on every attempt:
    the text of a [ToolError] built by the [except Exception] clause:
    one attempt reported, marked recoverable. *)
Lemma safe_invoke_exhausted (tool : Tool) (max_attempts : nat) (input_data : string)
    (w : World) :
  always_fails tool ->
  exists w' msg,
    safe_invoke (name tool) max_attempts (original_invoke tool) input_data w
    = (w', inl (to_agent_response
                  {| tool_name := name tool; error_message := msg; retry_count := 1;
                     is_recoverable := true;
                     suggestion := "Single failure in " +:+ name tool
                                     +:+ ". Consider retrying manually." |}))
    /\ invocations w' = (invocations w + S (max_attempts - 1))%nat
    /\ same_bookkeeping w w'.
Proof.
  intros Hf. unfold safe_invoke, invoke_with_retry.
  destruct (retry_attempts_exhausted tool input_data Hf (max_attempts - 1) 1 w)
    as (w' & msg & -> & Hi & Hb).
  exists w', msg. split; [reflexivity|]. split; assumption.
Qed.

Lemma closed_for_initial tool_name : closed_for tool_name cb_initial.
Proof. split; [reflexivity|]. cbn. rewrite lookup_empty. cbn. lia. Qed.

(** Around a callable that returns, the breaker layer of a closed breaker
    changes nothing and passes the value on. *)
Lemma cb_invoke_returns (tool_name : string) (f : Invoke) (input_data : string)
    (w w' : World) (result : string) :
  closed_for tool_name (breaker w) ->
  f input_data w = (w', inl result) -> breaker w' = breaker w ->
  cb_invoke tool_name f input_data w = (w', inl result).
Proof.
  intros [Ho Hz] Hf Hb. unfold cb_invoke, check_circuit_breaker.
  rewrite Ho, Hf. unfold record_success. rewrite Hb.
  destruct (0 <? default 0 (failures (breaker w) !! tool_name)) eqn:E; [|reflexivity].
  apply Z.ltb_lt in E. lia.
Qed.

Lemma log_audit_entry_bookkeeping tool_name status args result error audit_id w :
  let w' := fst (log_audit_entry tool_name status args result error audit_id w) in
  breaker w' = breaker w /\ invocations w' = invocations w.
Proof.
  unfold log_audit_entry. destruct (audit_db_up w); [|now split].
  destruct (audit_context w) as [i a]. destruct audit_id; now split.
Qed.

(** The audit layer hands on what the layer below gave, and touches
    neither the breaker nor the tool. *)
Lemma audit_invoke_passes (tool_name : string) (f : Invoke) (input_data : string)
    (w : World) :
  exists w0, breaker w0 = breaker w /\ invocations w0 = invocations w /\
  forall w1 r, f input_data w0 = (w1, r) ->
  exists w2, audit_invoke tool_name f input_data w = (w2, r)
             /\ breaker w2 = breaker w1 /\ invocations w2 = invocations w1.
Proof.
  unfold audit_invoke.
  pose proof (log_audit_entry_bookkeeping tool_name "PENDING" input_data None None None w)
    as Hp.
  destruct (log_audit_entry tool_name "PENDING" input_data None None None w)
    as [w0 audit_id]. cbn in Hp. destruct Hp as [Hb Hi].
  exists w0. split; [assumption|]. split; [assumption|].
  intros w1 r ->. destruct r as [result|e]; eexists; (split; [reflexivity|]);
    apply log_audit_entry_bookkeeping.
Qed.

(** One call through the whole stack to a tool that always fails: the
    caller gets a value, the body of the tool ran once per attempt, and
    the breaker saw no failure. *)
Lemma wrapped_invoke_failing_tool (tool : Tool) (max_attempts : nat) (input_data : string)
    (w : World) :
  always_fails tool -> closed_for (name tool) (breaker w) ->
  exists w' text,
    wrapped_invoke tool max_attempts input_data w = (w', inl text)
    /\ invocations w' = (invocations w + S (max_attempts - 1))%nat
    /\ breaker w' = breaker w.
Proof.
  intros Hf Hc. unfold wrapped_invoke.
  destruct (audit_invoke_passes (name tool)
              (cb_invoke (name tool)
                 (safe_invoke (name tool) max_attempts (original_invoke tool)))
              input_data w) as (w0 & Hb0 & Hi0 & Hk).
  destruct (safe_invoke_exhausted tool max_attempts input_data w0 Hf)
    as (w1 & msg & Hs & Hi1 & Hb1 & _).
  assert (Hcb := cb_invoke_returns (name tool) _ input_data w0 w1 _
                   ltac:(rewrite Hb0; exact Hc) Hs Hb1).
  destruct (Hk _ _ Hcb) as (w2 & -> & Hb2 & Hi2).
  eexists _, _. split; [reflexivity|]. split; congruence.
Qed.

(** However many calls are made and whatever the pauses between them, a
    tool that always fails behind the composed stack is invoked on every
    call and the breaker stays as it was. *)
Lemma composed_stack_never_trips (tool : Tool) (max_attempts : nat) :
  always_fails tool ->
  forall (calls : list (Z * string)) (w : World),
    closed_for (name tool) (breaker w) ->
    let '(w', outcomes) := call_series (wrapped_invoke tool max_attempts) calls w in
    breaker w' = breaker w
    /\ invocations w' = (invocations w + length calls * S (max_attempts - 1))%nat
    /\ Forall (fun r => exists text, r = inl text) outcomes.
Proof.
  intros Hf calls. induction calls as [|[delay input_data] rest IH]; intros w Hc.
  - cbn. repeat split; [lia|constructor].
  - cbn [call_series].
    destruct (wrapped_invoke_failing_tool tool max_attempts input_data
                (set_clock (clock w + delay) w) Hf Hc) as (w1 & text & -> & Hi & Hb).
    cbn in Hi, Hb.
    specialize (IH w1 ltac:(rewrite Hb; exact Hc)).
    destruct (call_series (wrapped_invoke tool max_attempts) rest w1) as [w2 outs].
    destruct IH as (Hb2 & Hi2 & Ho).
    split; [congruence|]. split.
    + rewrite Hi2, Hi. cbn [length]. lia.
    + constructor; [eauto|assumption].
Qed.

(** *** The breaker on its own *)

(** While the breaker is open and the cool-down has not elapsed, the call
    fails fast: the wrapped callable is not run and the world is as it
    was. *)
Lemma cb_invoke_fails_fast (tool_name : string) (f : Invoke) (input_data : string)
    (w : World) (last_fail : Z) :
  is_open (breaker w) !! tool_name = Some true ->
  last_failure (breaker w) !! tool_name = Some last_fail ->
  clock w - last_fail < microseconds CIRCUIT_BREAKER_RECOVERY_TIME ->
  exists msg, cb_invoke tool_name f input_data w = (w, inr (Exception msg)).
Proof.
  intros Ho Hl Ht. unfold cb_invoke, check_circuit_breaker.
  rewrite Ho, Hl. cbn [default].
  destruct (clock w - last_fail <? microseconds CIRCUIT_BREAKER_RECOVERY_TIME) eqn:E.
  - eexists. reflexivity.
  - apply Z.ltb_ge in E. lia.
Qed.

(** Once the cool-down has elapsed since the last recorded failure, the
    open breaker lets the call through. *)
Lemma cb_invoke_half_open (tool_name : string) (f : Invoke) (input_data : string)
    (w : World) (last_fail : Z) :
  is_open (breaker w) !! tool_name = Some true ->
  last_failure (breaker w) !! tool_name = Some last_fail ->
  microseconds CIRCUIT_BREAKER_RECOVERY_TIME <= clock w - last_fail ->
  cb_invoke tool_name f input_data w
  = match f input_data w with
    | (w', inl result) => (record_success tool_name w', inl result)
    | (w', inr e) => (record_failure tool_name w', inr e)
    end.
Proof.
  intros Ho Hl Ht. unfold cb_invoke, check_circuit_breaker.
  rewrite Ho, Hl. cbn [default].
  destruct (clock w - last_fail <? microseconds CIRCUIT_BREAKER_RECOVERY_TIME) eqn:E.
  - apply Z.ltb_lt in E. lia.
  - reflexivity.
Qed.

(** The fifth failure in a row opens the breaker. *)
Lemma record_failure_trips (tool_name : string) (w : World) :
  default 0 (failures (breaker w) !! tool_name) = CIRCUIT_BREAKER_THRESHOLD - 1 ->
  is_open (breaker (record_failure tool_name w)) !! tool_name = Some true.
Proof.
  intros H. unfold record_failure. cbn. rewrite H. cbn.
  apply lookup_insert_eq.
Qed.

(** Below the threshold a failure leaves the breaker's [is_open] table
    alone. *)
Lemma record_failure_below_threshold (tool_name : string) (w : World) :
  default 0 (failures (breaker w) !! tool_name) + 1 < CIRCUIT_BREAKER_THRESHOLD ->
  is_open (breaker (record_failure tool_name w)) = is_open (breaker w).
Proof.
  intros H. unfold record_failure. cbn.
  destruct (CIRCUIT_BREAKER_THRESHOLD <=? default 0 (failures (breaker w) !! tool_name) + 1)
    eqn:E; [|reflexivity].
  apply Z.leb_le in E. lia.
Qed.

(** The breaker wrapped directly around the failing tool: five failures
    open it, the sixth call is refused without running the tool, and a
    call made 60 s later runs the tool again. *)
Example breaker_alone_trips :
  let direct := cb_invoke "search_logs" (original_invoke black_hole_tool) in
  let '(w5, _) := call_series direct (repeat (0, "q") 5) fresh_world in
  let '(w6, r6) := direct "q" w5 in
  let '(w7, r7) := direct "q" (set_clock (clock w6 + microseconds 60) w6) in
  is_open (breaker w5) !! "search_logs" = Some true
  /\ invocations w5 = 5%nat
  /\ invocations w6 = 5%nat
  /\ r6 = inr (Exception "Circuit Breaker OPEN for search_logs (Cooling down for 60s)")
  /\ invocations w7 = 6%nat
  /\ r7 = inr (Exception "connection refused").
Proof. vm_compute. repeat split. Qed.

(** *** The composed stack on the failing tool *)

(** C2, evaluated on the code: behind the composed stack the failing tool
    is called five times in a row (three attempts each); the breaker has
    recorded nothing and is closed; the sixth call, made at once, runs the
    tool three more times and returns the same error text as the others
    instead of the breaker's synthetic error. *)
Theorem C2_sixth_call_reaches_tool :
  let stack := wrapped_invoke black_hole_tool 3 in
  let '(w5, outcomes) := call_series stack (repeat (0, "q") 5) fresh_world in
  let '(w6, r6) := stack "q" w5 in
  breaker w5 = cb_initial
  /\ invocations w5 = 15%nat
  /\ check_circuit_breaker "search_logs" w5 = None
  /\ invocations w6 = 18%nat
  /\ Forall (fun r => r = r6) outcomes
  /\ r6 = inl ("Error: Tool search_logs failed after 1 attempts. "
                 +:+ "Proceeding without this data. (Error: connection refused)").
Proof. vm_compute. repeat split. repeat constructor. Qed.

(** Had the decorator been built without [reraise], the exhausted retries
    would surface as a [RetryError] and the error built from it would
    report all the attempts and be marked as not recoverable. *)
Lemma without_reraise_error_reports_all_attempts (tool : Tool) (input_data : string) :
  always_fails tool ->
  forall (extra attempt_number : nat) (w : World),
  exists w' msg,
    retry_attempts false (original_invoke tool) input_data extra attempt_number w
    = (w', inr (RetryError (Some msg)))
    /\ retry_count (tool_error_of (name tool) (S extra) (RetryError (Some msg))) = S extra
    /\ is_recoverable (tool_error_of (name tool) (S extra) (RetryError (Some msg))) = false.
Proof.
  intros Hf extra. induction extra as [|extra IH]; intros k w; cbn [retry_attempts].
  - destruct (original_invoke_fails tool input_data w Hf) as (w1 & msg & -> & _).
    exists w1, msg. repeat split.
  - destruct (original_invoke_fails tool input_data w Hf) as (w1 & msg & -> & _).
    destruct (IH (S k) (sleep (wait_exponential 1 1 10 k) w1)) as (w2 & msg2 & -> & _).
    exists w2, msg2. repeat split.
Qed.

(** The pauses between the attempts: 1 s, 2 s, 4 s, 8 s, then capped at
    10 s. *)
Example backoff_schedule :
  map (wait_exponential 1 1 10) [1; 2; 3; 4; 5; 6]%nat = [1; 2; 4; 8; 10; 10].
Proof. reflexivity. Qed.

(** C3, evaluated on the code: after the three attempts are exhausted the
    retry layer returns (it does not raise), but the error it builds
    reports one attempt and is marked recoverable, and the value handed to
    the caller is the one-line text of that error, which carries neither
    the recoverability flag nor the suggestion. *)
Theorem C3_exhaustion_reports_one_attempt :
  forall (input_data : string) (w : World),
  exists w',
    safe_invoke "search_logs" 3 (original_invoke black_hole_tool) input_data w
    = (w', inl (to_agent_response (tool_error_of "search_logs" 3
                                     (Exception "connection refused"))))
    /\ invocations w' = (invocations w + 3)%nat
    /\ retry_count (tool_error_of "search_logs" 3 (Exception "connection refused")) = 1%nat
    /\ is_recoverable (tool_error_of "search_logs" 3 (Exception "connection refused")) = true
    /\ to_agent_response (tool_error_of "search_logs" 3 (Exception "connection refused"))
       = "Error: Tool search_logs failed after 1 attempts. "
           +:+ "Proceeding without this data. (Error: connection refused)".
Proof.
  intros input_data w. eexists. split; [reflexivity|].
  split; [cbn; lia|]. repeat split.
Qed.

End ToolWrapperFacts.

(** ** Investigation graph *)

Module GraphFacts.
Import PolicyEngine AgentState Graph Notions.

(** *** What each node writes to [investigation_count] *)

Lemma merge_investigation_count (s : AgentState.t) (u : Update) :
  investigation_count (merge s u)
  = pick (u_investigation_count u) (investigation_count s).
Proof. reflexivity. Qed.

Lemma merge_next (s : AgentState.t) (u : Update) :
  next (merge s u) = pick (u_next u) (next s).
Proof. reflexivity. Qed.

Lemma prepare_count (state : AgentState.t) :
  u_investigation_count (_prepare_initial_state state) = Some 0.
Proof. reflexivity. Qed.

Lemma swarm_count (b : Build) (o : Oracles) (k : nat) (state : AgentState.t) :
  u_investigation_count (investigation_swarm_with_agents b o k state)
  = Some (default 0 (investigation_count state) + 1).
Proof. reflexivity. Qed.

Lemma reflector_count (o : Oracles) (k : nat) (state : AgentState.t) :
  u_investigation_count (_reflector_node o k state) = None.
Proof.
  unfold _reflector_node.
  destruct (negb _ && _); [reflexivity|].
  destruct (reflect o k _) as [a|msg]; [|reflexivity].
  destruct (_ && _ && _); reflexivity.
Qed.

Lemma planner_count (o : Oracles) (k : nat) (state : AgentState.t) :
  u_investigation_count (_planner_node o k state) = None.
Proof. unfold _planner_node. destruct (plan o k); reflexivity. Qed.

Lemma policy_gate_count (state : AgentState.t) :
  u_investigation_count (_policy_gate_node state) = None.
Proof.
  unfold _policy_gate_node. destruct (remediation_plan state); [|reflexivity].
  destruct (nonempty _); [reflexivity|]. destruct (_ && _); reflexivity.
Qed.

Lemma executor_count (o : Oracles) (k : nat) (w : World) (state : AgentState.t) :
  u_investigation_count (snd (_executor_node o k w state)) = None.
Proof.
  unfold _executor_node.
  destruct (match cluster_id (get_metadata state) with Some _ => _ | None => _ end);
    [reflexivity|].
  destruct (negb _); [reflexivity|].
  destruct (remediation_plan state); [|reflexivity].
  destruct (negb _); [reflexivity|].
  destruct (fold_left _ _ _) as [[w' ex] fa]. reflexivity.
Qed.

Lemma verifier_count (o : Oracles) (k : nat) (state : AgentState.t) :
  u_investigation_count (_verifier_node o k state) = None.
Proof.
  unfold _verifier_node.
  destruct (remediation_plan state), (alert_context state); try reflexivity.
  destruct (verify o k); reflexivity.
Qed.

(** *** Where the reflector routes *)

(** The reflector hands over to the swarm exactly when the oracle asked
    for a deeper investigation, recommended at least one agent, and fewer
    than three rounds have been made; in every other case, the early
    return and the oracle's failure included, it hands over to the
    planner. *)
Lemma reflector_routing (o : Oracles) (k : nat) (state : AgentState.t) :
  let u := _reflector_node o k state in
  (u_next u = Some "investigation_swarm" \/ u_next u = Some "planner")
  /\ (u_next u = Some "investigation_swarm" <->
      (is_Some (investigation_findings state)
       \/ default ∅ (agent_results state) <> ∅)
      /\ exists analysis,
          reflect o k (reflection_prompt o state) = inl analysis
          /\ requires_deeper_investigation analysis = true
          /\ recommended_agents analysis <> []
          /\ default 0 (investigation_count state) < 3).
Proof.
  unfold _reflector_node.
  destruct (investigation_findings state) as [f|] eqn:Hf; cbn [negb andb bool_decide].
  - rewrite bool_decide_eq_true_2 by eauto. cbn [negb andb].
    destruct (reflect o k (reflection_prompt o state)) as [a|msg] eqn:Hr.
    + destruct (requires_deeper_investigation a) eqn:Hd; cbn [andb].
      * destruct (recommended_agents a) as [|x xs] eqn:Ha; cbn [nonempty andb].
        -- split; [right; reflexivity|]. split; [discriminate|].
           intros (_ & a' & Ha' & _ & Hne & _). congruence.
        -- destruct (default 0 (investigation_count state) <? 3) eqn:Hc.
           ++ split; [left; reflexivity|]. split; [intros _|reflexivity].
              split; [left; eauto|]. exists a. rewrite Ha.
              apply Z.ltb_lt in Hc. repeat split; auto; try discriminate.
           ++ split; [right; reflexivity|]. split; [discriminate|].
              intros (_ & a' & Ha' & _ & _ & Hlt). apply Z.ltb_ge in Hc. lia.
      * split; [right; reflexivity|]. split; [discriminate|].
        intros (_ & a' & Ha' & Hd' & _). congruence.
    + split; [right; reflexivity|]. split; [discriminate|].
      intros (_ & a' & Ha' & _). congruence.
  - assert (Hn : bool_decide (is_Some (@None InvestigationFindings)) = false).
    { apply bool_decide_eq_false_2. intros [x Hx]. discriminate. }
    rewrite Hn. cbn [negb andb].
    destruct (bool_decide (default ∅ (agent_results state) = ∅)) eqn:He.
    + apply bool_decide_eq_true_1 in He.
      split; [right; reflexivity|]. split; [discriminate|].
      intros ([[x Hx]|Hne] & _); [discriminate|contradiction].
    + apply bool_decide_eq_false_1 in He.
      destruct (reflect o k (reflection_prompt o state)) as [a|msg] eqn:Hr.
      * destruct (requires_deeper_investigation a) eqn:Hd; cbn [andb].
        -- destruct (recommended_agents a) as [|x xs] eqn:Ha; cbn [nonempty andb].
           ++ split; [right; reflexivity|]. split; [discriminate|].
              intros (_ & a' & Ha' & _ & Hne & _). congruence.
           ++ destruct (default 0 (investigation_count state) <? 3) eqn:Hc.
              ** split; [left; reflexivity|]. split; [intros _|reflexivity].
                 split; [right; assumption|]. exists a. rewrite Ha.
                 apply Z.ltb_lt in Hc. repeat split; auto; try discriminate.
              ** split; [right; reflexivity|]. split; [discriminate|].
                 intros (_ & a' & Ha' & _ & _ & Hlt). apply Z.ltb_ge in Hc. lia.
        -- split; [right; reflexivity|]. split; [discriminate|].
           intros (_ & a' & Ha' & Hd' & _). congruence.
      * split; [right; reflexivity|]. split; [discriminate|].
        intros (_ & a' & Ha' & _). congruence.
Qed.

(** *** The counter along a run *)

Lemma route_reflector_swarm (key : string) :
  route [("investigation_swarm", investigation_swarm); ("planner", planner)] key
  = Some investigation_swarm -> key = "investigation_swarm".
Proof.
  cbn [route].
  destruct (String.eqb_spec "investigation_swarm" key) as [H|_]; [now intros _|].
  destruct (String.eqb "planner" key); discriminate.
Qed.

(** One superstep: what it does to the counter and where it may lead. *)
Lemma graph_step_count (b : Build) (o : Oracles) (k : nat) (n n' : Node)
    (w w' : World) (s s' : AgentState.t) :
  graph_step b o k n w s = Some (n', w', s') ->
  n' <> prepare
  /\ investigation_count s'
     = match n with
       | prepare => Some 0
       | investigation_swarm => Some (default 0 (investigation_count s) + 1)
       | _ => investigation_count s
       end
  /\ (n' = investigation_swarm ->
      n = prepare \/ (n = reflector /\ default 0 (investigation_count s) < 3)).
Proof.
  destruct n; cbn [graph_step]; intros H.
  - injection H as <- <- <-.
    split; [discriminate|]. split; [reflexivity|]. intros _. now left.
  - injection H as <- <- <-.
    split; [discriminate|]. split; [reflexivity|]. discriminate.
  - destruct (route _ _) as [m|] eqn:Hr; [|discriminate].
    injection H as <- <- <-. rewrite merge_investigation_count, reflector_count.
    split; [|split; [reflexivity|]].
    + cbn [route] in Hr. repeat match type of Hr with
        | (if ?c then _ else _) = _ => destruct c
        end; inversion Hr; discriminate.
    + intros ->. right. split; [reflexivity|]. apply route_reflector_swarm in Hr.
      rewrite merge_next in Hr.
      destruct (reflector_routing o k s) as [[Hn|Hn] Hiff].
      * apply Hiff in Hn. destruct Hn as (_ & a & _ & _ & _ & Hlt). exact Hlt.
      * cbn zeta in Hn. rewrite Hn in Hr. discriminate.
  - injection H as <- <- <-. rewrite merge_investigation_count, planner_count.
    split; [discriminate|]. split; [reflexivity|]. discriminate.
  - destruct (route _ _) as [m|] eqn:Hr; [|discriminate].
    injection H as <- <- <-. rewrite merge_investigation_count, policy_gate_count.
    cbn [route] in Hr.
    repeat match type of Hr with
      | (if ?c then _ else _) = _ => destruct c
      end; inversion Hr;
      (split; [discriminate|]; split; [reflexivity|]; discriminate).
  - pose proof (executor_count o k w s) as He.
    destruct (_executor_node o k w s) as [w1 u].
    injection H as <- <- <-. rewrite merge_investigation_count. cbn in He. rewrite He.
    split; [discriminate|]. split; [reflexivity|]. discriminate.
  - injection H as <- <- <-. rewrite merge_investigation_count, verifier_count.
    split; [discriminate|]. split; [reflexivity|]. discriminate.
  - injection H as <- <- <-.
    split; [discriminate|]. split; [reflexivity|]. discriminate.
  - discriminate.
Qed.

(** From any node but [prepare], with the counter within the bound that
    the node needs, the events of the run are counted. *)
Lemma run_from_counted (b : Build) (o : Oracles) (fuel : nat) :
  forall (k : nat) (n : Node) (w : World) (s : AgentState.t) (c : Z),
    n <> prepare -> investigation_count s = Some c -> 0 <= c <= 3 ->
    (n = investigation_swarm -> c < 3) ->
    counted c (fst (run_from b o fuel k n w s)).
Proof.
  induction fuel as [|fuel IH]; intros k n w s c Hn Hc Hb Hs; [exact I|].
  cbn [run_from].
  destruct (graph_step b o k n w s) as [[[n' w'] s']|] eqn:Hstep; [|exact I].
  destruct (graph_step_count _ _ _ _ _ _ _ _ _ Hstep) as (Hn' & Hcount & Hswarm).
  specialize (IH (S k) n' w' s').
  destruct (run_from b o fuel (S k) n' w' s') as [events w''].
  cbn [fst counted snd]. unfold is_swarm. cbn [fst].
  rewrite Hc in Hcount, Hswarm. cbn [default] in Hcount, Hswarm.
  destruct n; try contradiction; cbn [Node_eqb];
    (split; [assumption|]); (split; [exact Hcount|]).
  1: { specialize (Hs eq_refl). split; [lia|].
       apply (IH (c + 1)); auto; [lia|].
       intros ->. destruct (Hswarm eq_refl) as [|[? _]]; congruence. }
  all: split; [lia|]; apply (IH c); auto;
    intros ->; destruct (Hswarm eq_refl) as [|[? ?]]; first [congruence | unfold id in *; lia].
Qed.

Lemma counted_bounds (c : Z) (events : list (Node * AgentState.t)) :
  counted c events ->
  Forall (fun e => exists c', investigation_count (snd e) = Some c' /\ 0 <= c' <= 3) events.
Proof.
  revert c. induction events as [|e rest IH]; intros c H; [constructor|].
  destruct H as (_ & Hc & Hb & Hrest). constructor; eauto.
Qed.

Lemma counted_visits (c : Z) (events : list (Node * AgentState.t)) :
  counted c events -> c <= 3 -> c + Z.of_nat (swarm_visits events) <= 3.
Proof.
  revert c. induction events as [|e rest IH]; intros c H Hc; [cbn; lia|].
  destruct H as (_ & _ & Hb & Hrest). unfold swarm_visits in *. cbn [List.filter].
  destruct (is_swarm e); cbn [length].
  - specialize (IH _ Hrest). lia.
  - apply IH; assumption.
Qed.

Lemma counted_step (c : Z) (events : list (Node * AgentState.t)) (i : nat)
    (e e' : Node * AgentState.t) :
  counted c events -> events !! i = Some e -> events !! S i = Some e' ->
  exists a, investigation_count (snd e) = Some a
            /\ investigation_count (snd e')
               = Some (if is_swarm e' then a + 1 else a).
Proof.
  revert c i. induction events as [|x rest IH]; intros c i H Hi Hi'; [discriminate|].
  destruct H as (_ & Hc & _ & Hrest).
  destruct i as [|i].
  - cbn in Hi. injection Hi as <-. destruct rest as [|y rest']; [discriminate|].
    cbn in Hi'. injection Hi' as <-. destruct Hrest as (_ & Hy & _).
    eexists. split; [exact Hc|exact Hy].
  - cbn in Hi, Hi'. eapply IH; eauto.
Qed.

(** Within one run of the graph from its entry point: the first event
    is PREPARE's, which sets the counter to 0, and the second the
    swarm's, which sets it to 1; the counter goes up by exactly one at
    each visit to the swarm and is left alone by every other node (so
    it never decreases), stays between 0 and 3, and the swarm is visited
    at most three times; the reflector routes back to the swarm exactly
    when the oracle requires a deeper investigation, recommends at
    least one agent and the counter is below 3, and to the planner in
    every other case. *)
Lemma investigation_count_within_run (b : Build) (o : Oracles) (fuel : nat)
    (w : World) (s0 : AgentState.t) :
  let events := fst (astream b o (S (S fuel)) w s0) in
  (exists st st' rest,
      events = (prepare, st) :: (investigation_swarm, st') :: rest
      /\ investigation_count st = Some 0 /\ investigation_count st' = Some 1)
  /\ (forall i e e', events !! i = Some e -> events !! S i = Some e' ->
        exists c, investigation_count (snd e) = Some c
                  /\ investigation_count (snd e')
                     = Some (if is_swarm e' then c + 1 else c))
  /\ Forall (fun e => exists c, investigation_count (snd e) = Some c /\ 0 <= c <= 3)
       events
  /\ (1 <= swarm_visits events <= 3)%nat
  /\ (forall k state,
        let u := _reflector_node o k state in
        (u_next u = Some "investigation_swarm" \/ u_next u = Some "planner")
        /\ (u_next u = Some "investigation_swarm" <->
            (is_Some (investigation_findings state)
             \/ default ∅ (agent_results state) <> ∅)
            /\ exists analysis,
                reflect o k (reflection_prompt o state) = inl analysis
                /\ requires_deeper_investigation analysis = true
                /\ recommended_agents analysis <> []
                /\ default 0 (investigation_count state) < 3)).
Proof.
  cbn zeta. unfold astream.
  cbn [run_from graph_step].
  pose proof (run_from_counted b o (S fuel) 1 investigation_swarm w
                (merge s0 (_prepare_initial_state s0)) 0
                ltac:(discriminate) eq_refl ltac:(lia) ltac:(lia)) as Hc.
  cbn [run_from graph_step] in Hc.
  destruct (run_from b o fuel 2 reflector w _) as [rest w'].
  cbn [fst] in *.
  split; [|split; [|split; [|split]]].
  - eexists _, _, rest. split; [reflexivity|]. split; reflexivity.
  - intros i e e' Hi Hi'. destruct i as [|i].
    + cbn in Hi. injection Hi as <-. cbn in Hi'. injection Hi' as <-.
      exists 0. split; reflexivity.
    + cbn in Hi, Hi'. eapply counted_step; eauto.
  - constructor; [exists 0; split; [reflexivity|lia]|].
    eapply counted_bounds; eauto.
  - pose proof (counted_visits 0 _ Hc ltac:(lia)) as Hv.
    unfold swarm_visits in *. cbn [List.filter is_swarm fst Node_eqb length] in *. lia.
  - intros k state. apply reflector_routing.
Qed.

(** With an oracle that asks for a deeper investigation every time, the
    swarm is visited exactly three times and the fourth request is sent
    to the planner. *)
Example eager_oracle_visits_swarm_three_times :
  map fst (fst (astream Samples.sample_build Samples.eager_oracles 20
                  Samples.unreachable_world AgentState.empty))
  = [prepare; investigation_swarm; reflector; investigation_swarm; reflector;
     investigation_swarm; reflector; planner; policy_gate; aggregate].
Proof. vm_compute. reflexivity. Qed.

(** *** Detection of unavailable tools by the reflector *)

Lemma prefix_app_l (sub a b : string) :
  String.prefix sub a = true -> String.prefix sub (a +:+ b) = true.
Proof.
  revert a. induction sub as [|c sub IH]; intros a H;
    [destruct (a +:+ b); reflexivity|].
  destruct a as [|c' a]; [discriminate|].
  change (String c' a +:+ b) with (String c' (a +:+ b)). cbn [String.prefix] in *.
  destruct (ascii_dec c c'); [auto|discriminate].
Qed.

Lemma str_in_app_l (sub a b : string) :
  Py.str_in sub a = true -> Py.str_in sub (a +:+ b) = true.
Proof.
  induction a as [|c a IH]; cbn [Py.str_in]; intros H.
  - destruct sub; [|discriminate]. destruct b; reflexivity.
  - destruct (String.prefix sub (String c a)) eqn:Hp.
    + change (String c a +:+ b) with (String c (a +:+ b)) in *.
      cbn [Py.str_in]. change (String c (a +:+ b)) with (String c a +:+ b).
      now rewrite (prefix_app_l _ _ b Hp).
    + change (String c a +:+ b) with (String c (a +:+ b)).
      cbn [Py.str_in]. destruct (String.prefix sub (String c (a +:+ b))); auto.
Qed.

Lemma str_in_app_r (sub a b : string) :
  Py.str_in sub b = true -> Py.str_in sub (a +:+ b) = true.
Proof.
  intros H. induction a as [|c a IH]; [exact H|].
  change (String c a +:+ b) with (String c (a +:+ b)).
  cbn [Py.str_in]. destruct (String.prefix sub (String c (a +:+ b))); auto.
Qed.

(** The status text carries the notice exactly when a failure was
    detected. *)
Lemma tool_status_notice (tool_failures : list string) :
  Py.str_in NOTICE (tool_status_of tool_failures) = nonempty tool_failures.
Proof. destruct tool_failures; reflexivity. Qed.

(** A failure is detected exactly when one of the three buckets contains
    the marker [TOOL UNAVAILABLE]. *)
Lemma detect_tool_failures_nonempty (agent_results : gmap string string) :
  nonempty (detect_tool_failures agent_results)
  = let '(infra, logs, code) := reflector_buckets agent_results in
    reports_unavailable logs || reports_unavailable infra || reports_unavailable code.
Proof.
  unfold detect_tool_failures. destruct (reflector_buckets agent_results) as [[i l] c].
  destruct (reports_unavailable l), (reports_unavailable i), (reports_unavailable c);
    reflexivity.
Qed.

(** When a bucket does contain the marker, the prompt carries the
    notice. *)
Lemma prompt_has_notice_when_detected (o : Oracles) (state : AgentState.t) :
  detect_tool_failures (default ∅ (agent_results state)) <> [] ->
  Py.str_in NOTICE (reflection_prompt o state) = true.
Proof.
  intros H. unfold reflection_prompt.
  destruct (reflector_buckets (default ∅ (agent_results state))) as [[i l] c].
  unfold reflection_prompt_of.
  do 8 apply str_in_app_r. apply str_in_app_l.
  rewrite tool_status_notice.
  destruct (detect_tool_failures (default ∅ (agent_results state)));
    [contradiction|reflexivity].
Qed.

(** C4, evaluated on the code: with the structured tool error of the logs
    tool in the logs agent's slot (be it the error of the
    retries-exhausted clause or the one the wrapper really returns), the
    reflector detects no failure, keeps the error text as the logs
    findings, and sends a prompt without the tool unavailability
    notice. *)
Theorem C4_tool_error_not_detected (o : Oracles) :
  let check e :=
    let state := Samples.degraded_state e in
    detect_tool_failures (Samples.degraded_results e) = []
    /\ Py.str_in NOTICE (reflection_prompt o state) = false
    /\ Py.str_in ("Logs Findings:" +:+ Py.nl +:+ "    " +:+ ToolWrapper.to_agent_response e)
         (reflection_prompt o state) = true in
  check Samples.logs_tool_error /\ check Samples.logs_tool_error_as_raised.
Proof. vm_compute. repeat split. Qed.

End GraphFacts.

(** ** Break-glass check of the executor *)

Module ExecutorFacts.
Import PolicyEngine AgentState Graph Notions.


Lemma execute_one_accounts (o : Oracles) (k : nat) (state : AgentState.t)
    (cid : option string) (tools : list string) (w : World)
    (ex fa : list (RemediationAction * string)) (x : nat * RemediationAction) :
  let '(_, ex', fa') := execute_one o k state cid tools (w, ex, fa) x in
  (length ex' + length fa' = S (length ex + length fa))%nat.
Proof.
  unfold execute_one. destruct x as [i action].
  destruct (find _ tools) as [tool|].
  - destruct (tool_call o k i tool _); rewrite length_app; cbn; lia.
  - rewrite length_app. cbn. lia.
Qed.

Lemma execute_all_accounts (o : Oracles) (k : nat) (state : AgentState.t)
    (cid : option string) (tools : list string)
    (xs : list (nat * RemediationAction)) :
  forall (w : World) (ex fa : list (RemediationAction * string)),
    let '(_, ex', fa') := fold_left (execute_one o k state cid tools) xs (w, ex, fa) in
    (length ex' + length fa' = length xs + (length ex + length fa))%nat.
Proof.
  induction xs as [|x xs IH]; intros w ex fa; [reflexivity|].
  cbn [fold_left].
  pose proof (execute_one_accounts o k state cid tools w ex fa x) as H1.
  destruct (execute_one o k state cid tools (w, ex, fa) x) as [[w1 ex1] fa1].
  specialize (IH w1 ex1 fa1).
  destruct (fold_left _ xs (w1, ex1, fa1)) as [[w2 ex2] fa2].
  cbn [length]. lia.
Qed.

Lemma enumerate1_length {A} (xs : list A) : length (enumerate1 xs) = length xs.
Proof. unfold enumerate1. rewrite length_combine, length_seq. lia. Qed.







End ExecutorFacts.

(** ** Job dispatcher *)

Module DispatcherFacts.
Import Backend Api Notions.

Lemma is_pending_for_iff (cid : UUID) (j : Job) :
  is_pending_for cid j = true <-> job_cluster_id j = cid /\ status j = PENDING.
Proof.
  unfold is_pending_for. rewrite andb_true_iff.
  destruct (String.eqb_spec (job_cluster_id j) cid); destruct (status j); cbn;
    intuition congruence.
Qed.

Lemma oldest_None (js : list Job) : oldest js = None <-> js = [].
Proof.
  destruct js as [|j rest]; [split; reflexivity|]. cbn.
  destruct (oldest rest) as [j'|]; [destruct (_ <=? _)|]; split; discriminate.
Qed.

Lemma oldest_Some (js : list Job) (j : Job) :
  oldest js = Some j ->
  In j js /\ forall j', In j' js -> created_at j <= created_at j'.
Proof.
  revert j. induction js as [|x rest IH]; intros j H; [discriminate|].
  cbn [oldest] in H. destruct (oldest rest) as [m|] eqn:Hm.
  - destruct (IH m eq_refl) as [Hin Hle].
    destruct (created_at x <=? created_at m) eqn:Hc; injection H as <-.
    + apply Z.leb_le in Hc. split; [now left|].
      intros j' [<-|Hj]; [lia|]. specialize (Hle j' Hj). lia.
    + apply Z.leb_gt in Hc. split; [now right|].
      intros j' [<-|Hj]; [lia|]. now apply Hle.
  - injection H as <-. apply oldest_None in Hm. subst rest.
    split; [now left|]. intros j' [<-|[]]. lia.
Qed.

(** C9: for a valid cluster token the claim returns a pending job of that
    cluster with the least creation time, or none exactly when the cluster
    has no pending job, and the tables after the call are the tables
    before it: no job is moved to running. *)
Theorem C9_claim_pending_reads_oldest (db : DB) (authorization : string)
    (cluster : Cluster) :
  cluster_of_authorization db authorization = Ok cluster ->
  exists r,
    get_pending_job db authorization = (db, Ok r)
    /\ (r = None <->
        forall j, In j (jobs db) -> job_cluster_id j = cluster_id cluster ->
                  status j <> PENDING)
    /\ (forall j, r = Some j ->
          In j (jobs db) /\ job_cluster_id j = cluster_id cluster /\ status j = PENDING
          /\ forall j', In j' (jobs db) -> job_cluster_id j' = cluster_id cluster ->
                        status j' = PENDING -> created_at j <= created_at j').
Proof.
  intros Hauth. unfold get_pending_job, get_pending_job_for_cluster. rewrite Hauth.
  eexists. split; [reflexivity|]. split.
  - rewrite oldest_None. split.
    + intros He j Hj Hc Hs.
      assert (Hin : In j (List.filter (is_pending_for (cluster_id cluster)) (jobs db))).
      { apply filter_In. split; [assumption|]. apply is_pending_for_iff. auto. }
      rewrite He in Hin. destruct Hin.
    + intros H. destruct (List.filter _ _) as [|j rest] eqn:Hf; [reflexivity|].
      assert (Hin : In j (List.filter (is_pending_for (cluster_id cluster)) (jobs db)))
        by (rewrite Hf; now left).
      apply filter_In in Hin. destruct Hin as [Hj Hp].
      apply is_pending_for_iff in Hp. destruct Hp as [Hc Hs].
      exfalso. exact (H j Hj Hc Hs).
  - intros j Hr. apply oldest_Some in Hr. destruct Hr as [Hin Hle].
    apply filter_In in Hin. destruct Hin as [Hj Hp].
    apply is_pending_for_iff in Hp. destruct Hp as [Hc Hs].
    repeat split; auto.
    intros j' Hj' Hc' Hs'. apply Hle. apply filter_In. split; [assumption|].
    apply is_pending_for_iff. auto.
Qed.

(** The theorem at work: of the two pending jobs of cluster [c1] the one
    created at time 5 is returned, and it is still pending afterwards. *)
Lemma C9_claim_pending_reads_oldest_witness :
  cluster_of_authorization Samples.two_org_db "Bearer cl_tok_a" = Ok Samples.cluster_c1
  /\ exists r,
      get_pending_job Samples.two_org_db "Bearer cl_tok_a" = (Samples.two_org_db, Ok r)
      /\ (r = None <->
          forall j, In j (jobs Samples.two_org_db) ->
                    job_cluster_id j = cluster_id Samples.cluster_c1 ->
                    status j <> PENDING)
      /\ (forall j, r = Some j ->
            In j (jobs Samples.two_org_db)
            /\ job_cluster_id j = cluster_id Samples.cluster_c1 /\ status j = PENDING
            /\ forall j', In j' (jobs Samples.two_org_db) ->
                          job_cluster_id j' = cluster_id Samples.cluster_c1 ->
                          status j' = PENDING -> created_at j <= created_at j').
Proof.
  split; [reflexivity|].
  apply (C9_claim_pending_reads_oldest Samples.two_org_db "Bearer cl_tok_a"
           Samples.cluster_c1).
  reflexivity.
Defined.

Example claim_returns_job_2 :
  get_pending_job Samples.two_org_db "Bearer cl_tok_a"
  = (Samples.two_org_db, Ok (Some (Samples.job "job-2" PENDING 5 None None))).
Proof. reflexivity. Qed.

(** *** Status updates *)

Lemma find_replace_job (j' : Job) (js : list Job) (job : Job) :
  find (fun j => String.eqb (job_id j) (job_id j')) js = Some job ->
  find (fun j => String.eqb (job_id j) (job_id j')) (replace_job j' js) = Some j'.
Proof.
  induction js as [|x rest IH]; [discriminate|]. cbn [find replace_job].
  destruct (String.eqb (job_id x) (job_id j')) eqn:E; intros H.
  - cbn [find]. now rewrite String.eqb_refl.
  - cbn [find]. rewrite E. auto.
Qed.

Lemma get_job_by_id_id (db : DB) (id : UUID) (job : Job) :
  get_job_by_id db id = Some job -> job_id job = id.
Proof.
  unfold get_job_by_id. intros H. apply find_some in H. destruct H as [_ H].
  now apply String.eqb_eq.
Qed.

(** What an authorised status update does: the row of the job is
    rewritten with the status of the request. *)
Lemma update_job_status_authorised (now : Z) (db : DB) (authorization : string)
    (id : UUID) (status_update : JobStatusUpdate) (cluster : Cluster) (job : Job) :
  cluster_of_authorization db authorization = Ok cluster ->
  get_job_by_id db id = Some job ->
  job_cluster_id job = cluster_id cluster ->
  let job' := apply_status_update now job status_update in
  Api.update_job_status now db authorization id status_update
  = (with_jobs (replace_job job' (jobs db)) db, Ok (Some job'))
  /\ get_job_by_id (with_jobs (replace_job job' (jobs db)) db) id = Some job'.
Proof.
  intros Hauth Hjob Hown. cbn zeta. unfold Api.update_job_status.
  rewrite Hauth, Hjob, Hown, String.eqb_refl.
  unfold Backend.update_job_status. rewrite Hjob. split; [reflexivity|].
  pose proof (get_job_by_id_id _ _ _ Hjob) as Hid.
  unfold get_job_by_id in *. cbn [jobs with_jobs].
  rewrite <- Hid in *.
  change (job_id job) with (job_id (apply_status_update now job status_update)) in *.
  eapply find_replace_job. exact Hjob.
Qed.

(** C7 as stated fails on the code: job [job-3] of cluster [c1] is
    completed; a status update from its own worker that says [running] is
    accepted and the job is running again. *)
Lemma C7_terminal_status_overwritten :
  let request := {| new_status := RUNNING; new_result := None; new_logs := None |} in
  let db' := fst (Api.update_job_status 100 Samples.two_org_db "Bearer cl_tok_a"
                    "job-3" request) in
  option_map status (get_job_by_id Samples.two_org_db "job-3") = Some COMPLETED
  /\ terminal COMPLETED = true
  /\ option_map status (get_job_by_id db' "job-3") = Some RUNNING.
Proof. repeat split. Qed.

(** C7, amended: an authorised UpdateStatus call sets the job's status to
    the status carried by the request, whatever the status was; so a
    terminal job keeps its status under a call exactly when the call
    repeats that status. *)
Theorem C7_update_sets_requested_status (now : Z) (db : DB) (authorization : string)
    (id : UUID) (status_update : JobStatusUpdate) (cluster : Cluster) (job : Job) :
  cluster_of_authorization db authorization = Ok cluster ->
  get_job_by_id db id = Some job ->
  job_cluster_id job = cluster_id cluster ->
  exists db' job',
    Api.update_job_status now db authorization id status_update = (db', Ok (Some job'))
    /\ get_job_by_id db' id = Some job'
    /\ status job' = new_status status_update
    /\ (status job' = status job <-> new_status status_update = status job).
Proof.
  intros Hauth Hjob Hown.
  destruct (update_job_status_authorised now db authorization id status_update
              cluster job Hauth Hjob Hown) as [Hu Hg].
  eexists _, _. split; [exact Hu|]. split; [exact Hg|]. split; reflexivity.
Qed.

(** The theorem at work on the completed job [job-3]. *)
Lemma C7_update_sets_requested_status_witness :
  exists db' job',
    Api.update_job_status 100 Samples.two_org_db "Bearer cl_tok_a" "job-3"
      {| new_status := FAILED; new_result := None; new_logs := None |}
    = (db', Ok (Some job'))
    /\ get_job_by_id db' "job-3" = Some job'
    /\ status job' = FAILED
    /\ (status job' = COMPLETED <-> FAILED = COMPLETED).
Proof.
  apply (C7_update_sets_requested_status 100 Samples.two_org_db "Bearer cl_tok_a"
           "job-3" {| new_status := FAILED; new_result := None; new_logs := None |}
           Samples.cluster_c1 (Samples.job "job-3" COMPLETED 1 (Some 2) (Some 3)));
    reflexivity.
Defined.

(** The log-only append repeats the job's status and so leaves it as it
    is. *)
Lemma append_job_logs_keeps_status (now : Z) (db : DB) (authorization : string)
    (id : UUID) (text : string) (cluster : Cluster) (job : Job) :
  cluster_of_authorization db authorization = Ok cluster ->
  get_job_by_id db id = Some job ->
  job_cluster_id job = cluster_id cluster ->
  option_map status (get_job_by_id (fst (append_job_logs now db authorization id text)) id)
  = Some (status job).
Proof.
  intros Hauth Hjob Hown. unfold append_job_logs.
  rewrite Hauth, Hjob, Hown, String.eqb_refl.
  unfold Backend.update_job_status. rewrite Hjob. cbn [fst].
  pose proof (get_job_by_id_id _ _ _ Hjob) as Hid.
  unfold get_job_by_id in *. cbn [jobs with_jobs]. rewrite <- Hid in *.
  set (job' := apply_status_update now job _).
  change (job_id job) with (job_id job') in *.
  erewrite find_replace_job by exact Hjob. reflexivity.
Qed.

(** A status update presented with another cluster's token is refused and
    changes nothing. *)
Lemma update_job_status_foreign_cluster (now : Z) (db : DB) (authorization : string)
    (id : UUID) (status_update : JobStatusUpdate) (cluster : Cluster) (job : Job) :
  cluster_of_authorization db authorization = Ok cluster ->
  get_job_by_id db id = Some job ->
  job_cluster_id job <> cluster_id cluster ->
  Api.update_job_status now db authorization id status_update
  = (db, HTTPException 404 "Job not found").
Proof.
  intros Hauth Hjob Hown. unfold Api.update_job_status. rewrite Hauth, Hjob.
  destruct (String.eqb_spec (job_cluster_id job) (cluster_id cluster)); [contradiction|].
  reflexivity.
Qed.

End DispatcherFacts.

(** ** Cluster-scoped requests *)

Module ClusterApiFacts.
Import Backend Api.

(** The health endpoint checks the owner: a user of another organization
    gets 404. *)
Lemma get_cluster_health_checks_owner (decode : string -> option string) (db : DB)
    (tok : string) (cid : UUID) (user : User) (cluster : Cluster) :
  get_current_user_and_org decode db tok = Ok user ->
  get_cluster_by_id db cid = Some cluster ->
  org_id cluster <> user_org_id user ->
  get_cluster_health decode db tok cid = HTTPException 404 "Cluster not found".
Proof.
  intros Hu Hc Hne. unfold get_cluster_health. rewrite Hu, Hc.
  destruct (String.eqb_spec (org_id cluster) (user_org_id user)); [contradiction|].
  reflexivity.
Qed.

(** The lock endpoint does not look at the owner: for any authenticated
    user and any cluster id, with the store reachable, the lock is written,
    an audit event is added and the answer is the requested value. *)
Lemma set_cluster_lock_any_user (decode : string -> option string) (now : Z) (db : DB)
    (storage : StateStore.t) (tok : string) (cid : UUID) (locked : bool) (user : User) :
  get_current_user_and_org decode db tok = Ok user ->
  StateStore.is_available storage = true ->
  (forall command, StateStore.commands_ok storage command = true) ->
  exists db' storage',
    set_cluster_lock decode now db storage tok cid (Some locked)
    = (db', storage', Ok locked)
    /\ StateStore.is_cluster_locked storage' cid = locked
    /\ length (audit_events db') = S (length (audit_events db)).
Proof.
  intros Hu Ha Hc. unfold set_cluster_lock, StateStore.set_cluster_lock.
  rewrite Hu, Ha, !Hc. cbn [negb default].
  destruct locked; cbn [negb]; eexists _, _; (split; [reflexivity|]); split.
  - unfold StateStore.is_cluster_locked, StateStore.redis_exists.
    unfold StateStore.is_available in *. cbn. rewrite Ha, Hc. cbn.
    now rewrite lookup_insert_eq.
  - cbn. rewrite length_app. cbn. lia.
  - unfold StateStore.is_cluster_locked, StateStore.redis_exists.
    unfold StateStore.is_available in *. cbn. rewrite Ha, Hc. cbn.
    now rewrite lookup_delete_eq.
  - cbn. rewrite length_app. cbn. lia.
Qed.

(** C6, evaluated on the code: Mallory, a user of [org-b], addresses
    cluster [c1] of [org-a].  The health endpoint answers 404, but the
    lock endpoints and the audit endpoint answer as for an owner: the lock
    of [c1] is set and an audit event is written in Mallory's name, the
    lock state is disclosed, and the audit trail of [c1] is returned. *)
Theorem C6_lock_and_audit_skip_ownership_check :
  let db := Samples.two_org_db in
  let store := Samples.reachable_store in
  let '(db', store', response) :=
    set_cluster_lock Samples.decode_sample 100 db store "tok-mallory" "c1" (Some true) in
  get_cluster_health Samples.decode_sample db "tok-mallory" "c1"
  = HTTPException 404 "Cluster not found"
  /\ response = Ok true
  /\ StateStore.is_cluster_locked store "c1" = false
  /\ StateStore.is_cluster_locked store' "c1" = true
  /\ map actor_id (audit_events db') = ["mallory@b.example"]
  /\ get_cluster_lock Samples.decode_sample db' store' "tok-mallory" "c1" = Ok true
  /\ get_cluster_audit_logs Samples.decode_sample db' "tok-mallory" "c1" 50
     = Ok (audit_events db').
Proof. vm_compute. repeat split. Qed.

End ClusterApiFacts.

(** ** Approval *)

Module ApprovalFacts.
Import AgentState Graph Api Runtime Notions.

(** The module of the mission-control router does not bind [asyncio]. *)
Lemma asyncio_not_bound :
  load_global mission_control_globals "asyncio" = inr "name 'asyncio' is not defined".
Proof. reflexivity. Qed.

(** C5, evaluated on the code: whatever resuming the graph would do, the
    approve operation of the mission-control surface answers 500 for every
    session once the agent system is initialised, and leaves the world as
    it was; for the paused session of incident [inc-1] the snapshot is
    still in the store afterwards, its approval status is still PENDING
    and no tool has been invoked. *)
Theorem C5_approve_incident_action_changes_nothing
    (ainvoke_resume : Build -> string -> World -> World) (graph : Build) :
  (forall (w : World) (incident_id : string),
      approve_incident_action ainvoke_resume (Some graph) w incident_id
      = (w, HTTPException 500 "name 'asyncio' is not defined"))
  /\ (let w' := fst (approve_incident_action ainvoke_resume (Some graph)
                       Samples.paused_world "inc-1") in
      StateStore.get (storage w') "inc-1" = Some Samples.paused_snapshot
      /\ (StateStore.state Samples.paused_snapshot ≫= Json.approval_status)
         = Some "PENDING"
      /\ invoked w' = []).
Proof.
  split; [intros w incident_id; reflexivity|].
  cbn zeta. repeat split.
Qed.

(** Once [DEL] is served for a session key, the next read of the key
    comes back empty. *)
Lemma get_after_delete (st : StateStore.t) (key : string) :
  StateStore.commands_ok st StateStore.DEL = true ->
  StateStore.get (fst (StateStore.delete st key)) key = None.
Proof.
  intros Hd. unfold StateStore.delete. rewrite Hd.
  destruct (negb (StateStore.is_available st)) eqn:Ha.
  { cbn [fst]. unfold StateStore.get. now rewrite Ha. }
  destruct (StateStore.keyspace st !! StateStore.approval_key key) as [e|] eqn:Hk;
    cbn [fst]; unfold StateStore.get.
  - change (StateStore.is_available (StateStore.with_keyspace _ st))
      with (StateStore.is_available st).
    rewrite Ha. cbn [StateStore.commands_ok StateStore.with_keyspace StateStore.keyspace].
    rewrite lookup_delete_eq. now destruct (StateStore.commands_ok st StateStore.GET).
  - rewrite Ha, Hk. now destruct (StateStore.commands_ok st StateStore.GET).
Qed.

(** When [DEL] is not served, [delete] leaves the store as it is. *)
Lemma delete_not_served (st : StateStore.t) (key : string) :
  StateStore.commands_ok st StateStore.DEL = false ->
  StateStore.delete st key = (st, false).
Proof.
  intros Hd. unfold StateStore.delete. rewrite Hd.
  now destruct (negb (StateStore.is_available st)).
Qed.

(** A snapshot that holds a state is a dictionary with a key. *)
Lemma state_has_keys (snapshot : StateStore.Snapshot) (stored : Json.State) :
  StateStore.state snapshot = Some stored -> StateStore.has_keys snapshot = true.
Proof.
  unfold StateStore.state, StateStore.has_keys.
  destruct (StateStore.stored_state snapshot) as [s|]; [|discriminate]. intros _.
  rewrite (bool_decide_eq_true_2 (is_Some (Some s))) by eauto.
  now rewrite !orb_true_r.
Qed.

Lemma rehydrate_approval (c : Json.Codec) (global_tools : list string)
    (stored : Json.State) :
  approval_status (usable (rehydrate c global_tools stored)) = Some "APPROVED"
  /\ next (usable (rehydrate c global_tools stored)) = Some "executor".
Proof.
  unfold rehydrate.
  destruct (Json.messages stored) as [[|m ms]|];
    destruct (Json.metadata stored ≫= Json.tools); split; reflexivity.
Qed.

(** The events of a resumed run begin with PREPARE, which sets the
    counter of investigation rounds to 0 and hands over to the swarm,
    whatever the state that was stored. *)
Lemma astream_resumed_starts_over (b : Build) (o : Oracles) (fuel : nat) (w : World)
    (r : Resumed) :
  exists st rest,
    fst (fst (astream_resumed b o (S fuel) w r)) = (prepare, st) :: rest
    /\ next st = Some "investigation_swarm"
    /\ investigation_count st = Some 0.
Proof.
  unfold astream_resumed.
  destruct (Py.truthy_str _).
  - destruct fuel; cbn [run_from graph_step fst]; eexists _, _; repeat split.
  - unfold astream. cbn [run_from graph_step].
    destruct (run_from b o fuel 1 investigation_swarm _ _) as [rest w'].
    cbn [fst]. eexists _, rest. repeat split.
Qed.

(** The approve operation of the runtime, [approve_remediation], does
    fetch the snapshot, record the approval and issue the delete of the
    snapshot; the run it starts enters the graph at [prepare], which
    sets the counter of rounds to 0 and routes to the swarm. *)
Lemma approve_remediation_on_paused_session (c : Json.Codec) (b : Build)
    (global_tools : list string) (o : Oracles) (fuel : nat) (w : World)
    (session_id : string) (snapshot : StateStore.Snapshot) (stored : Json.State) :
  StateStore.get (storage w) session_id = Some snapshot ->
  StateStore.state snapshot = Some stored ->
  let handed_over := rehydrate c global_tools stored in
  let w0 := with_storage (fst (StateStore.delete (storage w) session_id)) w in
  let resumed := astream_resumed b o (S fuel) w0 handed_over in
  approval_status (usable handed_over) = Some "APPROVED"
  /\ next (usable handed_over) = Some "executor"
  /\ (StateStore.commands_ok (storage w) StateStore.DEL = true ->
      StateStore.get (storage w0) session_id = None)
  /\ fst (approve_remediation c (Some b) global_tools o (S fuel) w session_id)
     = (snd (fst resumed),
        match snd resumed with
        | Some e => HTTPException 500 ("Failed to resume execution: " +:+ e)
        | None => Ok (final_response_of (fst (fst resumed)))
        end)
  /\ snd (approve_remediation c (Some b) global_tools o (S fuel) w session_id)
     = fst (fst resumed)
  /\ (exists st rest,
        fst (fst resumed) = (prepare, st) :: rest
        /\ next st = Some "investigation_swarm"
        /\ investigation_count st = Some 0).
Proof.
  intros Hget Hstate. cbn zeta.
  destruct (rehydrate_approval c global_tools stored) as [Ha Hn].
  split; [exact Ha|]. split; [exact Hn|].
  split; [intros Hd; now apply get_after_delete|].
  unfold approve_remediation. rewrite Hget, (state_has_keys _ _ Hstate), Hstate.
  cbn [negb].
  split; [|split].
  - destruct (astream_resumed b o (S fuel) _ _) as [[events w'] [e|]]; reflexivity.
  - destruct (astream_resumed b o (S fuel) _ _) as [[events w'] [e|]]; reflexivity.
  - apply astream_resumed_starts_over.
Qed.

(** The keys that come back from the store as the text of an object are
    written anew in a run from the entry point before a node reads them:
    the swarm writes the findings, the reflector that finds them writes
    the analysis, the planner writes the plan, and the executor, which
    the graph enters only with a plan, the results. *)
Lemma text_keys_written_anew (b : Build) (o : Oracles) (k : nat) (w : World)
    (state : AgentState.t) :
  is_Some (u_investigation_findings (investigation_swarm_with_agents b o k state))
  /\ (is_Some (investigation_findings state) ->
      is_Some (u_reflector_analysis (_reflector_node o k state)))
  /\ is_Some (u_remediation_plan (_planner_node o k state))
  /\ (is_Some (remediation_plan state) ->
      is_Some (u_execution_results (snd (_executor_node o k w state)))).
Proof.
  split; [|split; [|split]].
  - unfold investigation_swarm_with_agents, _investigation_swarm.
    destruct (negb _); cbn; eauto.
  - intros Hf. unfold _reflector_node.
    rewrite (bool_decide_eq_true_2 _ Hf). cbn [negb andb].
    destruct (reflect o k _) as [a|msg]; [|cbn; eauto].
    destruct (_ && _ && _); cbn; eauto.
  - unfold _planner_node. destruct (plan o k); cbn; eauto.
  - intros [p Hp]. unfold _executor_node. rewrite Hp.
    destruct (match cluster_id (get_metadata state) with Some _ => _ | None => _ end);
      [cbn; eauto|].
    destruct (negb (bool_decide _)); [cbn; eauto|].
    destruct (negb (nonempty _)); [cbn; eauto|].
    destruct (fold_left _ _ _) as [[w' ex] fa]. cbn. eauto.
Qed.

(** C8, evaluated on the code: an investigation goes on over the pause
    and the approval, and the counter of rounds does not.  The alert
    [HighCPU] of the webhook is investigated in three rounds and paused
    at the policy gate, with the counter at 3 in the state that is
    stored.  The approval does not resume at the executor: the graph is
    run again from its entry point, where PREPARE sets the counter back
    to 0; the swarm then raises on the stored alert context, which came
    back as a text, so that the approval is answered with 500, the
    session is gone from the store and no action of the plan has been
    carried out.  For a session whose stored state has no alert context
    (the incident, as the SaaS runner leaves it after its last node,
    with the counter at 3) the approval runs the whole graph again: the
    counter goes from 3 back to 0 and up to 3 once more, and the swarm
    is visited three more times, six times in all. *)
Theorem C8_investigation_count_restarts_on_approval :
  let approve w session :=
    approve_remediation Samples.sample_codec (Some Samples.sample_build)
      (build_tools Samples.sample_build) Samples.eager_oracles 20 w session in
  let stored_count w session :=
    StateStore.get (storage w) session
      ≫= (fun snapshot => StateStore.state snapshot ≫= Json.investigation_count) in
  ((StateStore.get (storage Samples.alert_world) Samples.alert_session
      ≫= StateStore.status) = Some "WAITING_APPROVAL"
   /\ stored_count Samples.alert_world Samples.alert_session = Some 3
   /\ let '(w, response, events) := approve Samples.alert_world Samples.alert_session in
      counter_trace events = [(prepare, Some 0)]
      /\ response
         = HTTPException 500
             "Failed to resume execution: 'str' object has no attribute 'alert_name'"
      /\ invoked w = []
      /\ StateStore.get (storage w) Samples.alert_session = None)
  /\ (counter_trace (fst Samples.incident_run)
      = [(prepare, Some 0); (investigation_swarm, Some 1); (reflector, Some 1);
        (investigation_swarm, Some 2); (reflector, Some 2);
        (investigation_swarm, Some 3); (reflector, Some 3); (planner, Some 3);
        (policy_gate, Some 3); (aggregate, Some 3)]
     /\ stored_count Samples.incident_world Samples.incident_session = Some 3
     /\ let '(w, response, events) :=
          approve Samples.incident_world Samples.incident_session in
        counter_trace events
        = [(prepare, Some 0); (investigation_swarm, Some 1); (reflector, Some 1);
        (investigation_swarm, Some 2); (reflector, Some 2);
        (investigation_swarm, Some 3); (reflector, Some 3); (planner, Some 3);
        (policy_gate, Some 3); (aggregate, Some 3)]
        /\ (swarm_visits (fst Samples.incident_run) + swarm_visits events = 6)%nat
        /\ invoked w = []).
Proof. vm_compute. repeat split. Qed.

End ApprovalFacts.

(** * Further properties *)

(** ** Policy engine *)

Module TextFacts.

Lemma length_substring_0 (n : nat) :
  forall s, (n <= String.length s)%nat -> String.length (String.substring 0 n s) = n.
Proof.
  induction n as [|n IH]; intros [|c s] H; cbn in *; try lia.
  now rewrite IH by lia.
Qed.

Lemma length_append (a b : string) :
  String.length (a +:+ b) = (String.length a + String.length b)%nat.
Proof.
  induction a as [|c a IH]; [reflexivity|].
  change (String c a +:+ b) with (String c (a +:+ b)).
  cbn [String.length]. now rewrite IH.
Qed.

Lemma prefix_append (a b : string) : String.prefix a (a +:+ b) = true.
Proof.
  induction a as [|c a IH]; [now destruct b|].
  change (String c a +:+ b) with (String c (a +:+ b)). cbn [String.prefix].
  destruct (Ascii.ascii_dec c c); [exact IH|contradiction].
Qed.

Lemma prefix_empty (s : string) : String.prefix "" s = true.
Proof. now destruct s. Qed.

Lemma append_assoc (a b c : string) : (a +:+ b) +:+ c = a +:+ (b +:+ c).
Proof.
  induction a as [|x a IH]; [reflexivity|].
  change (String x a +:+ b) with (String x (a +:+ b)).
  change (String x (a +:+ b) +:+ c) with (String x ((a +:+ b) +:+ c)).
  change (String x a +:+ (b +:+ c)) with (String x (a +:+ (b +:+ c))).
  now rewrite IH.
Qed.

Lemma append_empty_r (a : string) : a +:+ "" = a.
Proof.
  induction a as [|x a IH]; [reflexivity|].
  change (String x a +:+ "") with (String x (a +:+ "")). now rewrite IH.
Qed.

Lemma substring_0_append (a b : string) :
  String.substring 0 (String.length a) (a +:+ b) = a.
Proof.
  induction a as [|x a IH]; [now destruct b|].
  change (String x a +:+ b) with (String x (a +:+ b)). cbn. now rewrite IH.
Qed.

Lemma drop_str_append (a b : string) : Py.drop_str (String.length a) (a +:+ b) = b.
Proof.
  induction a as [|x a IH]; [reflexivity|].
  change (String x a +:+ b) with (String x (a +:+ b)). cbn. exact IH.
Qed.

End TextFacts.

Module PolicyEngineMoreFacts.
Import PolicyEngine MoreNotions.

Ltac case_ifs :=
  repeat match goal with |- context [if ?c then _ else _] => destruct c end.

Lemma evaluate_action_outside_production (action : RemediationAction)
    (environment : string) (risk_score : Q) :
  Py.lower environment <> "production" ->
  fst (evaluate_action action environment risk_score) = true.
Proof.
  intros He. unfold evaluate_action, is_production.
  destruct (String.eqb_spec (Py.lower environment) "production") as [H|_];
    [contradiction|].
  rewrite !andb_false_r. cbn [negb].
  set (a := Py.lower (action_type action)).
  destruct (String.eqb a "scale"), (String.eqb a "rollback"); reflexivity.
Qed.

(** X1: outside production every action is allowed, whatever its type,
    parameters and risk score. *)
Theorem non_production_always_allowed (action : RemediationAction)
    (environment : string) (risk_score : Q) :
  Py.lower environment <> "production" ->
  fst (evaluate_action action environment risk_score) = true.
Proof. apply evaluate_action_outside_production. Qed.

Lemma non_production_always_allowed_witness :
  Py.lower "Staging" <> "production"
  /\ fst (evaluate_action Samples.delete_pod_action "Staging" 9) = true.
Proof.
  split; [discriminate|].
  apply (non_production_always_allowed Samples.delete_pod_action "Staging" 9).
  discriminate.
Defined.

Lemma requested_replicas_eq (action : RemediationAction) :
  match parameters action !! "replicas" with
  | Some v => v
  | None => match parameters action !! "replica_count" with
            | Some v => v
            | None => Py.VNone
            end
  end = requested_replicas action.
Proof.
  unfold requested_replicas.
  destruct (parameters action !! "replicas"), (parameters action !! "replica_count");
    reflexivity.
Qed.

(** X2: an action is refused exactly in production and exactly in four
    cases: a restart with a risk score of 3 or more, a delete, a scale to
    zero replicas, and a rollback without a truthy [explicit_approval]. *)
Theorem evaluate_action_blocked_iff (action : RemediationAction) (environment : string)
    (risk_score : Q) :
  fst (evaluate_action action environment risk_score) = false <->
  Py.lower environment = "production"
  /\ ((Py.lower (action_type action) = "restart" /\ (3 <= risk_score)%Q)
      \/ Py.lower (action_type action) = "delete"
      \/ (Py.lower (action_type action) = "scale"
          /\ Py.eq_zero (requested_replicas action) = true)
      \/ (Py.lower (action_type action) = "rollback"
          /\ explicitly_approved action = false)).
Proof.
  destruct (String.eqb_spec (Py.lower environment) "production") as [He|He].
  2: { rewrite evaluate_action_outside_production by assumption.
       split; [discriminate|]. intros [H _]. contradiction. }
  unfold evaluate_action, is_production, explicitly_approved.
  rewrite requested_replicas_eq. rewrite He. cbn [String.eqb andb negb].
  set (a := Py.lower (action_type action)).
  change (("production" =? "production")%string) with true.
  rewrite !andb_true_r.
  destruct (String.eqb_spec a "restart") as [Hr|Hr].
  { rewrite Hr. destruct (Qle_bool 3 risk_score) eqn:Hq; cbn [fst].
    - apply Qle_bool_iff in Hq. split; [|reflexivity]. intros _.
      split; [reflexivity|]. left. auto.
    - split; [discriminate|]. intros (_ & [[_ Hle]|[H|[[H _]|[H _]]]]);
        try discriminate.
      apply Qle_bool_iff in Hle. congruence. }
  destruct (String.eqb_spec a "delete") as [Hd|Hd].
  { rewrite Hd. cbn. split; [|reflexivity]. intros _. split; [reflexivity|]. auto. }
  assert (Hrule2 : Py.str_in_list a ["delete"; "patch"] && Py.str_in "delete" a = false).
  { destruct (Py.str_in_list a ["delete"; "patch"]) eqn:Hl; [|reflexivity].
    destruct (Py.str_in "delete" a) eqn:Hs; [|reflexivity].
    exfalso. apply Hd. now apply PolicyEngineFacts.str_in_list_delete_patch. }
  rewrite Hrule2.
  destruct (String.eqb_spec a "scale") as [Hs|Hs].
  { rewrite Hs. change (("scale" =? "rollback")%string) with false.
    destruct (Py.eq_zero (requested_replicas action)) eqn:Hz; cbn [fst].
    - split; [|reflexivity]. intros _. split; [reflexivity|]. right; right; left. auto.
    - split; [discriminate|].
      intros (_ & [[H _]|[H|[[_ H]|[H _]]]]); discriminate. }
  destruct (String.eqb_spec a "rollback") as [Hb|Hb].
  { destruct (Py.truthy _) eqn:Ht; cbn [negb fst].
    - split; [discriminate|].
      intros (_ & [[H _]|[H|[[H _]|[_ H]]]]); congruence.
    - split; [|reflexivity]. intros _. split; [reflexivity|]. right; right; right. auto. }
  cbn [fst]. split; [discriminate|].
  intros (_ & [[H _]|[H|[[H _]|[H _]]]]); contradiction.
Qed.

Lemma risk_level_map_bounds (level : string) :
  (2 <= risk_level_map level)%Q /\ (risk_level_map level <= 8)%Q.
Proof.
  unfold risk_level_map.
  destruct (String.eqb level "low"); [split; discriminate|].
  destruct (String.eqb level "medium"); [split; discriminate|].
  destruct (String.eqb level "high"); split; discriminate.
Qed.

Lemma dangerous_fold_grows (acts : list RemediationAction) :
  forall acc : Q,
    (acc <= fold_left
              (fun (acc : Q) a =>
                 if Py.str_in_list (Py.lower (action_type a)) dangerous_actions
                 then (acc + (1 # 2))%Q else acc)
              acts acc)%Q.
Proof.
  induction acts as [|a acts IH]; intros acc; cbn [fold_left]; [apply Qle_refl|].
  eapply Qle_trans; [|apply IH].
  destruct (Py.str_in_list _ _); [|apply Qle_refl].
  rewrite <- (Qplus_0_r acc) at 1. apply Qplus_le_r. discriminate.
Qed.

(** X3: the risk score of a plan always lies between 2 and 10; without a
    plan it is 5. *)
Theorem calculate_risk_score_bounds (remediation_plan : option RemediationPlan) :
  (2 <= calculate_risk_score remediation_plan)%Q
  /\ (calculate_risk_score remediation_plan <= 10)%Q
  /\ (remediation_plan = None -> calculate_risk_score remediation_plan = 5%Q).
Proof.
  destruct remediation_plan as [p|]; [|repeat split; discriminate].
  unfold calculate_risk_score. split; [|split; [apply Q.le_min_r|discriminate]].
  apply Q.min_glb; [|discriminate].
  eapply Qle_trans; [|apply dangerous_fold_grows].
  destruct (risk_level_map_bounds (risk_level p)) as [Hlo _].
  assert (H1 : forall x : Q, (2 <= x)%Q -> (2 <= x + 1)%Q).
  { intros x Hx. rewrite <- (Qplus_0_r 2). apply Qplus_le_compat; [assumption|discriminate]. }
  destruct (Nat.ltb 3 _), (Nat.ltb 5 _); auto.
Qed.

(** A plan of dangerous actions only reaches the cap. *)
Example risk_score_is_capped :
  calculate_risk_score
    (Some {| plan_id := "p"; hypothesis := "h";
             actions := repeat {| action_type := "Delete"; target := "x";
                                  parameters := ∅; safety_check := "" |} 6;
             estimated_duration := ""; risk_level := "high"; requires_approval := true;
             verification_metrics := [] |})
  = 10%Q.
Proof. reflexivity. Qed.

Lemma lower_ascii_idempotent (c : ascii) :
  Py.lower_ascii (Py.lower_ascii c) = Py.lower_ascii c.
Proof. destruct c as [[] [] [] [] [] [] [] []]; reflexivity. Qed.

Lemma lower_idempotent (s : string) : Py.lower (Py.lower s) = Py.lower s.
Proof.
  induction s as [|c s IH]; [reflexivity|]. cbn [Py.lower].
  now rewrite lower_ascii_idempotent, IH.
Qed.

Lemma lower_nonempty (s : string) : s <> "" -> Py.lower s <> "".
Proof. destruct s; [contradiction|discriminate]. Qed.

(** X4: the environment derived from an alert is never empty and is in
    lower case; the label [environment] wins when it is set; with no alert
    or with none of the labels [environment], [env], [namespace] set, the
    environment is production. *)
Theorem get_environment_from_context_total (alert_context : option AlertContext) :
  let e := get_environment_from_context alert_context in
  e <> "" /\ Py.lower e = e
  /\ (alert_context = None -> e = "production")
  /\ (forall ctx v, alert_context = Some ctx -> labels ctx !! "environment" = Some v ->
                    v <> "" -> e = Py.lower v)
  /\ (forall ctx, alert_context = Some ctx ->
        Py.or_str (labels ctx !! "environment") None = None ->
        Py.or_str (labels ctx !! "env") None = None ->
        Py.or_str (labels ctx !! "namespace") None = None ->
        e = "production").
Proof.
  cbn zeta. destruct alert_context as [ctx|]; cbn [get_environment_from_context].
  2: { repeat split; try discriminate. }
  set (l := labels ctx).
  split; [|split; [|split; [discriminate|split]]].
  - apply lower_nonempty.
    destruct (l !! "environment") as [[|c x]|]; cbn; try discriminate;
      destruct (l !! "env") as [[|c' y]|]; cbn; try discriminate;
      destruct (l !! "namespace") as [[|c'' z]|]; cbn; discriminate.
  - apply lower_idempotent.
  - intros ctx' v H Hl Hv. injection H as <-. fold l in Hl. rewrite Hl.
    destruct v; [contradiction|]. reflexivity.
  - intros ctx' H H1 H2 H3. injection H as <-. fold l in H1, H2, H3.
    destruct (l !! "environment") as [[|c x]|]; try discriminate;
      destruct (l !! "env") as [[|c' y]|]; try discriminate;
      destruct (l !! "namespace") as [[|c'' z]|]; try discriminate; reflexivity.
Qed.

End PolicyEngineMoreFacts.

(** ** Planner and policy gate *)

Module GateMoreFacts.
Import PolicyEngine AgentState Graph MoreNotions.

Lemma blocked_by_policy_nil (environment : string) (risk_score : Q)
    (acts : list RemediationAction) :
  blocked_by_policy environment risk_score acts = [] <->
  Forall (fun a => fst (evaluate_action a environment risk_score) = true) acts.
Proof.
  induction acts as [|a acts IH]; [split; [constructor|reflexivity]|].
  unfold blocked_by_policy in *. cbn [flat_map].
  destruct (evaluate_action a environment risk_score) as [[|] reason] eqn:E.
  - cbn [app]. rewrite IH. split.
    + intros H. constructor; [now rewrite E|assumption].
    + intros H. now inversion H.
  - cbn [app]. split; [discriminate|]. intros H. inversion H as [|? ? Ha _].
    rewrite E in Ha. discriminate.
Qed.

(** X5: the gate sends a plan to the executor exactly when the policy
    engine allows every action of the plan and the plan either needs no
    approval or is already approved; it then marks the plan APPROVED.  In
    every other case it routes to AGGREGATE with the approval PENDING. *)
Theorem policy_gate_verdict (state : AgentState.t) (p : RemediationPlan) :
  remediation_plan state = Some p ->
  let u := _policy_gate_node state in
  (u_next u = Some "executor" <->
   all_allowed state p
   /\ (requires_approval p = false \/ approval_status state = Some "APPROVED"))
  /\ (u_next u = Some "executor" -> u_approval_status u = Some "APPROVED")
  /\ (u_next u <> Some "executor" ->
      u_next u = Some "aggregate" /\ u_approval_status u = Some "PENDING").
Proof.
  intros Hp. cbn zeta. unfold _policy_gate_node, all_allowed. rewrite Hp.
  set (env := get_environment_from_context (alert_context state)).
  set (risk := calculate_risk_score (Some p)).
  pose proof (blocked_by_policy_nil env risk (actions p)) as Hnil.
  destruct (blocked_by_policy env risk (actions p)) as [|x xs] eqn:Hb; cbn [nonempty].
  - assert (Hall : Forall (fun a => fst (evaluate_action a env risk) = true) (actions p))
      by now apply Hnil.
    destruct (requires_approval p) eqn:Hr; cbn [andb].
    + destruct (approval_status state) as [st|] eqn:Hs.
      * change (default "PENDING" (Some st)) with st.
        destruct (String.eqb_spec st "APPROVED") as [->|Hne]; cbn [negb].
        -- split; [split; [auto|reflexivity]|]. split; [reflexivity|]. intros H. now contradiction H.
        -- split; [split; [discriminate|]|].
           ++ intros (_ & [H|H]); [discriminate|congruence].
           ++ split; [discriminate|]. intros _. split; reflexivity.
      * change (default "PENDING" None) with "PENDING". cbn [String.eqb negb].
        change (("PENDING" =? "APPROVED")%string) with false. cbn [negb].
        split; [split; [discriminate|]|].
        -- intros (_ & [H|H]); discriminate.
        -- split; [discriminate|]. intros _. split; reflexivity.
    + split; [split; [auto|reflexivity]|]. split; [reflexivity|]. intros H. now contradiction H.
  - split; [split; [discriminate|]|].
    + intros (Hall & _). apply Hnil in Hall. discriminate.
    + split; [discriminate|]. intros _. split; reflexivity.
Qed.

Lemma policy_gate_verdict_witness :
  AgentState.remediation_plan Samples.approved_state = Some Samples.restart_plan
  /\ u_next (_policy_gate_node Samples.approved_state) = Some "executor".
Proof.
  split; [reflexivity|].
  apply (proj1 (policy_gate_verdict Samples.approved_state Samples.restart_plan eq_refl)).
  split; [|left; reflexivity].
  repeat constructor.
Defined.

Lemma escalation_allowed (environment : string) (risk_score : Q) :
  blocked_by_policy environment risk_score
    [ {| action_type := "escalate"; target := "manual_review"; parameters := ∅;
         safety_check := "Manual review required due to planning error" |} ] = [].
Proof.
  unfold blocked_by_policy, evaluate_action. cbn [flat_map action_type parameters].
  destruct (is_production (Py.lower environment)); reflexivity.
Qed.

(** X6: when the planning oracle fails, the planner substitutes a plan
    with the single action [escalate] on [manual_review] that requires
    approval, and the policy gate that follows pauses it: the run goes
    from the planner through the gate to AGGREGATE with the approval
    PENDING, and the executor is not entered. *)
Theorem planner_failure_is_paused (b : Build) (o : Oracles) (k : nat) (w : World)
    (state : AgentState.t) (msg : string) :
  plan o k = inr msg ->
  exists s1 s2 p,
    graph_step b o k planner w state = Some (policy_gate, w, s1)
    /\ graph_step b o (S k) policy_gate w s1 = Some (aggregate, w, s2)
    /\ remediation_plan s2 = Some p
    /\ map (fun a => (action_type a, target a)) (actions p)
       = [("escalate", "manual_review")]
    /\ requires_approval p = true /\ risk_level p = "high"
    /\ approval_status s2 = Some "PENDING".
Proof.
  intros Hplan. cbn [graph_step]. unfold _planner_node. rewrite Hplan.
  eexists _, _, _. split; [reflexivity|].
  unfold _policy_gate_node.
  cbn [merge remediation_plan u_remediation_plan set_remediation_plan set_next
       set_ooda_phase set_approval_status set_metadata set_thought_traces no_update pick
       actions].
  rewrite escalation_allowed.
  cbn. repeat split.
Qed.

Lemma planner_failure_is_paused_witness :
  plan Samples.eager_oracles 7 = inr "oracle unavailable"
  /\ exists s1 s2 p,
      graph_step Samples.sample_build Samples.eager_oracles 7 planner
        Samples.unreachable_world AgentState.empty
      = Some (policy_gate, Samples.unreachable_world, s1)
      /\ graph_step Samples.sample_build Samples.eager_oracles 8 policy_gate
           Samples.unreachable_world s1
         = Some (aggregate, Samples.unreachable_world, s2)
      /\ remediation_plan s2 = Some p
      /\ map (fun a => (action_type a, target a)) (actions p)
         = [("escalate", "manual_review")]
      /\ requires_approval p = true /\ risk_level p = "high"
      /\ approval_status s2 = Some "PENDING".
Proof.
  split; [reflexivity|].
  apply (planner_failure_is_paused Samples.sample_build Samples.eager_oracles 7
           Samples.unreachable_world AgentState.empty "oracle unavailable").
  reflexivity.
Defined.

End GateMoreFacts.

(** ** Executor *)

Module ExecutorMoreFacts.
Import PolicyEngine AgentState Graph Notions MoreNotions.

(** X7: unless no lock is seen, the plan is approved and present, and
    tools are at hand, the executor changes nothing outside the state: no
    tool is invoked and no audit event is written. *)
Theorem executor_idle_unless_cleared (o : Oracles) (k : nat) (w : World)
    (state : AgentState.t) :
  cleared w state = false ->
  fst (_executor_node o k w state) = w
  /\ u_next (snd (_executor_node o k w state)) = Some "aggregate".
Proof.
  unfold cleared, _executor_node. fold (lock_seen w state).
  destruct (lock_seen w state); [intros _; split; reflexivity|]. cbn [negb andb].
  destruct (bool_decide (approval_status state = Some "APPROVED"));
    [|intros _; split; reflexivity]. cbn [negb andb].
  destruct (remediation_plan state) as [p|].
  - rewrite bool_decide_eq_true_2 by eauto. cbn [andb].
    intros ->. split; reflexivity.
  - intros _. split; reflexivity.
Qed.

Lemma executor_idle_unless_cleared_witness :
  cleared Samples.paused_world
    (AgentState.merge Samples.approved_state
       (AgentState.set_approval_status "PENDING" AgentState.no_update)) = false
  /\ fst (_executor_node Samples.eager_oracles 0 Samples.paused_world
            (AgentState.merge Samples.approved_state
               (AgentState.set_approval_status "PENDING" AgentState.no_update)))
     = Samples.paused_world
  /\ u_next (snd (_executor_node Samples.eager_oracles 0 Samples.paused_world
                    (AgentState.merge Samples.approved_state
                       (AgentState.set_approval_status "PENDING" AgentState.no_update))))
     = Some "aggregate".
Proof.
  split; [reflexivity|].
  apply (executor_idle_unless_cleared Samples.eager_oracles 0 Samples.paused_world).
  reflexivity.
Defined.

Lemma trail_refl auditing cid acc : trail auditing cid acc acc.
Proof.
  destruct acc as [[w ex] fa]. cbn. repeat split.
  exists [], [], [], []. rewrite !app_nil_r. cbn.
  split; [reflexivity|]. split; [reflexivity|]. split; [reflexivity|].
  split; [reflexivity|]. split; [lia|].
  destruct auditing; [repeat split; constructor|reflexivity].
Qed.

Lemma trail_trans auditing cid a b c :
  trail auditing cid a b -> trail auditing cid b c -> trail auditing cid a c.
Proof.
  destruct a as [[w ex] fa], b as [[w1 ex1] fa1], c as [[w2 ex2] fa2]. cbn.
  intros (a1 & a2 & a3 & a4 & a5 & a6 & i1 & e1 & x1 & f1
          & Hi1 & He1 & Hx1 & Hf1 & Hl1 & Ha1)
         (b1 & b2 & b3 & b4 & b5 & b6 & i2 & e2 & x2 & f2
          & Hi2 & He2 & Hx2 & Hf2 & Hl2 & Ha2).
  repeat split; try congruence.
  exists (i1 ++ i2)%list, (e1 ++ e2)%list, (x1 ++ x2)%list, (f1 ++ f2)%list.
  rewrite Hi2, Hi1, He2, He1, Hx2, Hx1, Hf2, Hf1, !app_assoc, !length_app.
  split; [reflexivity|]. split; [reflexivity|]. split; [reflexivity|].
  split; [reflexivity|]. split; [lia|].
  destruct auditing.
  - destruct Ha1 as (p1 & p2 & p3), Ha2 as (q1 & q2 & q3).
    unfold successes in *. rewrite List.filter_app, !length_app.
    repeat split; try lia. now apply Forall_app.
  - now rewrite Ha1, Ha2.
Qed.

Lemma execute_one_trail (o : Oracles) (k : nat) (state : AgentState.t)
    (tools : list string) (w : World) (ex fa : list (RemediationAction * string))
    (x : nat * RemediationAction) :
  trail (auditing w state) (default "" (cluster_id (get_metadata state))) (w, ex, fa)
    (execute_one o k state (cluster_id (get_metadata state)) tools (w, ex, fa) x).
Proof.
  unfold execute_one, auditing. destruct x as [i action].
  destruct (find _ tools) as [tool|].
  2: { cbn. repeat split. eexists [], [], [], [_]. rewrite !app_nil_r. cbn.
       split; [reflexivity|]. split; [reflexivity|]. split; [reflexivity|].
       split; [reflexivity|]. split; [lia|].
       destruct (cluster_id (get_metadata state)) as [cid|];
         [destruct (_ && _ && _)|]; try reflexivity; repeat split; constructor. }
  destruct (tool_call o k i tool _) as [result|msg];
    destruct (cluster_id (get_metadata state)) as [cid|];
    cbn [crud_available audit_write_ok with_invoked with_db storage db invoked default];
    try destruct (crud_available w && Py.truthy_str cid && audit_write_ok w) eqn:Ha;
    cbn; repeat split.
  all: first
    [ eexists [_], [_], [_], []; rewrite !app_nil_r; cbn;
      split; [reflexivity|]; split; [reflexivity|]; split; [reflexivity|];
      split; [reflexivity|]; split; [lia|];
      split; [reflexivity|]; split; [reflexivity|]; repeat constructor
    | eexists [_], [_], [], [_]; rewrite !app_nil_r; cbn;
      split; [reflexivity|]; split; [reflexivity|]; split; [reflexivity|];
      split; [reflexivity|]; split; [lia|];
      split; [reflexivity|]; split; [reflexivity|]; repeat constructor
    | eexists [_], [], [_], []; rewrite !app_nil_r; cbn;
      split; [reflexivity|]; split; [reflexivity|]; split; [reflexivity|];
      split; [reflexivity|]; split; [lia|reflexivity]
    | eexists [_], [], [], [_]; rewrite !app_nil_r; cbn;
      split; [reflexivity|]; split; [reflexivity|]; split; [reflexivity|];
      split; [reflexivity|]; split; [lia|reflexivity] ].
Qed.

Lemma trail_auditing (audits : bool) (cid : string) (state : AgentState.t)
    (w w1 : World) (ex fa ex1 fa1 : list (RemediationAction * string)) :
  trail audits cid (w, ex, fa) (w1, ex1, fa1) -> auditing w1 state = auditing w state.
Proof.
  cbn. intros (_ & Hc & Ha & _). unfold auditing. now rewrite Hc, Ha.
Qed.

Lemma execute_all_trail (o : Oracles) (k : nat) (state : AgentState.t)
    (tools : list string) (xs : list (nat * RemediationAction)) :
  forall (w : World) (ex fa : list (RemediationAction * string)),
    trail (auditing w state) (default "" (cluster_id (get_metadata state))) (w, ex, fa)
      (fold_left (execute_one o k state (cluster_id (get_metadata state)) tools) xs
         (w, ex, fa)).
Proof.
  induction xs as [|x xs IH]; intros w ex fa; [apply trail_refl|].
  cbn [fold_left].
  pose proof (execute_one_trail o k state tools w ex fa x) as H1.
  destruct (execute_one o k state _ tools (w, ex, fa) x) as [[w1 ex1] fa1].
  specialize (IH w1 ex1 fa1).
  rewrite (trail_auditing _ _ state _ _ _ _ _ _ H1) in IH.
  exact (trail_trans _ _ _ _ _ H1 IH).
Qed.

(** X8: when the executor runs a plan, it touches nothing but the list of
    tool invocations and the audit table, and both only grow; for each
    action at most one call is made of the tool the action maps to (the
    comment left on a revert pull request, which is not modelled, apart).
    When audit events can be written (backend importable, non-empty
    cluster id, write succeeds), every such call leaves exactly one
    event, attributed to the agent and to the cluster of the metadata,
    and the events with outcome SUCCESS are as many as the actions
    reported as executed; otherwise no event is written and the plan is
    carried out all the same. *)
Theorem executor_audit_trail (o : Oracles) (k : nat) (w : World)
    (state : AgentState.t) (p : RemediationPlan) :
  cleared w state = true -> remediation_plan state = Some p ->
  let w' := fst (_executor_node o k w state) in
  let u := snd (_executor_node o k w state) in
  storage w' = storage w
  /\ Backend.users (db w') = Backend.users (db w)
  /\ Backend.clusters (db w') = Backend.clusters (db w)
  /\ Backend.jobs (db w') = Backend.jobs (db w)
  /\ exists r new_inv new_ev,
      u_execution_results u = Some r
      /\ invoked w' = (invoked w ++ new_inv)%list
      /\ Backend.audit_events (db w') = (Backend.audit_events (db w) ++ new_ev)%list
      /\ (length (executed_actions r) <= length new_inv <= length (actions p))%nat
      /\ (if auditing w state
          then length new_ev = length new_inv
               /\ successes new_ev = length (executed_actions r)
               /\ Forall (fun e => Backend.actor_type e = "AGENT"
                                   /\ Some (Backend.event_cluster_id e)
                                      = cluster_id (get_metadata state)) new_ev
          else new_ev = []).
Proof.
  unfold cleared. rewrite !andb_true_iff, negb_true_iff, !bool_decide_eq_true.
  intros [[[Hl Happ] _] Ht] Hplan.
  unfold _executor_node. fold (Notions.lock_seen w state). rewrite Hl, Happ, Hplan.
  rewrite bool_decide_eq_true_2 by reflexivity. rewrite Ht. cbn [negb].
  pose proof (execute_all_trail o k state (tools (get_metadata state))
                (enumerate1 (actions p)) w [] []) as Htr.
  pose proof (ExecutorFacts.execute_all_accounts o k state (cluster_id (get_metadata state))
                (tools (get_metadata state)) (enumerate1 (actions p)) w [] []) as Hacc.
  destruct (fold_left _ _ _) as [[w' ex] fa].
  rewrite ExecutorFacts.enumerate1_length in Hacc. cbn [length] in Hacc.
  cbn in Htr.
  destruct Htr as (Hs & _ & _ & Hu & Hc & Hj & ni & ne & nx & nf
                   & Hi & He & -> & -> & Hlen & Haud).
  cbn [fst snd]. repeat (split; [assumption|]).
  eexists _, ni, ne. split; [reflexivity|]. cbn [executed_actions].
  split; [assumption|]. split; [assumption|]. split; [lia|].
  unfold auditing in *.
  destruct (cluster_id (get_metadata state)) as [cid|]; [|assumption].
  destruct (_ && _ && _); [|assumption].
  destruct Haud as (h1 & h2 & h3). split; [assumption|]. split; [assumption|].
  revert h3. apply List.Forall_impl. cbn. intros e [-> ->]. now split.
Qed.

Lemma executor_audit_trail_witness :
  cleared Samples.unreachable_world Samples.approved_state = true
  /\ Backend.jobs (db (fst (_executor_node Samples.eager_oracles 0
                              Samples.unreachable_world Samples.approved_state)))
     = Backend.jobs (db Samples.unreachable_world).
Proof.
  split; [reflexivity|].
  apply (executor_audit_trail Samples.eager_oracles 0 Samples.unreachable_world
           Samples.approved_state Samples.restart_plan); reflexivity.
Defined.

Lemma value_or_truthy (a b : Py.value) :
  Py.truthy b = true -> Py.truthy (value_or a b) = true.
Proof. unfold value_or. destruct (Py.truthy a) eqn:E; auto. Qed.

Lemma value_or_l (a b : Py.value) : Py.truthy a = true -> value_or a b = a.
Proof. unfold value_or. now intros ->. Qed.

Ltac branches :=
  repeat match goal with
         | |- context [if ?c then _ else _] => destruct c
         end.

Ltac lookups :=
  repeat first
    [ rewrite lookup_insert_ne by congruence
    | rewrite lookup_insert_eq
    | rewrite lookup_singleton_eq
    | rewrite lookup_singleton_ne by congruence ].

(** X9: the arguments prepared for a tool always carry a namespace that
    is truthy (never missing, never empty); a non-empty namespace label of
    the alert wins over the action's own parameter; every parameter of
    the action is passed on under its key, and verbatim unless the key is
    one of those the executor sets itself. *)
Theorem prepare_tool_args_contract (action : RemediationAction) (state : AgentState.t) :
  let args := _prepare_tool_args action state in
  (exists ns, args !! "namespace" = Some ns /\ Py.truthy ns = true)
  /\ (forall ctx ns,
        alert_context state = Some ctx -> labels ctx !! "namespace" = Some ns ->
        ns <> "" -> args !! "namespace" = Some (Py.VStr ns))
  /\ (forall key, is_Some (parameters action !! key) -> is_Some (args !! key))
  /\ (forall key, ~ In key executor_keys -> args !! key = parameters action !! key).
Proof.
  cbn zeta. unfold _prepare_tool_args.
  set (namespace := value_or _ _).
  assert (Hns : Py.truthy namespace = true)
    by (unfold namespace; do 2 apply value_or_truthy; reflexivity).
  split; [|split; [|split]].
  - exists namespace. split; [|exact Hns].
    apply lookup_union_Some_l. branches; lookups; reflexivity.
  - intros ctx ns Hctx Hlab Hne.
    apply lookup_union_Some_l.
    assert (namespace = Py.VStr ns) as <-.
    { unfold namespace. rewrite Hctx, Hlab. cbn [fmap option_fmap option_map default].
      apply value_or_l. destruct ns; [contradiction|reflexivity]. }
    branches; lookups; reflexivity.
  - intros key [v Hv]. rewrite lookup_union, Hv.
    match goal with |- is_Some (?x ∪ _) => destruct x; eexists; reflexivity end.
  - intros key Hkey. unfold executor_keys in Hkey. cbn [In] in Hkey.
    apply lookup_union_r.
    repeat match type of Hkey with
           | ~ (?a = key \/ _) =>
               assert (a <> key) by tauto;
               let H' := fresh in
               assert (H' : ~ _) by (intros ?; apply Hkey; right; eassumption);
               clear Hkey; rename H' into Hkey
           end.
    branches; lookups; reflexivity.
Qed.

End ExecutorMoreFacts.

(** ** Runs of the compiled graph *)

Module RunFacts.
Import PolicyEngine AgentState Graph Notions MoreNotions.

Lemma policy_gate_routing (state : AgentState.t) :
  u_next (_policy_gate_node state) = Some "executor"
  \/ u_next (_policy_gate_node state) = Some "aggregate".
Proof.
  unfold _policy_gate_node. destruct (remediation_plan state); [|now right].
  destruct (nonempty _); [now right|]. destruct (_ && _); [now right|now left].
Qed.

(** No router ever names a missing edge: every node but [END] has a
    successor, nearer to the end of the run. *)
Lemma graph_step_progress (b : Build) (o : Oracles) (k : nat) (n : Node)
    (w : World) (s : AgentState.t) :
  n <> END ->
  exists n' w' s',
    graph_step b o k n w s = Some (n', w', s')
    /\ (S (budget n' (rounds s')) <= budget n (rounds s))%nat
    /\ (shortest n <= S (shortest n'))%nat
    /\ (n' = END <-> n = aggregate).
Proof.
  intros Hn. destruct n; cbn [graph_step]; try contradiction.
  - eexists _, _, _. split; [reflexivity|]. cbn. repeat split; try lia; discriminate.
  - eexists _, _, _. split; [reflexivity|].
    unfold rounds. rewrite GraphFacts.merge_investigation_count. cbn [budget shortest].
    change (default 0 (pick (u_investigation_count
                               (investigation_swarm_with_agents b o k s))
                         (investigation_count s)))
      with (default 0 (investigation_count s) + 1).
    repeat split; try lia; discriminate.
  - destruct (GraphFacts.reflector_routing o k s) as [Hor Hiff]. cbn zeta in *.
    rewrite GraphFacts.merge_next.
    assert (Hc : rounds (merge s (_reflector_node o k s)) = rounds s).
    { unfold rounds. now rewrite GraphFacts.merge_investigation_count,
        GraphFacts.reflector_count. }
    destruct Hor as [Hs|Hp].
    + pose proof (proj1 Hiff Hs) as (_ & a & _ & _ & _ & Hlt).
      rewrite Hs. cbn. eexists _, _, _. split; [reflexivity|].
      rewrite Hc. fold (rounds s) in Hlt. cbn [budget shortest].
      repeat split; try lia; discriminate.
    + rewrite Hp. cbn. eexists _, _, _. split; [reflexivity|].
      cbn [budget shortest]. repeat split; try lia; discriminate.
  - eexists _, _, _. split; [reflexivity|]. cbn. repeat split; try lia; discriminate.
  - rewrite GraphFacts.merge_next.
    destruct (policy_gate_routing s) as [-> | ->]; cbn;
      (eexists _, _, _; split; [reflexivity|]); cbn;
      repeat split; try lia; discriminate.
  - destruct (_executor_node o k w s) as [w' u].
    eexists _, _, _. split; [reflexivity|]. cbn. repeat split; try lia; discriminate.
  - eexists _, _, _. split; [reflexivity|]. cbn. repeat split; try lia; discriminate.
  - eexists _, _, _. split; [reflexivity|]. cbn. repeat split; try lia; reflexivity.
Qed.

Lemma run_from_END (b : Build) (o : Oracles) (fuel k : nat) (w : World)
    (s : AgentState.t) :
  run_from b o fuel k END w s = ([], w).
Proof. destruct fuel; reflexivity. Qed.

Lemma Node_END_dec (n : Node) : n = END \/ n <> END.
Proof. destruct n; first [now left | right; discriminate]. Qed.

(** Fuel beyond the budget is never used. *)
Lemma run_from_stable (b : Build) (o : Oracles) (f1 : nat) :
  forall (f2 k : nat) (n : Node) (w : World) (s : AgentState.t),
    (budget n (rounds s) <= f1)%nat -> (budget n (rounds s) <= f2)%nat ->
    run_from b o f1 k n w s = run_from b o f2 k n w s.
Proof.
  induction f1 as [|f1 IH]; intros f2 k n w s H1 H2;
    destruct (Node_END_dec n) as [->|Hn]; try (now rewrite !run_from_END).
  - destruct n; cbn in H1; try lia. contradiction.
  - destruct (graph_step_progress b o k n w s Hn)
      as (n' & w' & s' & Hstep & Hdec & _ & _).
    destruct f2 as [|f2]; [lia|].
    cbn [run_from]. rewrite Hstep.
    rewrite (IH f2 (S k) n' w' s') by lia. reflexivity.
Qed.

Lemma run_from_shape (b : Build) (o : Oracles) (fuel : nat) :
  forall (k : nat) (n : Node) (w : World) (s : AgentState.t),
    n <> END -> (budget n (rounds s) <= fuel)%nat ->
    let events := fst (run_from b o fuel k n w s) in
    (shortest n <= length events <= budget n (rounds s))%nat
    /\ (exists st, head events = Some (n, st))
    /\ exists pre st,
        events = (pre ++ [(aggregate, st)])%list
        /\ Forall (fun e => fst e <> aggregate) pre.
Proof.
  induction fuel as [|fuel IH]; intros k n w s Hn Hb; cbn zeta.
  { destruct n; cbn in Hb; try lia. contradiction. }
  destruct (graph_step_progress b o k n w s Hn)
    as (n' & w' & s' & Hstep & Hdec & Hsh & Hend).
  cbn [run_from]. rewrite Hstep.
  destruct (Node_eqb n aggregate) eqn:Hagg.
  - assert (n = aggregate) as -> by (destruct n; try discriminate; reflexivity).
    assert (n' = END) as -> by now apply Hend.
    rewrite run_from_END. cbn.
    split; [lia|]. split; [eauto|]. exists [], s'. split; [reflexivity|constructor].
  - assert (Hn' : n' <> END).
    { intros H. apply Hend in H. subst n. discriminate. }
    assert (Hne : n <> aggregate) by (intros ->; discriminate).
    destruct (IH (S k) n' w' s' Hn' ltac:(lia)) as (L1 & _ & pre & st & P1 & F1).
    destruct (run_from b o fuel (S k) n' w' s') as [events w''].
    cbn [fst] in *. subst events. cbn [length].
    split; [lia|]. split; [cbn; eauto|].
    exists ((n, s') :: pre), st. split; [reflexivity|].
    constructor; [exact Hne|exact F1].
Qed.

(** X10: a run of the compiled graph from its entry point, on a state
    as the runners build it, always comes to an end: whatever the
    oracles answer, it takes at least six and at most twelve supersteps,
    starts with PREPARE, visits AGGREGATE exactly once, as its last
    node, and fuel beyond twelve supersteps is never used.  A run
    resumed from a state that came back from the store is such a run
    only when no alert context came back, or an empty text: on the text
    of an alert context the swarm raises, and the run is over after
    PREPARE without a visit to AGGREGATE. *)
Theorem astream_reaches_aggregate (b : Build) (o : Oracles) (fuel : nat) (w : World)
    (initial_state : AgentState.t) (r : Runtime.Resumed) :
  (12 <= fuel)%nat ->
  let events := fst (astream b o fuel w initial_state) in
  astream b o fuel w initial_state = astream b o 12 w initial_state
  /\ (6 <= length events <= 12)%nat
  /\ (exists st, head events = Some (prepare, st))
  /\ (exists pre st,
        events = (pre ++ [(aggregate, st)])%list
        /\ Forall (fun e => fst e <> aggregate) pre)
  /\ (if Py.truthy_str (default "" (Runtime.alert_context_text r))
      then exists st,
          Runtime.astream_resumed b o fuel w r
          = ([(prepare, st)], w, Some Runtime.no_alert_name)
      else Runtime.astream_resumed b o fuel w r
           = (astream b o fuel w (Runtime.usable r), None)).
Proof.
  intros Hf. unfold astream. split; [|split; [|split; [|split]]].
  - apply run_from_stable; cbn; lia.
  - apply (run_from_shape b o fuel 0 prepare w initial_state); [discriminate|exact Hf].
  - apply (run_from_shape b o fuel 0 prepare w initial_state); [discriminate|exact Hf].
  - apply (run_from_shape b o fuel 0 prepare w initial_state); [discriminate|exact Hf].
  - unfold Runtime.astream_resumed. destruct (Py.truthy_str _); [|reflexivity].
    destruct fuel as [|[|fuel]]; [lia|lia|].
    cbn [run_from graph_step]. eexists. reflexivity.
Qed.

(** The theorem at work: a run on the approved state of the samples,
    and the run resumed from the state stored for the paused alert. *)
Lemma astream_reaches_aggregate_witness :
  (12 <= 20)%nat
  /\ astream Samples.sample_build Samples.eager_oracles 20 Samples.unreachable_world
       Samples.approved_state
     = astream Samples.sample_build Samples.eager_oracles 12 Samples.unreachable_world
         Samples.approved_state
  /\ exists st,
      Runtime.astream_resumed Samples.sample_build Samples.eager_oracles 20
        Samples.reachable_world Samples.resumed_alert
      = ([(prepare, st)], Samples.reachable_world, Some Runtime.no_alert_name).
Proof.
  split; [lia|].
  pose proof (astream_reaches_aggregate Samples.sample_build Samples.eager_oracles 20
                Samples.unreachable_world Samples.approved_state Samples.resumed_alert
                ltac:(lia)) as (H1 & _).
  split; [exact H1|].
  exact (proj2 (proj2 (proj2 (proj2
           (astream_reaches_aggregate Samples.sample_build Samples.eager_oracles 20
              Samples.reachable_world Samples.approved_state Samples.resumed_alert
              ltac:(lia)))))).
Defined.

End RunFacts.

(** ** Tool wrappers, in general *)

Module ToolWrapperMoreFacts.
Import ToolWrapper Notions MoreNotions TextFacts.

Lemma original_invoke_run (tool : Tool) (input_data : string) (w : World) :
  let '(w', r) := original_invoke tool input_data w in
  invocations w' = S (invocations w) /\ same_bookkeeping w w'
  /\ match r with
     | inl result => returns tool (invocations w) input_data result
     | inr e => exists msg, e = Exception msg /\ raises tool (invocations w) input_data msg
     end.
Proof.
  unfold original_invoke, returns, raises.
  destruct (body tool (invocations w) input_data) as [d [result|msg]] eqn:E;
    (split; [reflexivity|]); (split; [now repeat split|]); eauto.
Qed.

Lemma retry_attempts_first_success (tool : Tool) (input_data : string) (extra : nat) :
  forall (attempt_number : nat) (w : World),
  exists w' r n,
    retry_attempts true (original_invoke tool) input_data extra attempt_number w = (w', r)
    /\ invocations w' = (invocations w + S n)%nat /\ (n <= extra)%nat
    /\ same_bookkeeping w w'
    /\ (forall j, (j < n)%nat -> exists msg, raises tool (invocations w + j) input_data msg)
    /\ match r with
       | inl result => returns tool (invocations w + n) input_data result
       | inr e => n = extra
                  /\ exists msg, e = Exception msg
                                 /\ raises tool (invocations w + n) input_data msg
       end.
Proof.
  induction extra as [|extra IH]; intros k w; cbn [retry_attempts];
    pose proof (original_invoke_run tool input_data w) as H1;
    destruct (original_invoke tool input_data w) as [w1 [result|e]];
    destruct H1 as (Hi & Hb & Hr).
  - exists w1, (inl result), 0%nat. rewrite Nat.add_0_r.
    split; [reflexivity|]. split; [lia|]. split; [lia|]. split; [assumption|].
    split; [intros j Hj; lia|assumption].
  - exists w1, (inr e), 0%nat. rewrite Nat.add_0_r.
    split; [reflexivity|]. split; [lia|]. split; [lia|]. split; [assumption|].
    split; [intros j Hj; lia|]. split; [reflexivity|assumption].
  - exists w1, (inl result), 0%nat. rewrite Nat.add_0_r.
    split; [reflexivity|]. split; [lia|]. split; [lia|]. split; [assumption|].
    split; [intros j Hj; lia|assumption].
  - destruct (IH (S k) (sleep (wait_exponential 1 1 10 k) w1))
      as (w2 & r & n & -> & Hi2 & Hn & Hb2 & Hprev & Hlast).
    cbn [sleep set_clock invocations] in Hi2, Hprev, Hlast.
    exists w2, r, (S n). split; [reflexivity|]. split; [lia|]. split; [lia|].
    split.
    { eapply ToolWrapperFacts.same_bookkeeping_trans; [exact Hb|].
      destruct Hb2 as (a & b & c & d). now repeat split. }
    rewrite Hi in Hprev, Hlast.
    replace (invocations w + S n)%nat with (S (invocations w) + n)%nat by lia.
    split; [|destruct r as [result|e']; [exact Hlast|];
             destruct Hlast as [-> Hm]; split; [reflexivity|exact Hm]].
    intros [|j] Hj.
    + rewrite Nat.add_0_r. destruct Hr as (msg & _ & Hm). eauto.
    + replace (invocations w + S j)%nat with (S (invocations w) + j)%nat by lia.
      apply Hprev. lia.
Qed.

(** X11: the retry layer never raises.  It runs the tool until the first
    run that returns, at most [max(1, max_attempts)] times, and hands on
    the result of that run; when every run raises it hands on the text
    of the error built from the last exception.  It leaves the breaker
    and the audit table alone. *)
Theorem safe_invoke_first_success (tool : Tool) (max_attempts : nat)
    (input_data : string) (w : World) :
  exists w' text n,
    safe_invoke (name tool) max_attempts (original_invoke tool) input_data w
    = (w', inl text)
    /\ invocations w' = (invocations w + S n)%nat /\ (S n <= Nat.max 1 max_attempts)%nat
    /\ same_bookkeeping w w'
    /\ (forall j, (j < n)%nat -> exists msg, raises tool (invocations w + j) input_data msg)
    /\ (returns tool (invocations w + n) input_data text
        \/ (S n = Nat.max 1 max_attempts
            /\ exists msg,
                raises tool (invocations w + n) input_data msg
                /\ text = to_agent_response
                            (tool_error_of (name tool) max_attempts (Exception msg)))).
Proof.
  unfold safe_invoke, invoke_with_retry.
  destruct (retry_attempts_first_success tool input_data (max_attempts - 1) 1%nat w)
    as (w' & r & n & -> & Hi & Hn & Hb & Hprev & Hlast).
  destruct r as [result|e].
  - exists w', result, n. split; [reflexivity|]. split; [assumption|]. split; [lia|].
    split; [assumption|]. split; [assumption|]. now left.
  - destruct Hlast as (-> & msg & -> & Hm).
    eexists w', _, _. split; [reflexivity|]. split; [eassumption|]. split; [lia|].
    split; [assumption|]. split; [assumption|].
    right. split; [lia|]. exists msg. split; [assumption|reflexivity].
Qed.

(** One failing call through a breaker that lets it pass. *)
Lemma cb_invoke_failure (tool : Tool) (input_data : string) (w : World) :
  always_fails tool -> check_circuit_breaker (name tool) w = None ->
  exists w1 msg,
    cb_invoke (name tool) (original_invoke tool) input_data w
    = (record_failure (name tool) w1, inr (Exception msg))
    /\ invocations w1 = S (invocations w) /\ breaker w1 = breaker w.
Proof.
  intros Hf Hc. unfold cb_invoke. rewrite Hc.
  destruct (ToolWrapperFacts.original_invoke_fails tool input_data w Hf)
    as (w1 & msg & -> & Hi & Hb & _).
  exists w1, msg. split; [reflexivity|]. split; assumption.
Qed.

Lemma check_closed (tool_name : string) (w : World) :
  default false (is_open (breaker w) !! tool_name) = false ->
  check_circuit_breaker tool_name w = None.
Proof. intros H. unfold check_circuit_breaker. now rewrite H. Qed.

Lemma failing_series (tool : Tool) :
  always_fails tool ->
  forall (calls : list (Z * string)) (w : World) (c : Z),
    default false (is_open (breaker w) !! name tool) = false ->
    default 0 (failures (breaker w) !! name tool) = c ->
    c + Z.of_nat (length calls) <= CIRCUIT_BREAKER_THRESHOLD ->
    c < CIRCUIT_BREAKER_THRESHOLD ->
    let '(w', outcomes) :=
      call_series (cb_invoke (name tool) (original_invoke tool)) calls w in
    invocations w' = (invocations w + length calls)%nat
    /\ failures (breaker w') !! name tool
       = match calls with
         | [] => failures (breaker w) !! name tool
         | _ :: _ => Some (c + Z.of_nat (length calls))
         end
    /\ default false (is_open (breaker w') !! name tool)
       = (CIRCUIT_BREAKER_THRESHOLD <=? c + Z.of_nat (length calls))
    /\ (calls <> [] -> last_failure (breaker w') !! name tool = Some (clock w')).
Proof.
  intros Hf calls. induction calls as [|[delay input_data] rest IH]; intros w c Ho Hc Hle Hlt.
  - cbn. rewrite Z.add_0_r.
    replace (CIRCUIT_BREAKER_THRESHOLD <=? c) with false by (symmetry; apply Z.leb_gt; lia).
    split; [lia|]. split; [reflexivity|]. split; [assumption|]. intros H; now contradiction H.
  - cbn [call_series].
    destruct (cb_invoke_failure tool input_data (set_clock (clock w + delay) w) Hf)
      as (w1 & msg & -> & Hi & Hb); [now apply check_closed|].
    cbn [set_clock invocations breaker] in Hi, Hb.
    set (w1' := record_failure (name tool) w1).
    assert (Hc1 : failures (breaker w1') !! name tool = Some (c + 1)).
    { unfold w1', record_failure. cbn. rewrite lookup_insert_eq, Hb, Hc. reflexivity. }
    assert (Hl1 : last_failure (breaker w1') !! name tool = Some (clock w1')).
    { unfold w1', record_failure. cbn. now rewrite lookup_insert_eq. }
    assert (Hi1 : invocations w1' = S (invocations w)) by exact Hi.
    assert (Ho1 : default false (is_open (breaker w1') !! name tool)
                  = (CIRCUIT_BREAKER_THRESHOLD <=? c + 1)).
    { unfold w1', record_failure. cbn. rewrite Hb, Hc.
      destruct (CIRCUIT_BREAKER_THRESHOLD <=? c + 1);
        [now rewrite lookup_insert_eq|assumption]. }
    destruct rest as [|call rest].
    + cbn [call_series length]. split; [lia|]. split; [rewrite Hc1; f_equal; lia|].
      split; [rewrite Ho1; f_equal|intros _; exact Hl1].
    + cbn [length] in Hle.
      assert (Hlt1 : c + 1 < CIRCUIT_BREAKER_THRESHOLD) by lia.
      specialize (IH w1' (c + 1)).
      destruct (call_series _ (call :: rest) w1') as [w2 outcomes].
      destruct IH as (I1 & I2 & I3 & I4).
      * rewrite Ho1. apply Z.leb_gt. lia.
      * now rewrite Hc1.
      * cbn [length]. lia.
      * exact Hlt1.
      * cbn [length] in *. split; [lia|]. split; [rewrite I2; f_equal; lia|].
        split; [rewrite I3; f_equal; lia|]. intros _. apply I4. discriminate.
Qed.

(** X12: the breaker wrapped directly around a tool that keeps raising.
    From a closed breaker with no failure on record, five calls all run
    the tool and open the breaker, whatever the pauses between them.  A
    sixth call made less than 60 s after the fifth returned is refused
    without running the tool and changes nothing; one made 60 s or more
    after it runs the tool once more, and its failure starts a new
    cooling-down period. *)
Theorem breaker_trips_at_threshold (tool : Tool) (calls : list (Z * string))
    (delay : Z) (input_data : string) (w : World) :
  always_fails tool ->
  default false (is_open (breaker w) !! name tool) = false ->
  default 0 (failures (breaker w) !! name tool) = 0 ->
  length calls = 5%nat ->
  let direct := cb_invoke (name tool) (original_invoke tool) in
  let w5 := fst (call_series direct calls w) in
  let w6 := fst (direct input_data (set_clock (clock w5 + delay) w5)) in
  let r6 := snd (direct input_data (set_clock (clock w5 + delay) w5)) in
  invocations w5 = (invocations w + 5)%nat
  /\ is_open (breaker w5) !! name tool = Some true
  /\ (delay < microseconds CIRCUIT_BREAKER_RECOVERY_TIME ->
      w6 = set_clock (clock w5 + delay) w5
      /\ exists msg, r6 = inr (Exception msg))
  /\ (microseconds CIRCUIT_BREAKER_RECOVERY_TIME <= delay ->
      invocations w6 = S (invocations w5)
      /\ is_open (breaker w6) !! name tool = Some true
      /\ last_failure (breaker w6) !! name tool = Some (clock w6)).
Proof.
  intros Hf Ho Hc Hlen. cbn zeta.
  pose proof (failing_series tool Hf calls w 0 Ho Hc) as H5.
  destruct (call_series _ calls w) as [w5 outcomes]. cbn [fst].
  rewrite Hlen in H5. destruct H5 as (I1 & I2 & I3 & I4); [unfold CIRCUIT_BREAKER_THRESHOLD; lia..|].
  assert (Hne : calls <> []) by (intros ->; discriminate).
  specialize (I4 Hne). destruct calls as [|call calls]; [contradiction|].
  change (CIRCUIT_BREAKER_THRESHOLD <=? 0 + Z.of_nat 5) with true in I3.
  assert (Hopen : is_open (breaker w5) !! name tool = Some true).
  { destruct (is_open (breaker w5) !! name tool) as [[|]|]; cbn in I3; congruence. }
  set (w5' := set_clock (clock w5 + delay) w5).
  destruct (Z.lt_ge_cases delay (microseconds CIRCUIT_BREAKER_RECOVERY_TIME)) as [Hd|Hd].
  - destruct (ToolWrapperFacts.cb_invoke_fails_fast (name tool) (original_invoke tool)
                input_data w5' (clock w5)) as [msg ->]; try assumption.
    { cbn. lia. }
    cbn [fst snd]. split; [assumption|]. split; [assumption|].
    split; [intros _; split; [reflexivity|eauto]|intros; lia].
  - rewrite (ToolWrapperFacts.cb_invoke_half_open (name tool) (original_invoke tool)
               input_data w5' (clock w5)); try assumption; [|cbn; lia].
    destruct (ToolWrapperFacts.original_invoke_fails tool input_data w5' Hf)
      as (w6 & msg & -> & Hi & Hb & _). cbn [fst snd].
    split; [assumption|]. split; [assumption|]. split; [lia|]. intros _.
    split; [exact Hi|]. unfold record_failure. cbn. rewrite lookup_insert_eq.
    split; [|reflexivity].
    destruct (CIRCUIT_BREAKER_THRESHOLD <=? _);
      [apply lookup_insert_eq|rewrite Hb; exact Hopen].
Qed.

Lemma breaker_trips_at_threshold_witness :
  always_fails black_hole_tool
  /\ is_open (breaker (fst (call_series
                              (cb_invoke "search_logs" (original_invoke black_hole_tool))
                              (repeat (0, "q") 5) fresh_world)))
       !! "search_logs" = Some true.
Proof.
  assert (Hf : always_fails black_hole_tool) by (intros i x; eexists _, _; reflexivity).
  split; [exact Hf|].
  exact (proj1 (proj2 (breaker_trips_at_threshold black_hole_tool (repeat (0, "q") 5)
                         0 "q" fresh_world Hf eq_refl eq_refl eq_refl))).
Defined.

Lemma original_invoke_breaker (tool : Tool) (input_data : string) (w : World) :
  breaker (fst (original_invoke tool input_data w)) = breaker w.
Proof.
  unfold original_invoke.
  destruct (body tool (invocations w) input_data) as [d [r|m]]; reflexivity.
Qed.

(** X13: the breaker's tables stay consistent under every call (open
    only with failures on record), and a call that returns a result
    always leaves the breaker closed for the tool with no failure on
    record, also when it was the trial call of an open breaker. *)
Theorem cb_invoke_success_closes (tool_name : string) (f : Invoke)
    (input_data : string) (w : World) :
  (forall x w0, breaker (fst (f x w0)) = breaker w0) ->
  consistent tool_name (breaker w) ->
  let w' := fst (cb_invoke tool_name f input_data w) in
  let r := snd (cb_invoke tool_name f input_data w) in
  consistent tool_name (breaker w')
  /\ (forall result, r = inl result -> closed_for tool_name (breaker w')).
Proof.
  intros Hf Hw. cbn zeta. unfold cb_invoke.
  destruct (check_circuit_breaker tool_name w) as [e|];
    [split; [exact Hw|discriminate]|].
  specialize (Hf input_data w).
  destruct (f input_data w) as [w1 [result|e]]; cbn [fst snd] in *.
  - unfold record_success. rewrite Hf.
    destruct (0 <? default 0 (failures (breaker w) !! tool_name)) eqn:E.
    + unfold consistent, closed_for. cbn. rewrite !lookup_insert_eq. cbn.
      split; [discriminate|]. intros _ _. split; [reflexivity|lia].
    + rewrite Hf. apply Z.ltb_ge in E. split; [exact Hw|]. intros _ _.
      unfold consistent in Hw. split; [|exact E].
      destruct (default false (is_open (breaker w) !! tool_name)); [|reflexivity].
      specialize (Hw eq_refl). lia.
  - split; [|discriminate].
    unfold record_failure, consistent in *. cbn. rewrite lookup_insert_eq, Hf. cbn.
    destruct (CIRCUIT_BREAKER_THRESHOLD <=? default 0 (failures (breaker w) !! tool_name) + 1)
      eqn:E.
    + intros _. apply Z.leb_le in E. unfold CIRCUIT_BREAKER_THRESHOLD in E. lia.
    + intros H. specialize (Hw H). lia.
Qed.

Lemma cb_invoke_success_closes_witness :
  consistent "search_logs" (breaker fresh_world)
  /\ consistent "search_logs"
       (breaker (fst (cb_invoke "search_logs" (original_invoke black_hole_tool) "q"
                        fresh_world))).
Proof.
  assert (H : consistent "search_logs" (breaker fresh_world)) by discriminate.
  split; [exact H|].
  exact (proj1 (cb_invoke_success_closes "search_logs" (original_invoke black_hole_tool)
                  "q" fresh_world (original_invoke_breaker black_hole_tool) H)).
Defined.

(** X14: the breaker keeps its books per tool: a call through the
    breaker of one tool leaves the entries of every other tool, in all
    three tables, as they were. *)
Theorem cb_invoke_other_tools (tool_name other : string) (f : Invoke)
    (input_data : string) (w : World) :
  (forall x w0, breaker (fst (f x w0)) = breaker w0) ->
  other <> tool_name ->
  breaker_entry other (breaker (fst (cb_invoke tool_name f input_data w)))
  = breaker_entry other (breaker w).
Proof.
  intros Hf Hne. unfold cb_invoke, breaker_entry.
  destruct (check_circuit_breaker tool_name w) as [e|]; [reflexivity|].
  specialize (Hf input_data w).
  destruct (f input_data w) as [w1 [result|e]]; cbn [fst] in *.
  - unfold record_success. rewrite Hf.
    destruct (0 <? _); [|now rewrite Hf].
    cbn. rewrite !lookup_insert_ne by congruence. reflexivity.
  - unfold record_failure. cbn. rewrite Hf.
    destruct (CIRCUIT_BREAKER_THRESHOLD <=? _);
      rewrite !lookup_insert_ne by congruence; reflexivity.
Qed.

Lemma cb_invoke_other_tools_witness :
  breaker_entry "query_metrics"
    (breaker (fst (cb_invoke "search_logs" (original_invoke black_hole_tool) "q"
                     fresh_world)))
  = breaker_entry "query_metrics" (breaker fresh_world).
Proof.
  apply (cb_invoke_other_tools "search_logs" "query_metrics"
           (original_invoke black_hole_tool) "q" fresh_world
           (original_invoke_breaker black_hole_tool)).
  discriminate.
Defined.

Lemma record_success_audit (tool_name : string) (w : World) :
  audit_table (record_success tool_name w) = audit_table w
  /\ audit_db_up (record_success tool_name w) = audit_db_up w
  /\ audit_context (record_success tool_name w) = audit_context w.
Proof. unfold record_success. destruct (0 <? _); now repeat split. Qed.

Lemma map_update_fresh {A} (upd : A -> A) (P : A -> Prop) (l : list A) :
  (forall x, P x -> upd x = x) -> Forall P l -> map upd l = l.
Proof.
  intros Hu Hl. induction Hl as [|x l Hx Hl IH]; [reflexivity|].
  cbn. now rewrite Hu, IH.
Qed.

(** X15: what the audit table records for a call of the composed stack
    that the breaker lets pass.  With the audit database up and ids that
    are fresh, the call adds exactly one row, for this tool and this
    input, and leaves the earlier rows as they were.  Because the retry
    layer turns every failure of the tool into a returned text, the row
    always ends with status SUCCESS, the (truncated) text as its result
    and no error message, also when every run of the tool raised. *)
Theorem wrapped_invoke_audit_row (tool : Tool) (max_attempts : nat)
    (input_data : string) (w : World) :
  audit_db_up w = true ->
  Forall (fun r => row_id r <> length (audit_table w)) (audit_table w) ->
  check_circuit_breaker (name tool) w = None ->
  exists w' text row,
    wrapped_invoke tool max_attempts input_data w = (w', inl text)
    /\ audit_table w' = (audit_table w ++ [row])%list
    /\ row_tool_name row = name tool /\ row_tool_args row = input_data
    /\ row_status row = "SUCCESS"
    /\ row_result row = truncate_result (Some text)
    /\ row_error_message row = None.
Proof.
  intros Hup Hfresh Hcheck.
  unfold wrapped_invoke, audit_invoke, log_audit_entry at 1. rewrite Hup.
  destruct (audit_context w) as [incident_id agent_name] eqn:Hctx.
  set (pending := {| row_id := length (audit_table w); row_tool_name := name tool |}).
  set (w0 := set_audit_table (audit_table w ++ [pending]) w).
  unfold cb_invoke.
  change (check_circuit_breaker (name tool) w0) with (check_circuit_breaker (name tool) w).
  rewrite Hcheck. unfold safe_invoke, invoke_with_retry.
  destruct (retry_attempts_first_success tool input_data (max_attempts - 1) 1%nat w0)
    as (w1 & r & n & -> & _ & _ & (_ & Ht & Hu & Hc) & _).
  destruct (record_success_audit (name tool) w1) as (Ht' & Hu' & Hc').
  assert (Hrow : forall text,
             exists row,
               audit_table
                 (fst (log_audit_entry (name tool) "SUCCESS" input_data (Some text) None
                         (Some (length (audit_table w)))
                         (record_success (name tool) w1)))
               = (audit_table w ++ [row])%list
               /\ row_tool_name row = name tool /\ row_tool_args row = input_data
               /\ row_status row = "SUCCESS"
               /\ row_result row = truncate_result (Some text)
               /\ row_error_message row = None).
  { intros text. unfold log_audit_entry. rewrite Hu', Hu. cbn [audit_db_up w0 set_audit_table].
    rewrite Hup, Hc', Hc. cbn [audit_context w0 set_audit_table]. rewrite Hctx.
    cbn [fst audit_table set_audit_table]. rewrite Ht', Ht.
    cbn [audit_table w0 set_audit_table]. rewrite map_app. cbn [map].
    rewrite (map_update_fresh _ (fun r => row_id r <> length (audit_table w))); [|
      intros x Hx; destruct (Nat.eqb_spec (row_id x) (length (audit_table w)));
        [contradiction|reflexivity] | exact Hfresh].
    cbn [pending row_id]. rewrite Nat.eqb_refl.
    eexists. split; [reflexivity|]. cbn. repeat split. }
  destruct r as [result|e].
  - destruct (Hrow result) as (row & H1 & H2). eexists _, result, row.
    split; [reflexivity|]. split; [exact H1|exact H2].
  - destruct (Hrow (to_agent_response (tool_error_of (name tool) max_attempts e)))
      as (row & H1 & H2).
    eexists _, _, row. split; [reflexivity|]. split; [exact H1|exact H2].
Qed.

Lemma wrapped_invoke_audit_row_witness :
  audit_db_up fresh_world = true
  /\ exists w' text row,
      wrapped_invoke black_hole_tool 3 "q" fresh_world = (w', inl text)
      /\ audit_table w' = (audit_table fresh_world ++ [row])%list
      /\ row_tool_name row = name black_hole_tool /\ row_tool_args row = "q"
      /\ row_status row = "SUCCESS"
      /\ row_result row = truncate_result (Some text)
      /\ row_error_message row = None.
Proof.
  split; [reflexivity|].
  apply (wrapped_invoke_audit_row black_hole_tool 3 "q" fresh_world);
    [reflexivity|constructor|reflexivity].
Defined.

(** X16: what the audit table stores as the result of a call: nothing
    for an empty result; the result itself when it has at most 10000
    characters; otherwise its first 10000 characters followed by a
    marker, so a stored result never has more than 10015 characters. *)
Theorem truncate_result_bounds (r : string) :
  (truncate_result (Some r) = None <-> r = "")
  /\ (Z.of_nat (String.length r) <= 10000 -> r <> "" -> truncate_result (Some r) = Some r)
  /\ (forall out,
        truncate_result (Some r) = Some out ->
        Z.of_nat (String.length out) <= 10015
        /\ String.prefix (String.substring 0 (Z.to_nat 10000) r) out = true).
Proof.
  unfold truncate_result.
  destruct r as [|c r]; [split; [split; reflexivity|split; [contradiction|discriminate]]|].
  cbn [Py.truthy_str].
  remember (String c r) as s eqn:Hs. remember (Z.to_nat 10000) as n eqn:Hn.
  assert (Hn' : Z.of_nat n = 10000) by (subst n; reflexivity). clear Hn.
  destruct (10000 <? Z.of_nat (String.length s)) eqn:E.
  - apply Z.ltb_lt in E. split; [split; [discriminate|congruence]|]. split; [lia|].
    intros out H. assert (out = String.substring 0 n s +:+ "... (truncated)") as ->
      by congruence.
    rewrite length_append, length_substring_0 by lia.
    split; [cbn [String.length]; lia|apply prefix_append].
  - apply Z.ltb_ge in E. split; [split; [discriminate|congruence]|]. split; [reflexivity|].
    intros out H. assert (out = s) as -> by congruence. split; [lia|].
    clear. revert n.
    induction s as [|c s IH]; intros [|n]; cbn; try reflexivity.
    destruct (Ascii.ascii_dec c c); [apply IH|contradiction].
Qed.

End ToolWrapperMoreFacts.

(** ** Session store *)

Module StateStoreFacts.
Import StateStore MoreNotions.

Lemma serving_iff (st : t) :
  serving st = true <->
  is_available st = true /\ forall command, commands_ok st command = true.
Proof.
  unfold serving. rewrite andb_true_iff, forallb_forall.
  split; intros [Ha Hc]; (split; [exact Ha|]).
  - intros command. apply Hc. destruct command; cbn; tauto.
  - intros command _. apply Hc.
Qed.

Lemma approval_key_inj (k k' : string) : approval_key k = approval_key k' -> k = k'.
Proof. unfold approval_key. intros H. now injection H. Qed.

Lemma logs_key_inj (k k' : string) : logs_key k = logs_key k' -> k = k'.
Proof. unfold logs_key. intros H. now injection H. Qed.

Lemma lock_key_inj (k k' : string) : lock_key k = lock_key k' -> k = k'.
Proof. unfold lock_key. intros H. now injection H. Qed.

Lemma approval_logs_apart (k k' : string) : approval_key k <> logs_key k'.
Proof. unfold approval_key, logs_key. intros H. injection H as H. discriminate. Qed.

Lemma approval_lock_apart (k k' : string) : approval_key k <> lock_key k'.
Proof. unfold approval_key, lock_key. intros H. injection H as H. discriminate. Qed.

Lemma logs_lock_apart (k k' : string) : logs_key k <> lock_key k'.
Proof. unfold logs_key, lock_key. intros H. injection H as H. discriminate. Qed.

Lemma is_available_with_keyspace (k : gmap string Entry) (st : t) :
  is_available (with_keyspace k st) = is_available st.
Proof. reflexivity. Qed.

Lemma commands_ok_with_keyspace (k : gmap string Entry) (st : t) :
  commands_ok (with_keyspace k st) = commands_ok st.
Proof. reflexivity. Qed.

Ltac settle Ha Hc :=
  repeat (progress
            (rewrite ?is_available_with_keyspace, ?commands_ok_with_keyspace, ?Ha, ?Hc,
               ?lookup_insert_eq, ?lookup_delete_eq;
             cbn [negb andb fst snd keyspace with_keyspace])).

Ltac serve H :=
  apply serving_iff in H; destruct H as [?Ha ?Hc];
  unfold set, get, delete, append_log, get_logs, set_cluster_lock, is_cluster_locked,
    redis_exists;
  settle Ha Hc.

(** X17: what is read back under a session key is the dictionary that
    was stored after its passage through JSON: texts, numbers and
    booleans as they were, every object (the plan, and in the state the
    alert context, the findings, the analysis, the messages, the tools
    and the agents) as its text.  It is read back until it is deleted.
    The time to live must be positive: otherwise [set] reports [False]
    and stores nothing.  Storing and deleting touch neither the
    snapshots of other sessions, nor any session's log, nor any
    cluster's lock. *)
Theorem set_get_delete (c : Json.Codec) (st : t) (key : string) (value : Value)
    (ttl : option Z) :
  serving st = true ->
  let st1 := fst (set c st key value ttl) in
  let st2 := fst (delete st1 key) in
  (0 < default (default_ttl st) ttl ->
   snd (set c st key value ttl) = true
   /\ get st1 key = Some (dumps c value)
   /\ (get st1 key ≫= snapshot_remediation_plan)
      = Json.str_plan c <$> value_remediation_plan value
   /\ (get st1 key ≫= stored_state) = Json.dumps_state c <$> value_state value
   /\ snd (delete st1 key) = true /\ get st2 key = None
   /\ snd (delete st2 key) = false /\ fst (delete st2 key) = st2)
  /\ (default (default_ttl st) ttl <= 0 -> set c st key value ttl = (st, false))
  /\ (forall other, other <> key ->
        get st1 other = get st other /\ get st2 other = get st other)
  /\ (forall k, get_logs st1 k = get_logs st k /\ get_logs st2 k = get_logs st k)
  /\ (forall cid, is_cluster_locked st1 cid = is_cluster_locked st cid
                  /\ is_cluster_locked st2 cid = is_cluster_locked st cid).
Proof.
  intros H. cbn zeta. serve H.
  destruct (0 <? default (default_ttl st) ttl) eqn:Httl;
    [apply Z.ltb_lt in Httl|apply Z.ltb_ge in Httl]; settle Ha Hc.
  - split; [intros _; repeat split|]. split; [intros Hle; lia|].
    split; [|split].
    + intros other Hne.
      assert (approval_key key <> approval_key other)
        by (intros E; apply approval_key_inj in E; congruence).
      rewrite lookup_delete_ne, !lookup_insert_ne by assumption. now split.
    + intros k. pose proof (approval_logs_apart key k).
      rewrite lookup_delete_ne, !lookup_insert_ne by assumption. now split.
    + intros cid. pose proof (approval_lock_apart key cid).
      rewrite lookup_delete_ne, !lookup_insert_ne by assumption. now split.
  - split; [intros Hlt; lia|]. split; [reflexivity|].
    split; [|split].
    + intros other Hne.
      assert (approval_key key <> approval_key other)
        by (intros E; apply approval_key_inj in E; congruence).
      destruct (keyspace st !! approval_key key); settle Ha Hc;
        rewrite ?lookup_delete_ne by assumption; now split.
    + intros k. pose proof (approval_logs_apart key k).
      destruct (keyspace st !! approval_key key); settle Ha Hc;
        rewrite ?lookup_delete_ne by assumption; now split.
    + intros cid. pose proof (approval_lock_apart key cid).
      destruct (keyspace st !! approval_key key); settle Ha Hc;
        rewrite ?lookup_delete_ne by assumption; now split.
Qed.

(** The theorem at work: the paused session of the samples is read back
    with its plan as a text. *)
Lemma set_get_delete_witness :
  serving Samples.reachable_store = true
  /\ 0 < default (default_ttl Samples.reachable_store) None
  /\ get (fst (set Samples.sample_codec Samples.reachable_store "inc-7"
                 Samples.paused_value None)) "inc-7"
     = Some Samples.paused_snapshot
  /\ snapshot_remediation_plan Samples.paused_snapshot = Some "plan_id='plan-2'".
Proof.
  split; [reflexivity|]. split; [reflexivity|]. split; [|reflexivity].
  refine (proj1 (proj2 (proj1 (set_get_delete Samples.sample_codec Samples.reachable_store
                                 "inc-7" Samples.paused_value None eq_refl) _))).
  reflexivity.
Defined.

(** X18: a line appended to a session's log is its last line, after all
    the earlier ones; the log's time to live is set when its first line
    is written and is not renewed by later lines.  Appending touches no
    other session's log, no snapshot and no lock. *)
Theorem append_log_appends (st : t) (key message : string) :
  serving st = true -> logs_well_typed st key ->
  let st1 := fst (append_log st key message) in
  snd (append_log st key message) = true
  /\ get_logs st1 key = (get_logs st key ++ [message])%list
  /\ logs_ttl st1 key
     = match get_logs st key with
       | [] => Some (default_ttl st)
       | _ :: _ => logs_ttl st key
       end
  /\ logs_well_typed st1 key
  /\ (forall other, other <> key ->
        get_logs st1 other = get_logs st other /\ logs_ttl st1 other = logs_ttl st other)
  /\ (forall k, get st1 k = get st k)
  /\ (forall c, is_cluster_locked st1 c = is_cluster_locked st c).
Proof.
  intros H Hwt. cbn zeta. unfold logs_well_typed, logs_ttl in *. serve H.
  destruct (keyspace st !! logs_key key) as [[v ttl|items ttl|v]|] eqn:E;
    try contradiction; settle Ha Hc.
  - destruct items as [|x items]; [contradiction|].
    assert (Hlen : Nat.eqb (length ((x :: items) ++ [message])) 1 = false).
    { apply Nat.eqb_neq. cbn [app length]. rewrite length_app. cbn [length]. lia. }
    rewrite Hlen. settle Ha Hc.
    split; [reflexivity|]. split; [reflexivity|]. split; [reflexivity|].
    split; [discriminate|].
    split; [|split].
    + intros other Hne.
      assert (logs_key key <> logs_key other)
        by (intros E'; apply logs_key_inj in E'; congruence).
      rewrite !lookup_insert_ne by assumption. now split.
    + intros k. pose proof (approval_logs_apart k key).
      rewrite !lookup_insert_ne by congruence. reflexivity.
    + intros c. pose proof (logs_lock_apart key c).
      rewrite !lookup_insert_ne by assumption. reflexivity.
  - change (Nat.eqb (length [message]) 1) with true. settle Ha Hc.
    split; [reflexivity|]. split; [reflexivity|]. split; [reflexivity|].
    split; [discriminate|].
    split; [|split].
    + intros other Hne.
      assert (logs_key key <> logs_key other)
        by (intros E'; apply logs_key_inj in E'; congruence).
      rewrite !lookup_insert_ne by assumption. now split.
    + intros k. pose proof (approval_logs_apart k key).
      rewrite !lookup_insert_ne by congruence. reflexivity.
    + intros c. pose proof (logs_lock_apart key c).
      rewrite !lookup_insert_ne by assumption. reflexivity.
Qed.

Lemma append_log_appends_witness :
  serving Samples.reachable_store = true
  /\ logs_well_typed Samples.reachable_store "inc-7"
  /\ get_logs (fst (append_log Samples.reachable_store "inc-7" "step")) "inc-7"
     = (get_logs Samples.reachable_store "inc-7" ++ ["step"])%list.
Proof.
  split; [reflexivity|]. split; [exact I|].
  exact (proj1 (proj2 (append_log_appends Samples.reachable_store "inc-7" "step"
                         eq_refl I))).
Defined.

(** X19: the emergency lock of a cluster reads back as it was last set,
    locked or unlocked, setting it twice is the same as setting it
    once, and it touches neither the lock of another cluster nor any
    session's snapshot or log. *)
Theorem cluster_lock_round_trip (st : t) (cluster_id : string) (locked : bool) :
  serving st = true ->
  let st1 := fst (set_cluster_lock st cluster_id locked) in
  snd (set_cluster_lock st cluster_id locked) = true
  /\ is_cluster_locked st1 cluster_id = locked
  /\ fst (set_cluster_lock st1 cluster_id locked) = st1
  /\ (forall other, other <> cluster_id ->
        is_cluster_locked st1 other = is_cluster_locked st other)
  /\ (forall k, get st1 k = get st k /\ get_logs st1 k = get_logs st k).
Proof.
  intros H. cbn zeta. serve H.
  destruct locked; settle Ha Hc.
  - split; [reflexivity|]. split; [reflexivity|].
    split; [now rewrite insert_insert_eq|].
    split.
    + intros other Hne.
      assert (lock_key cluster_id <> lock_key other)
        by (intros E; apply lock_key_inj in E; congruence).
      now rewrite lookup_insert_ne by assumption.
    + intros k. pose proof (approval_lock_apart k cluster_id).
      pose proof (logs_lock_apart k cluster_id).
      rewrite !lookup_insert_ne by congruence. now split.
  - split; [reflexivity|]. split; [reflexivity|].
    split; [now rewrite delete_delete_eq|].
    split.
    + intros other Hne.
      assert (lock_key cluster_id <> lock_key other)
        by (intros E; apply lock_key_inj in E; congruence).
      now rewrite lookup_delete_ne by assumption.
    + intros k. pose proof (approval_lock_apart k cluster_id).
      pose proof (logs_lock_apart k cluster_id).
      rewrite !lookup_delete_ne by congruence. now split.
Qed.

Lemma cluster_lock_round_trip_witness :
  serving Samples.reachable_store = true
  /\ is_cluster_locked (fst (set_cluster_lock Samples.reachable_store "c1" true)) "c1"
     = true.
Proof.
  split; [reflexivity|].
  exact (proj1 (proj2 (cluster_lock_round_trip Samples.reachable_store "c1" true eq_refl))).
Defined.

(** X20: no operation of the store raises.  When the server does not
    answer the ping, every operation reports failure (the writes
    [False], the reads nothing stored, no log line, no lock) and changes
    nothing; so does an operation whose command is not answered.
    [append_log] issues three commands: when [RPUSH] is answered but
    [LLEN] is not, or [EXPIRE] is not for the first line of a log, it
    reports [False] with the line appended, and the new log is left
    without a time to live. *)
Theorem store_soft_fails (c : Json.Codec) (st : t) (key message : string)
    (value : Value) (ttl : option Z) (locked : bool) :
  (is_available st = false ->
   set c st key value ttl = (st, false)
   /\ delete st key = (st, false)
   /\ append_log st key message = (st, false)
   /\ set_cluster_lock st key locked = (st, false)
   /\ get st key = None /\ get_logs st key = [] /\ is_cluster_locked st key = false)
  /\ (commands_ok st SETEX = false -> set c st key value ttl = (st, false))
  /\ (commands_ok st DEL = false ->
      delete st key = (st, false) /\ set_cluster_lock st key false = (st, false))
  /\ (commands_ok st SET = false -> set_cluster_lock st key true = (st, false))
  /\ (commands_ok st RPUSH = false -> append_log st key message = (st, false))
  /\ (commands_ok st GET = false -> get st key = None)
  /\ (commands_ok st LRANGE = false -> get_logs st key = [])
  /\ (commands_ok st EXISTS = false -> is_cluster_locked st key = false)
  /\ (is_available st = true -> commands_ok st RPUSH = true -> logs_well_typed st key ->
      commands_ok st LLEN = false
      \/ (logged st key = [] /\ commands_ok st EXPIRE = false) ->
      let st1 := fst (append_log st key message) in
      snd (append_log st key message) = false
      /\ logged st1 key = (logged st key ++ [message])%list
      /\ logs_ttl st1 key = logs_ttl st key
      /\ (forall k, k <> logs_key key -> keyspace st1 !! k = keyspace st !! k)).
Proof.
  unfold set, get, delete, append_log, get_logs, set_cluster_lock, is_cluster_locked.
  split; [intros ->; cbn [negb]; repeat split|].
  split; [intros ->; now destruct (negb (is_available st))|].
  split; [intros ->; now destruct (negb (is_available st))|].
  split; [intros ->; now destruct (negb (is_available st))|].
  split; [intros ->; now destruct (negb (is_available st))|].
  split; [intros ->; now destruct (negb (is_available st))|].
  split; [intros ->; now destruct (negb (is_available st))|].
  split; [intros ->; now destruct (negb (is_available st))|].
  intros Ha Hpush Hwt Hfail. cbn zeta. rewrite Ha, Hpush. cbn [negb].
  unfold logs_well_typed, logged, logs_ttl in *.
  destruct (keyspace st !! logs_key key) as [[v t0|items t0|v]|] eqn:E;
    try contradiction.
  - destruct items as [|x items]; [contradiction|].
    destruct Hfail as [Hl|[Hnil _]]; [|discriminate]. rewrite Hl.
    cbn [fst snd keyspace with_keyspace]. rewrite lookup_insert_eq.
    repeat split. intros k Hk. now rewrite lookup_insert_ne by congruence.
  - assert (Hout : (if commands_ok st LLEN
                    then if Nat.eqb (length [message]) 1
                         then if commands_ok st EXPIRE
                              then (with_keyspace
                                      (<[logs_key key := ListEntry [message]
                                                           (Some (default_ttl st))]>
                                         (keyspace st)) st, true)
                              else (with_keyspace
                                      (<[logs_key key := ListEntry [message] None]>
                                         (keyspace st)) st, false)
                         else (with_keyspace
                                 (<[logs_key key := ListEntry [message] None]>
                                    (keyspace st)) st, true)
                    else (with_keyspace
                            (<[logs_key key := ListEntry [message] None]>
                               (keyspace st)) st, false))
                   = (with_keyspace
                        (<[logs_key key := ListEntry [message] None]> (keyspace st)) st,
                      false)).
    { destruct Hfail as [->|[_ He]]; [reflexivity|].
      rewrite He. cbn. now destruct (commands_ok st LLEN). }
    rewrite Hout. cbn [fst snd keyspace with_keyspace]. rewrite lookup_insert_eq.
    repeat split. intros k Hk. now rewrite lookup_insert_ne by congruence.
Qed.

(** The theorem at work: on a store that answers [RPUSH] but not
    [LLEN], the first line of a log is written, without a time to live,
    and [append_log] reports [False]. *)
Lemma store_soft_fails_witness :
  is_available Samples.flaky_store = true
  /\ commands_ok Samples.flaky_store RPUSH = true
  /\ commands_ok Samples.flaky_store LLEN = false
  /\ snd (append_log Samples.flaky_store "inc-7" "line") = false
  /\ logged (fst (append_log Samples.flaky_store "inc-7" "line")) "inc-7" = ["line"]
  /\ logs_ttl (fst (append_log Samples.flaky_store "inc-7" "line")) "inc-7" = None.
Proof.
  split; [reflexivity|]. split; [reflexivity|]. split; [reflexivity|].
  destruct (proj2 (proj2 (proj2 (proj2 (proj2 (proj2 (proj2 (proj2
              (store_soft_fails Samples.sample_codec Samples.flaky_store "inc-7" "line"
                 Samples.paused_value None true))))))))
              eq_refl eq_refl I (or_introl eq_refl)) as (Hs & Hl & Ht & _).
  split; [exact Hs|]. split; [exact Hl|exact Ht].
Defined.

End StateStoreFacts.

(** ** Job queue, in general *)

Module DispatcherMoreFacts.
Import Backend Api Notions MoreNotions TextFacts.

Lemma find_replace_other (j' : Job) (js : list Job) (other : UUID) :
  other <> job_id j' ->
  find (fun j => String.eqb (job_id j) other) (replace_job j' js)
  = find (fun j => String.eqb (job_id j) other) js.
Proof.
  intros Hne. induction js as [|x rest IH]; [reflexivity|]. cbn [replace_job].
  destruct (String.eqb_spec (job_id x) (job_id j')) as [E|E]; cbn [find].
  - destruct (String.eqb_spec (job_id j') other); [congruence|].
    destruct (String.eqb_spec (job_id x) other); [congruence|]. reflexivity.
  - now rewrite IH.
Qed.

Lemma replace_job_length (j' : Job) (js : list Job) :
  length (replace_job j' js) = length js.
Proof.
  induction js as [|x rest IH]; [reflexivity|]. cbn [replace_job].
  destruct (String.eqb _ _); cbn; congruence.
Qed.

Lemma apply_status_update_logs (now : Z) (job : Job) (status_update : JobStatusUpdate) :
  String.prefix (default "" (logs job))
    (default "" (logs (apply_status_update now job status_update))) = true.
Proof.
  unfold apply_status_update. cbn [logs].
  assert (Hrefl : forall x, String.prefix x x = true).
  { intros x. rewrite <- (append_empty_r x) at 2. apply prefix_append. }
  destruct (new_logs status_update) as [l|]; [|apply Hrefl].
  destruct (Py.truthy_str l); [|apply Hrefl].
  destruct (logs job) as [[|c old]|]; cbn [Py.or_str Py.truthy_str default];
    change (default "" (Some ?x)) with x; change (default "" None) with "";
    first [apply prefix_empty | apply prefix_append].
Qed.

(** X21: what a status update can and cannot do to the job table.  An
    unknown job id changes nothing.  Otherwise exactly the row found
    under the id is rewritten: its identity (id, cluster, type, payload,
    creation time) stays, its log only grows at the end, a start time
    once set is kept, and a terminal status stamps the completion time.
    Every other job, and every user, cluster and audit event, is left
    as it was. *)
Theorem update_job_status_frame (now : Z) (db : DB) (id : UUID)
    (status_update : JobStatusUpdate) :
  let db' := fst (Backend.update_job_status now db id status_update) in
  let r := snd (Backend.update_job_status now db id status_update) in
  users db' = users db /\ clusters db' = clusters db
  /\ audit_events db' = audit_events db
  /\ length (jobs db') = length (jobs db)
  /\ (forall other, other <> id -> get_job_by_id db' other = get_job_by_id db other)
  /\ r = get_job_by_id db' id
  /\ match get_job_by_id db id with
     | None => db' = db /\ r = None
     | Some job =>
         exists job',
           r = Some job'
           /\ job_identity job' = job_identity job
           /\ status job' = new_status status_update
           /\ String.prefix (default "" (logs job)) (default "" (logs job')) = true
           /\ (is_Some (started_at job) -> started_at job' = started_at job)
           /\ (terminal (new_status status_update) = true -> completed_at job' = Some now)
     end.
Proof.
  cbn zeta. unfold Backend.update_job_status.
  destruct (get_job_by_id db id) as [job|] eqn:Hjob; cbn [fst snd].
  - pose proof (DispatcherFacts.get_job_by_id_id _ _ _ Hjob) as Hid.
    set (job' := apply_status_update now job status_update).
    assert (Hid' : job_id job' = id) by exact Hid.
    split; [reflexivity|]. split; [reflexivity|]. split; [reflexivity|].
    split; [apply replace_job_length|].
    split.
    { intros other Hne. unfold get_job_by_id. cbn [jobs with_jobs].
      apply find_replace_other. congruence. }
    split.
    { unfold get_job_by_id in *. cbn [jobs with_jobs]. rewrite <- Hid'.
      symmetry. apply (DispatcherFacts.find_replace_job job' (jobs db) job).
      now rewrite Hid'. }
    exists job'. split; [reflexivity|]. split; [reflexivity|]. split; [reflexivity|].
    split; [apply apply_status_update_logs|].
    split.
    + intros Hs. unfold job', apply_status_update. cbn [started_at].
      rewrite (bool_decide_eq_true_2 _ Hs). cbn [negb]. now rewrite andb_false_r.
    + intros Ht. unfold job', apply_status_update, terminal in *. cbn [completed_at].
      destruct (new_status status_update); try discriminate; reflexivity.
  - split; [reflexivity|]. split; [reflexivity|]. split; [reflexivity|].
    split; [reflexivity|]. split; [reflexivity|]. split; [now rewrite Hjob|].
    split; reflexivity.
Qed.

Lemma oldest_snoc (js : list Job) (x : Job) :
  oldest (js ++ [x])
  = match oldest js with
    | Some j => if created_at j <=? created_at x then Some j else Some x
    | None => Some x
    end.
Proof.
  induction js as [|a js IH]; [reflexivity|].
  cbn [app oldest]. rewrite IH.
  destruct (oldest js) as [j|].
  - destruct (created_at j <=? created_at x) eqn:E1;
      destruct (created_at a <=? created_at j) eqn:E2;
      destruct (created_at a <=? created_at x) eqn:E3;
      rewrite ?E1, ?E2, ?E3; try reflexivity; exfalso;
      rewrite ?Z.leb_le, ?Z.leb_gt in *; lia.
  - destruct (created_at a <=? created_at x); reflexivity.
Qed.

(** X22: a job triggered by a user of the owning organization joins the
    queue of its cluster as PENDING and behind the pending jobs that are
    already there: the next claim of that cluster's worker still gets
    the job it would have got (if that job was not created later than
    the new one), and gets the new job when the queue was empty.  The
    queues of all other clusters are unaffected. *)
Theorem trigger_then_claim (decode : string -> option string) (now : Z) (db : DB)
    (tok : string) (cid new_id : UUID) (jt : JobType) (pl : option string)
    (db' : DB) (job : Job) :
  trigger_job decode now db tok cid new_id jt pl = (db', Ok job) ->
  status job = PENDING /\ job_cluster_id job = cid /\ created_at job = now
  /\ jobs db' = (jobs db ++ [job])%list
  /\ users db' = users db /\ clusters db' = clusters db
  /\ snd (get_pending_job_for_cluster db' cid)
     = match snd (get_pending_job_for_cluster db cid) with
       | Some j => if created_at j <=? now then Some j else Some job
       | None => Some job
       end
  /\ (forall other, other <> cid ->
        snd (get_pending_job_for_cluster db' other)
        = snd (get_pending_job_for_cluster db other)).
Proof.
  unfold trigger_job.
  destruct (get_current_user_and_org decode db tok) as [user|c d]; [|discriminate].
  destruct (get_cluster_by_id db cid) as [cluster|]; [|discriminate].
  destruct (String.eqb (org_id cluster) (user_org_id user)); [|discriminate].
  intros [= <- <-]. cbn [status job_cluster_id created_at jobs users clusters with_jobs].
  split; [reflexivity|]. split; [reflexivity|]. split; [reflexivity|].
  split; [reflexivity|]. split; [reflexivity|]. split; [reflexivity|].
  unfold get_pending_job_for_cluster. cbn [snd jobs with_jobs].
  split.
  - rewrite List.filter_app. cbn [List.filter]. unfold is_pending_for at 2.
    cbn [job_cluster_id status]. rewrite String.eqb_refl. cbn [JobStatus_eqb andb].
    rewrite oldest_snoc. reflexivity.
  - intros other Hne. rewrite List.filter_app. cbn [List.filter].
    unfold is_pending_for at 2. cbn [job_cluster_id status].
    destruct (String.eqb_spec cid other); [congruence|]. cbn [andb].
    now rewrite app_nil_r.
Qed.

Lemma trigger_then_claim_witness :
  exists db' job,
    trigger_job Samples.decode_sample 100 Samples.two_org_db "tok-alice" "c1" "job-9"
      INVESTIGATION None = (db', Ok job)
    /\ jobs db' = (jobs Samples.two_org_db ++ [job])%list.
Proof.
  eexists _, _. split; [reflexivity|].
  eapply (trigger_then_claim Samples.decode_sample 100 Samples.two_org_db "tok-alice"
            "c1" "job-9" INVESTIGATION None).
  reflexivity.
Defined.

(** X23: a worker can change only jobs of the cluster its token belongs
    to.  Whatever job id and update it sends, to the status endpoint or
    to the log endpoint, a job of another cluster is found afterwards
    exactly as it was, and users, clusters and audit events are not
    touched; with a header that resolves to no cluster nothing changes
    at all. *)
Theorem worker_token_isolation (now : Z) (db : DB) (authorization : string)
    (id : UUID) (status_update : JobStatusUpdate) (text : string) :
  let db1 := fst (Api.update_job_status now db authorization id status_update) in
  let db2 := fst (append_job_logs now db authorization id text) in
  (forall id' j,
      get_job_by_id db id' = Some j ->
      (forall cluster, cluster_of_authorization db authorization = Ok cluster ->
                       job_cluster_id j <> cluster_id cluster) ->
      get_job_by_id db1 id' = Some j /\ get_job_by_id db2 id' = Some j)
  /\ users db1 = users db /\ clusters db1 = clusters db
  /\ audit_events db1 = audit_events db
  /\ users db2 = users db /\ clusters db2 = clusters db
  /\ audit_events db2 = audit_events db
  /\ (forall c d, cluster_of_authorization db authorization = HTTPException c d ->
        db1 = db /\ db2 = db).
Proof.
  cbn zeta. unfold Api.update_job_status, append_job_logs.
  destruct (cluster_of_authorization db authorization) as [cluster|c d];
    [|cbn [fst]; repeat split; assumption].
  destruct (get_job_by_id db id) as [job|] eqn:Hjob;
    [|cbn [fst]; repeat split; try assumption; discriminate].
  destruct (String.eqb_spec (job_cluster_id job) (cluster_id cluster)) as [Hown|Hown];
    [|cbn [fst]; repeat split; try assumption; discriminate].
  unfold Backend.update_job_status. rewrite Hjob. cbn [fst].
  pose proof (DispatcherFacts.get_job_by_id_id _ _ _ Hjob) as Hid.
  split; [|repeat split; discriminate].
  intros id' j Hj Hforeign. specialize (Hforeign cluster eq_refl).
  assert (Hne : id' <> id).
  { intros ->. rewrite Hjob in Hj. injection Hj as <-. contradiction. }
  unfold get_job_by_id in *. cbn [jobs with_jobs].
  rewrite !find_replace_other by (cbn [job_id apply_status_update]; congruence).
  now split.
Qed.

Lemma worker_token_isolation_witness :
  get_job_by_id Samples.two_org_db "job-2"
  = Some (Samples.job "job-2" PENDING 5 None None)
  /\ get_job_by_id
       (fst (Api.update_job_status 100 Samples.two_org_db "Bearer no-such-token" "job-2"
               {| new_status := FAILED; new_result := None; new_logs := None |}))
       "job-2"
     = Some (Samples.job "job-2" PENDING 5 None None).
Proof.
  split; [reflexivity|].
  apply (proj1 (worker_token_isolation 100 Samples.two_org_db "Bearer no-such-token"
                  "job-2" {| new_status := FAILED; new_result := None; new_logs := None |}
                  "")).
  - reflexivity.
  - intros cluster H. discriminate H.
Defined.

Lemma insert_desc_perm (e : AuditEvent) (es : list AuditEvent) :
  Permutation (insert_desc e es) (e :: es).
Proof.
  induction es as [|x es IH]; [reflexivity|]. cbn [insert_desc].
  destruct (event_timestamp x <? event_timestamp e); [reflexivity|].
  rewrite IH. apply perm_swap.
Qed.

Lemma insert_desc_sorted (e : AuditEvent) (es : list AuditEvent) :
  StronglySorted not_older es -> StronglySorted not_older (insert_desc e es).
Proof.
  induction es as [|x es IH]; intros Hs; [repeat constructor|].
  cbn [insert_desc]. inversion Hs as [|? ? Hs' Hall]; subst.
  destruct (event_timestamp x <? event_timestamp e) eqn:E.
  - apply Z.ltb_lt in E. constructor; [exact Hs|].
    constructor; [unfold not_older; lia|].
    revert Hall. apply List.Forall_impl. unfold not_older. intros; lia.
  - apply Z.ltb_ge in E. constructor; [now apply IH|].
    rewrite insert_desc_perm. constructor; [exact E|exact Hall].
Qed.

Lemma sort_desc (es : list AuditEvent) :
  Permutation (foldr insert_desc [] es) es
  /\ StronglySorted not_older (foldr insert_desc [] es).
Proof.
  induction es as [|e es [IHp IHs]]; [split; constructor|]. cbn [foldr]. split.
  - rewrite insert_desc_perm. now constructor.
  - now apply insert_desc_sorted.
Qed.

(** X24: the audit trail of a cluster, as the API reads it: at most
    [limit] events, all of that cluster, newest first, and they are the
    most recent ones: together with the events left out they are all
    the events of the cluster, and none left out is more recent than
    one that is returned. *)
Theorem get_audit_events_most_recent (db : DB) (cid : UUID) (limit : nat) :
  let es := get_audit_events db cid limit in
  length es = Nat.min limit (length (events_of db cid))
  /\ Forall (fun e => event_cluster_id e = cid /\ In e (audit_events db)) es
  /\ exists older,
      Permutation (es ++ older) (events_of db cid)
      /\ StronglySorted not_older (es ++ older).
Proof.
  cbn zeta. unfold get_audit_events. fold (events_of db cid).
  destruct (sort_desc (events_of db cid)) as [Hp Hs].
  set (sorted := foldr insert_desc [] (events_of db cid)) in *.
  split; [rewrite length_take, Hp; reflexivity|].
  split.
  - apply List.Forall_forall. intros e He.
    assert (Hin : In e (events_of db cid)).
    { apply (Permutation_in _ Hp). rewrite <- (take_drop limit sorted).
      apply in_or_app. now left. }
    unfold events_of in Hin. apply filter_In in Hin. destruct Hin as [Hin Hc].
    split; [now apply String.eqb_eq|exact Hin].
  - exists (drop limit sorted). rewrite take_drop. now split.
Qed.

End DispatcherMoreFacts.

(** ** Cluster registry and heartbeat *)

Module ClusterRegistryFacts.
Import Backend Api ClusterRegistry MoreNotions TextFacts.

Lemma split_on_no_sep (sep : ascii) (s : string) :
  PyMore.find_char sep s = None ->
  forall cur, PyMore.split_on sep s cur = [cur +:+ s].
Proof.
  induction s as [|c s IH]; intros H cur; cbn [PyMore.split_on].
  - now rewrite append_empty_r.
  - cbn [PyMore.find_char] in H. destruct (Ascii.eqb c sep); [discriminate|].
    destruct (PyMore.find_char sep s); [discriminate|].
    rewrite IH by reflexivity. now rewrite append_assoc.
Qed.

(** The two ways of reading a bearer token, [authorization.split(" ")[1]]
    of the agent endpoints and [authorization[7:]] of the job endpoints,
    agree on a token without spaces. *)
Lemma bearer_token (tok : string) :
  PyMore.find_char " "%char tok = None ->
  PyMore.split " "%char ("Bearer " +:+ tok) !! 1%nat = Some tok
  /\ Py.startswith ("Bearer " +:+ tok) "Bearer " = true
  /\ Py.drop_str 7 ("Bearer " +:+ tok) = tok.
Proof.
  intros H. split; [|split; [apply prefix_append|apply (drop_str_append "Bearer " tok)]].
  unfold PyMore.split. cbv [append]. cbn [PyMore.split_on Ascii.eqb Bool.eqb].
  rewrite split_on_no_sep by exact H. reflexivity.
Qed.

Lemma find_app_fresh {A} (f : A -> bool) (l : list A) (x : A) :
  find f l = None -> f x = true -> find f (l ++ [x]) = Some x.
Proof.
  intros Hl Hx. induction l as [|a l IH]; cbn in *; [now rewrite Hx|].
  destruct (f a); [discriminate|auto].
Qed.

(** X25: registering a cluster.  The new cluster belongs to the
    organization of the user who registered it and starts OFFLINE with
    no heartbeat.  When its token is fresh and without spaces, the token
    handed back authenticates an agent as this very cluster, on the
    agent endpoints and on the job endpoints alike.  The cluster shows
    up at the end of the list of its organization and in the list of no
    other organization. *)
Theorem registered_cluster_authenticates (decode : string -> option string) (db : DB)
    (tok name : string) (new_id : UUID) (hex : string) (user : User) :
  get_current_user_and_org decode db tok = Ok user ->
  get_cluster_by_token db ("cl_" +:+ hex) = None ->
  PyMore.find_char " "%char hex = None ->
  exists db' c,
    create_cluster_endpoint decode db tok name new_id hex
    = (db', Ok (new_id, name, "cl_" +:+ hex))
    /\ clusters db' = (clusters db ++ [c])%list
    /\ cluster_id c = new_id /\ org_id c = user_org_id user
    /\ cluster_status c = OFFLINE /\ last_heartbeat c = None
    /\ get_cluster_via_token db' (Some ("Bearer " +:+ token c)) = Ok c
    /\ cluster_of_authorization db' ("Bearer " +:+ token c) = Ok c
    /\ (forall tok' user',
          get_current_user_and_org decode db tok' = Ok user' ->
          list_clusters decode db' tok'
          = Ok (if String.eqb (user_org_id user) (user_org_id user')
                then (get_clusters_for_org db (user_org_id user') ++ [c])%list
                else get_clusters_for_org db (user_org_id user'))).
Proof.
  intros Hu Hfresh Hhex. unfold create_cluster_endpoint, create_cluster. rewrite Hu.
  eexists _, _. split; [reflexivity|]. cbn [clusters with_clusters].
  split; [reflexivity|]. cbn [cluster_id org_id cluster_status last_heartbeat token].
  split; [reflexivity|]. split; [reflexivity|]. split; [reflexivity|].
  split; [reflexivity|].
  assert (Hsp : PyMore.find_char " "%char ("cl_" +:+ hex) = None).
  { cbv [append]. cbn [PyMore.find_char Ascii.eqb Bool.eqb]. now rewrite Hhex. }
  destruct (bearer_token ("cl_" +:+ hex) Hsp) as (H1 & H2 & H3).
  set (c := {| cluster_id := new_id; token := "cl_" +:+ hex |}).
  assert (Hfind : get_cluster_by_token (with_clusters (clusters db ++ [c]) db)
                    ("cl_" +:+ hex) = Some c).
  { unfold get_cluster_by_token in *. cbn [clusters with_clusters].
    apply find_app_fresh; [exact Hfresh|]. apply String.eqb_refl. }
  split; [|split].
  - unfold get_cluster_via_token. rewrite H1, H2. cbn [negb orb].
    replace (Py.truthy_str ("Bearer " +:+ ("cl_" +:+ hex))) with true by reflexivity.
    cbn [negb]. now rewrite Hfind.
  - unfold cluster_of_authorization. rewrite H2, H3. cbn [negb]. now rewrite Hfind.
  - intros tok' user' Hu'. unfold list_clusters.
    change (get_current_user_and_org decode (with_clusters (clusters db ++ [c]) db) tok')
      with (get_current_user_and_org decode db tok').
    rewrite Hu'. unfold get_clusters_for_org. cbn [clusters with_clusters].
    rewrite List.filter_app. cbn [List.filter org_id c].
    destruct (String.eqb (user_org_id user) (user_org_id user'));
      [reflexivity|now rewrite app_nil_r].
Qed.

Lemma registered_cluster_authenticates_witness :
  exists db' c,
    create_cluster_endpoint Samples.decode_sample Samples.two_org_db "tok-alice" "edge-2"
      "c9" "0123abcd"
    = (db', Ok ("c9", "edge-2", "cl_0123abcd"))
    /\ cluster_of_authorization db' ("Bearer " +:+ token c) = Ok c.
Proof.
  destruct (registered_cluster_authenticates Samples.decode_sample Samples.two_org_db
              "tok-alice" "edge-2" "c9" "0123abcd" Samples.alice
              eq_refl eq_refl eq_refl)
    as (db' & c & H1 & _ & _ & _ & _ & _ & _ & H2 & _).
  exists db', c. split; [exact H1|exact H2].
Defined.

Lemma find_map_touch (now : Z) (cid id : UUID) (cs : list Cluster) :
  find (fun c => String.eqb (cluster_id c) id)
    (map (fun c => if String.eqb (cluster_id c) cid then online now c else c) cs)
  = (if String.eqb id cid then option_map (online now) else fun x => x)
      (find (fun c => String.eqb (cluster_id c) id) cs).
Proof.
  induction cs as [|c cs IH]; [now destruct (String.eqb id cid)|]. cbn [map find].
  destruct (String.eqb_spec (cluster_id c) cid) as [Hc|Hc].
  - cbn [online cluster_id].
    destruct (String.eqb_spec (cluster_id c) id) as [Hi|Hi].
    + subst. now rewrite String.eqb_refl.
    + exact IH.
  - destruct (String.eqb_spec (cluster_id c) id) as [Hi|Hi]; [|exact IH].
    subst. destruct (String.eqb_spec (cluster_id c) cid); [contradiction|reflexivity].
Qed.

(** X26: a heartbeat.  With a header that names no cluster the answer
    is an error and nothing changes.  Otherwise the cluster of the token
    is ONLINE afterwards with the time of the call as its last
    heartbeat, its other fields and all other clusters are as before,
    and users, jobs and audit events are not touched. *)
Theorem heartbeat_marks_online (now : Z) (db : DB) (authorization : option string) :
  let db' := fst (heartbeat now db authorization) in
  users db' = users db /\ jobs db' = jobs db /\ audit_events db' = audit_events db
  /\ match get_cluster_via_token db authorization with
     | HTTPException c d =>
         heartbeat now db authorization = (db, HTTPException c d)
     | Ok cluster =>
         snd (heartbeat now db authorization) = Ok "ok"
         /\ get_cluster_by_id db' (cluster_id cluster)
            = option_map (online now) (get_cluster_by_id db (cluster_id cluster))
         /\ (forall id, id <> cluster_id cluster ->
               get_cluster_by_id db' id = get_cluster_by_id db id)
         /\ map token (clusters db') = map token (clusters db)
         /\ map org_id (clusters db') = map org_id (clusters db)
     end.
Proof.
  cbn zeta. unfold heartbeat.
  destruct (get_cluster_via_token db authorization) as [cluster|c d];
    [|now repeat split].
  unfold update_cluster_heartbeat. cbn [fst snd users jobs audit_events with_clusters].
  split; [reflexivity|]. split; [reflexivity|]. split; [reflexivity|].
  split; [reflexivity|]. unfold get_cluster_by_id. cbn [clusters with_clusters].
  fold (online now).
  split; [|split; [|split]].
  - change (fun c => if String.eqb (cluster_id c) (cluster_id cluster)
                     then {| cluster_id := cluster_id c; cluster_name := cluster_name c;
                             org_id := org_id c; token := token c;
                             cluster_status := ONLINE; last_heartbeat := Some now |}
                     else c)
      with (fun c => if String.eqb (cluster_id c) (cluster_id cluster)
                     then online now c else c).
    rewrite find_map_touch. now rewrite String.eqb_refl.
  - intros id Hne.
    change (fun c => if String.eqb (cluster_id c) (cluster_id cluster)
                     then {| cluster_id := cluster_id c; cluster_name := cluster_name c;
                             org_id := org_id c; token := token c;
                             cluster_status := ONLINE; last_heartbeat := Some now |}
                     else c)
      with (fun c => if String.eqb (cluster_id c) (cluster_id cluster)
                     then online now c else c).
    rewrite find_map_touch.
    destruct (String.eqb_spec id (cluster_id cluster)); [contradiction|reflexivity].
  - rewrite map_map. apply map_ext. intros c. now destruct (String.eqb _ _).
  - rewrite map_map. apply map_ext. intros c. now destruct (String.eqb _ _).
Qed.

End ClusterRegistryFacts.

(** ** Narration lines *)

Module NarrationFacts.
Import Narration TextFacts.

Lemma find_char_append (c : ascii) (a b : string) :
  PyMore.find_char c a = None ->
  PyMore.find_char c (a +:+ String c b) = Some (String.length a).
Proof.
  induction a as [|x a IH]; intros H.
  - change ("" +:+ String c b) with (String c b). cbn [PyMore.find_char String.length].
    now rewrite Ascii.eqb_refl.
  - change (String x a +:+ String c b) with (String x (a +:+ String c b)).
    cbn [PyMore.find_char String.length] in *.
    destruct (Ascii.eqb x c); [discriminate|].
    destruct (PyMore.find_char c a); [discriminate|].
    now rewrite IH.
Qed.

(** X27: a line written by the narration callback is taken apart again
    by the log endpoint.  For a timestamp without a closing bracket that
    is longer than ten characters and contains a [T] or a space (as
    every ISO timestamp does), the entry built from the line
    [[timestamp] message] carries that timestamp, and as its text the
    message with the white space at both ends removed; a line that does
    not start with a bracket is kept whole, without a timestamp. *)
Theorem log_line_round_trip (timestamp message : string) :
  PyMore.find_char "]"%char timestamp = None ->
  (10 < String.length timestamp)%nat ->
  Py.str_in "T" timestamp || Py.str_in " " timestamp = true ->
  entry_timestamp (structured_redis_log (log_line timestamp message)) = Some timestamp
  /\ entry_tool_args (structured_redis_log (log_line timestamp message))
     = PyMore.strip message
  /\ (forall line,
        Py.startswith line "[" = false ->
        entry_timestamp (structured_redis_log line) = None
        /\ entry_tool_args (structured_redis_log line) = line).
Proof.
  intros Hb Hlen Hiso.
  assert (Hline : log_line timestamp message
                  = String "[" (timestamp +:+ String "]" (String " " message))).
    by reflexivity.
  split; [|split].
  3: { intros line Hl. unfold structured_redis_log. now rewrite Hl. }
  all: unfold structured_redis_log; rewrite Hline;
    change (Py.startswith (String "[" ?x) "[") with (String.prefix "" x);
    rewrite prefix_empty; cbn [PyMore.find_char Ascii.eqb Bool.eqb];
    rewrite (find_char_append "]" timestamp (String " " message) Hb);
    cbn [option_map]; unfold PyMore.slice;
    replace (S (String.length timestamp) - 1)%nat with (String.length timestamp) by lia;
    change (String.substring 1 ?n (String "[" ?x)) with (String.substring 0 n x);
    rewrite substring_0_append;
    destruct (Nat.ltb_spec 10 (String.length timestamp)) as [_|]; try lia;
    rewrite Hiso; cbn [andb];
    cbn [String.length]; rewrite length_append; cbn [String.length];
    destruct (Nat.ltb_spec (S (String.length timestamp) + 1)
                (S (String.length timestamp + S (S (String.length message)))))
      as [_|]; try lia.
  - reflexivity.
  - cbn [entry_tool_args].
    replace (S (String.length timestamp) + 1)%nat
      with (S (S (String.length timestamp))) by lia.
    change (Py.drop_str (S (S ?n)) (String "[" ?x)) with (Py.drop_str (S n) x).
    replace (timestamp +:+ String "]" (String " " message))
      with ((timestamp +:+ "]") +:+ String " " message) by now rewrite append_assoc.
    replace (S (String.length timestamp)) with (String.length (timestamp +:+ "]"))
      by (rewrite length_append; cbn; lia).
    rewrite drop_str_append. reflexivity.
Qed.

Lemma log_line_round_trip_witness :
  entry_timestamp
    (structured_redis_log (log_line "2024-05-01T10:00:00+00:00" "Thinking..."))
  = Some "2024-05-01T10:00:00+00:00".
Proof.
  apply (log_line_round_trip "2024-05-01T10:00:00+00:00" "Thinking...");
    [reflexivity|cbn; lia|reflexivity].
Defined.

End NarrationFacts.

(** ** Edge worker polling *)

Module JobPollerFacts.
Import JobPoller MoreNotions.

(** X28: the back-off of the polling loop.  A round in which no
    exception escapes resets the error count and waits the plain
    interval; a transport error, a rejected token and an unexpected
    status are such rounds, so a worker that cannot reach the dispatcher
    keeps polling at full rate.  A round that raises counts one more
    error and waits the interval doubled once per error in a row, never
    more than 60 s, and exactly 60 s from the sixth error on. *)
Theorem polling_backoff (poll_interval : Z) (consecutive_errors : nat)
    (response : PollResponse) (execute_raises : bool) :
  1 <= poll_interval ->
  let r := polling_round poll_interval consecutive_errors response execute_raises in
  let errors := fst (fst r) in
  let wait := snd r in
  raised RequestError execute_raises = false
  /\ raised Status401 execute_raises = false
  /\ (forall code, raised (StatusOther code) execute_raises = false)
  /\ (raised response execute_raises = false -> errors = 0%nat /\ wait = poll_interval)
  /\ (raised response execute_raises = true ->
      (1 <= errors <= S consecutive_errors)%nat
      /\ wait = Z.min (poll_interval * 2 ^ Z.of_nat errors) 60
      /\ 2 <= wait <= 60
      /\ ((6 <= errors)%nat -> wait = 60)).
Proof.
  intros Hp. cbn zeta.
  assert (Hpow : forall n : nat, 2 <= poll_interval * 2 ^ Z.of_nat (S n)).
  { intros n. rewrite Nat2Z.inj_succ, Z.pow_succ_r by lia.
    assert (1 <= 2 ^ Z.of_nat n) by (apply Z.lt_pred_le, Z.pow_pos_nonneg; lia). nia. }
  assert (Hbig : forall n : nat, (6 <= n)%nat -> 60 <= poll_interval * 2 ^ Z.of_nat n).
  { intros n Hn.
    assert (2 ^ 6 <= 2 ^ Z.of_nat n) by (apply Z.pow_le_mono_r; lia).
    change (2 ^ 6) with 64 in *. nia. }
  split; [reflexivity|]. split; [reflexivity|]. split; [reflexivity|].
  unfold polling_round, raised, backoff_wait.
  destruct (get_pending_job response) as [[job|]|msg]; [destruct execute_raises| |].
  - split; [discriminate|]. intros _. cbn [fst snd].
    pose proof (Hpow 0%nat). split; [lia|]. split; [reflexivity|]. split; [lia|].
    intros H6. lia.
  - split; [|discriminate]. intros _. split; reflexivity.
  - split; [|discriminate]. intros _. split; reflexivity.
  - split; [discriminate|]. intros _. cbn [fst snd].
    pose proof (Hpow consecutive_errors). split; [lia|]. split; [reflexivity|].
    split; [lia|]. intros H6. specialize (Hbig _ H6). lia.
Qed.

Lemma polling_backoff_witness :
  1 <= 5
  /\ snd (polling_round 5 7 (Status200 None) false) = 60.
Proof.
  split; [lia|].
  apply (polling_backoff 5 7 (Status200 None) false); [lia|reflexivity|cbn; lia].
Defined.

End JobPollerFacts.

(** ** What a run leaves behind, and approval *)

Module ResumeFacts.
Import PolicyEngine AgentState Graph Runtime Api Notions MoreNotions.

Lemma footprint_refl (w : World) : footprint w w.
Proof.
  unfold footprint. repeat (split; [reflexivity|]).
  split; exists []; now rewrite app_nil_r.
Qed.

Lemma footprint_trans (w1 w2 w3 : World) :
  footprint w1 w2 -> footprint w2 w3 -> footprint w1 w3.
Proof.
  intros (a1 & a2 & a3 & a4 & a5 & a6 & [i1 Hi1] & [e1 He1])
         (b1 & b2 & b3 & b4 & b5 & b6 & [i2 Hi2] & [e2 He2]).
  unfold footprint. repeat (split; [congruence|]).
  split; [exists (i1 ++ i2)%list|exists (e1 ++ e2)%list];
    rewrite app_assoc; congruence.
Qed.

Lemma executor_footprint (o : Oracles) (k : nat) (w : World) (state : AgentState.t) :
  footprint w (fst (_executor_node o k w state)).
Proof.
  unfold _executor_node.
  destruct (match cluster_id (get_metadata state) with Some _ => _ | None => _ end);
    [apply footprint_refl|].
  destruct (negb _); [apply footprint_refl|].
  destruct (remediation_plan state) as [p|]; [|apply footprint_refl].
  destruct (negb _); [apply footprint_refl|].
  pose proof (ExecutorMoreFacts.execute_all_trail o k state (tools (get_metadata state))
                (enumerate1 (actions p)) w [] []) as Htr.
  destruct (fold_left _ _ _) as [[w' ex] fa]. cbn [fst]. cbn in Htr.
  destruct Htr as (h1 & h2 & h3 & h4 & h5 & h6 & ni & ne & _ & _ & Hi & He & _).
  unfold footprint. repeat (split; [assumption|]). split; eauto.
Qed.

Lemma graph_step_footprint (b : Build) (o : Oracles) (k : nat) (n n' : Node)
    (w w' : World) (s s' : AgentState.t) :
  graph_step b o k n w s = Some (n', w', s') -> footprint w w'.
Proof.
  destruct n; cbn [graph_step]; intros H;
    try (injection H as <- <- <-; apply footprint_refl).
  - destruct (route _ _); [|discriminate]. injection H as <- <- <-. apply footprint_refl.
  - destruct (route _ _); [|discriminate]. injection H as <- <- <-. apply footprint_refl.
  - pose proof (executor_footprint o k w s) as Hf.
    destruct (_executor_node o k w s) as [w1 u]. injection H as <- <- <-. exact Hf.
  - discriminate.
Qed.

Lemma run_from_footprint (b : Build) (o : Oracles) (fuel : nat) :
  forall (k : nat) (n : Node) (w : World) (s : AgentState.t),
    footprint w (snd (run_from b o fuel k n w s)).
Proof.
  induction fuel as [|fuel IH]; intros k n w s; [apply footprint_refl|].
  cbn [run_from].
  destruct (graph_step b o k n w s) as [[[n' w'] s']|] eqn:Hstep; [|apply footprint_refl].
  specialize (IH (S k) n' w' s').
  destruct (run_from b o fuel (S k) n' w' s') as [events w'']. cbn [snd] in *.
  eapply footprint_trans; [|exact IH]. eapply graph_step_footprint; eauto.
Qed.

(** X29: a whole run of the graph, whatever the oracles answer and however
    long it goes on, writes nothing but tool invocations and audit
    events, and those only by adding to what is there: the session
    store (snapshots, logs, locks), the users, the clusters and the job
    queue are after the run what they were before it. *)
Theorem astream_footprint (b : Build) (o : Oracles) (fuel : nat) (w : World)
    (initial_state : AgentState.t) :
  footprint w (snd (astream b o fuel w initial_state)).
Proof. apply run_from_footprint. Qed.

Lemma astream_resumed_footprint (b : Build) (o : Oracles) (fuel : nat) (w : World)
    (r : Resumed) :
  footprint w (snd (fst (astream_resumed b o fuel w r))).
Proof.
  unfold astream_resumed. destruct (Py.truthy_str _).
  - destruct fuel as [|[|fuel]]; cbn [fst snd];
      [apply footprint_refl|apply run_from_footprint|apply run_from_footprint].
  - cbn [fst snd]. apply run_from_footprint.
Qed.

(** The store that [approve_remediation] leaves behind for a session
    with a stored state: the one that the delete left. *)
Lemma approve_remediation_storage (c : Json.Codec) (agent_graph : option Build)
    (global_tools : list string) (o : Oracles) (fuel : nat) (w : World)
    (session_id : string) (snapshot : StateStore.Snapshot) (stored : Json.State) :
  StateStore.get (storage w) session_id = Some snapshot ->
  StateStore.state snapshot = Some stored ->
  storage (fst (fst (approve_remediation c agent_graph global_tools o fuel w session_id)))
  = fst (StateStore.delete (storage w) session_id).
Proof.
  intros Hget Hstate. unfold approve_remediation.
  rewrite Hget, (ApprovalFacts.state_has_keys _ _ Hstate), Hstate. cbn [negb].
  destruct agent_graph as [b|]; [|reflexivity].
  pose proof (astream_resumed_footprint b o fuel
                (with_storage (fst (StateStore.delete (storage w) session_id)) w)
                (rehydrate c global_tools stored)) as (Hs & _).
  destruct (astream_resumed b o fuel _ _) as [[events w'] [e|]];
    cbn [fst snd] in *; rewrite Hs; reflexivity.
Qed.

(** X30: an approval is used up by the attempt to resume, when the
    store serves the delete.  When a snapshot with a state is found for
    the session, it is gone from the store when [approve_remediation]
    returns, whether the resumed run went through, raised, or could not
    even be started; a second approval of the same session answers 404,
    runs nothing and changes nothing.  The handler does not look at
    what [delete] returns: when the delete is not served, the snapshot
    is still in the store afterwards. *)
Theorem approval_is_one_shot (c : Json.Codec) (agent_graph : option Build)
    (global_tools : list string) (o : Oracles) (fuel : nat) (w : World)
    (session_id : string) (snapshot : StateStore.Snapshot) (stored : Json.State) :
  StateStore.get (storage w) session_id = Some snapshot ->
  StateStore.state snapshot = Some stored ->
  let w1 :=
    fst (fst (approve_remediation c agent_graph global_tools o fuel w session_id)) in
  (StateStore.commands_ok (storage w) StateStore.DEL = true ->
   StateStore.get (storage w1) session_id = None
   /\ forall c' agent_graph' global_tools' o' fuel',
       approve_remediation c' agent_graph' global_tools' o' fuel' w1 session_id
       = (w1, HTTPException 404
                ("No pending remediation found for session_id: " +:+ session_id), []))
  /\ (StateStore.commands_ok (storage w) StateStore.DEL = false ->
      StateStore.get (storage w1) session_id = Some snapshot).
Proof.
  intros Hget Hstate. cbn zeta.
  rewrite (approve_remediation_storage c agent_graph global_tools o fuel w session_id
             snapshot stored Hget Hstate).
  split.
  - intros Hd.
    pose proof (ApprovalFacts.get_after_delete (storage w) session_id Hd) as Hgone.
    split; [exact Hgone|].
    intros c' g' t' o' f'. unfold approve_remediation at 1.
    rewrite (approve_remediation_storage c agent_graph global_tools o fuel w session_id
               snapshot stored Hget Hstate).
    now rewrite Hgone.
  - intros Hd. now rewrite (ApprovalFacts.delete_not_served _ _ Hd).
Qed.

Lemma approval_is_one_shot_witness :
  StateStore.get (storage Samples.paused_world) "inc-1" = Some Samples.paused_snapshot
  /\ StateStore.get
       (storage (fst (fst (approve_remediation Samples.sample_codec
                             (Some Samples.sample_build) [] Samples.eager_oracles 12
                             Samples.paused_world "inc-1"))))
       "inc-1" = None.
Proof.
  split; [reflexivity|].
  eapply (proj1 (approval_is_one_shot Samples.sample_codec (Some Samples.sample_build) []
                   Samples.eager_oracles 12 Samples.paused_world "inc-1"
                   Samples.paused_snapshot _ eq_refl eq_refl) eq_refl).
Defined.

End ResumeFacts.
